(** * Interview-prep backend: scraper, quiz-schedule generator, notification
      dispatcher and scheduler loop

    A shallow embedding of
      - [backend/app/services/scraper.py]      (module [Scraper]),
      - [backend/app/services/scheduler.py]    (module [Scheduler]),
      - [backend/app/services/notification.py] (module [Notifier]),
    over the tables declared in [backend/app/models].  The methods of
    the three services that the first three modules leave out are in
    [SchedulerRest], [NotifierRest] and [WebScraper], the last over the
    fragments of BeautifulSoup and JSON in [Bs4] and [Json].

    Conventions.
      - A Python [str] is a [string]; [len] is [String.length] (the texts
        of interest are ASCII).
      - A [datetime] is a number of microseconds ([Z]); a [date] is a
        number of days; a [timedelta] is a number of microseconds.
      - A table with an integer primary key is a [gmap Z row]; a table
        read only through filters is a [list row].
      - A coroutine that may raise is a function into [outcome]; code
        that threads the database session, the clock and the logger is
        written in the monad [M] of module [Orm]. *)

From Stdlib Require Import Ascii.
From Stdlib Require String.
From stdpp Require Import gmap strings list fin_maps sorting pretty.

Open Scope Z_scope.

(** ** Python values shared by the three services *)

Module Py.

(** The exceptions that occur in the services.  [CancelledError] derives
    from [BaseException] only; every other one derives from
    [Exception]. *)
Inductive exn : Type :=
| HTTPError (msg : string)
| JSONDecodeError
| MultipleResultsFound
| DBAPIError (msg : string)
| FirebaseError (msg : string)
| CancelledError.

Definition is_Exception (e : exn) : bool :=
  match e with
  | CancelledError => false
  | _ => true
  end.

(** [str(e)] *)
Definition str_exn (e : exn) : string :=
  match e with
  | HTTPError msg => msg
  | JSONDecodeError => "Expecting value"
  | MultipleResultsFound =>
      "Multiple rows were found when one or none was required"
  | DBAPIError msg => msg
  | FirebaseError msg => msg
  | CancelledError => ""
  end.

(** What awaiting a coroutine gives: a value, or an exception. *)
Inductive outcome (A : Type) : Type :=
| Returned (a : A)
| Raised (e : exn).
Arguments Returned {A} a.
Arguments Raised {A} e.

Inductive level : Type := ERROR | INFO.
Definition log_record : Type := level * string.

(** Truth value of an [Optional[str]]: [None] and [''] are false. *)
Definition truthy_str (s : option string) : bool :=
  match s with
  | None => false
  | Some s => negb (String.eqb s "")
  end.

(** [str.strip()] with no argument removes the characters for which
    [str.isspace] holds; in ASCII these are 9-13, 28-31 and 32. *)
Definition isspace (c : ascii) : bool :=
  let n := nat_of_ascii c in
  ((9 <=? n) && (n <=? 13) || (28 <=? n) && (n <=? 32))%nat.

Fixpoint lstrip_chars (l : list ascii) : list ascii :=
  match l with
  | [] => []
  | c :: l' => if isspace c then lstrip_chars l' else l
  end.

Definition rstrip_chars (l : list ascii) : list ascii :=
  rev (lstrip_chars (rev l)).

Definition strip_chars (l : list ascii) : list ascii :=
  rstrip_chars (lstrip_chars l).

Definition strip (s : string) : string :=
  String.string_of_list_ascii (strip_chars (String.list_ascii_of_string s)).

End Py.

Export Py.

(** ** scraper.py *)

Module Scraper.

Record ScrapedQuestion : Type := mkScrapedQuestion {
  question_text : string;
  options : option (list string);
  correct_answer : option string;
  source_url : option string;
  source_name : option string;
  company_name : option string;
  topic : option string;
  difficulty : option string
}.

(** *** [_extract_questions_from_text] *)

Section Extraction.

(** [re.findall(pattern, text, re.IGNORECASE | re.MULTILINE)] for a
    pattern with one group: the list of the group's matches.  The
    patterns are kept as the engine's own type. *)
Context {pattern : Type}.
Variable findall : pattern -> string -> list string.
Variable question_patterns : list pattern.

(** The body of [for match in matches]. *)
Definition keep_match (questions : list string) (m : string)
  : list string :=
  let question := strip m in
  if bool_decide (10 < String.length question)%nat
     && bool_decide (question ∉ questions)
  then questions ++ [question]
  else questions.

(** The body of [for pattern in question_patterns]. *)
Definition scan_pattern (text : string) (questions : list string)
    (p : pattern) : list string :=
  foldl keep_match questions (findall p text).

Definition _extract_questions_from_text (text : string) : list string :=
  take 5 (foldl (scan_pattern text) [] question_patterns).

End Extraction.

(** *** The fragment of [re] the five patterns use

    Every pattern of [question_patterns] is a sequence of items, one
    capturing group in it: a literal text (compared without case under
    [re.IGNORECASE]), one character of a class, or a class under a
    greedy [*], a greedy [?] or a lazy [+?].  The matcher backtracks as
    [re] does: a greedy item tries the longer match first, a lazy one
    the shorter. *)

Inductive cset : Type :=
| Digit                       (* \d *)
| Space                       (* \s *)
| Dot                         (* .  : anything but a newline *)
| OneOf (cs : list ascii)     (* [...] of plain characters *)
| Union (a b : cset).         (* [...] of classes *)

Fixpoint cset_mem (cs : cset) (c : ascii) : bool :=
  match cs with
  | Digit => let n := nat_of_ascii c in ((48 <=? n) && (n <=? 57))%nat
  | Space => isspace c
  | Dot => negb (Ascii.eqb c "010"%char)
  | OneOf l => existsb (Ascii.eqb c) l
  | Union a b => cset_mem a c || cset_mem b c
  end.

Inductive item : Type :=
| Lit (s : string)
| Class (cs : cset)
| Star (cs : cset)
| Opt (cs : cset)
| PlusLazy (cs : cset).

Record regex : Type := mkRegex {
  before_group : list item;
  in_group : list item;
  after_group : list item
}.

Definition lower (c : ascii) : ascii :=
  let n := nat_of_ascii c in
  if ((65 <=? n) && (n <=? 90))%nat then ascii_of_nat (n + 32) else c.

Fixpoint skip_literal (lit : list ascii) (s : list ascii)
  : option (list ascii) :=
  match lit, s with
  | [], _ => Some s
  | _ :: _, [] => None
  | a :: lit', c :: s' =>
      if Ascii.eqb (lower a) (lower c) then skip_literal lit' s' else None
  end.

Section Matcher.
Context {R : Type}.

Definition orelse (a b : option R) : option R :=
  match a with
  | Some r => Some r
  | None => b
  end.

Fixpoint star_greedy (cs : cset) (k : list ascii -> option R)
    (s : list ascii) : option R :=
  match s with
  | c :: s' =>
      if cset_mem cs c then orelse (star_greedy cs k s') (k s) else k s
  | [] => k []
  end.

Fixpoint star_lazy (cs : cset) (k : list ascii -> option R)
    (s : list ascii) : option R :=
  orelse (k s)
    match s with
    | c :: s' => if cset_mem cs c then star_lazy cs k s' else None
    | [] => None
    end.

Fixpoint match_items (items : list item)
    (k : list ascii -> option R) (s : list ascii) : option R :=
  match items with
  | [] => k s
  | it :: items' =>
      let k' := match_items items' k in
      match it with
      | Lit lit =>
          match skip_literal (String.list_ascii_of_string lit) s with
          | Some s' => k' s'
          | None => None
          end
      | Class cs =>
          match s with
          | c :: s' => if cset_mem cs c then k' s' else None
          | [] => None
          end
      | Star cs => star_greedy cs k' s
      | Opt cs =>
          match s with
          | c :: s' =>
              if cset_mem cs c then orelse (k' s') (k' s) else k' s
          | [] => k' s
          end
      | PlusLazy cs =>
          match s with
          | c :: s' => if cset_mem cs c then star_lazy cs k' s' else None
          | [] => None
          end
      end
  end.
End Matcher.

(** A match of [r] that starts at the head of [s]: the text of the group
    and what follows the whole match. *)
Definition match_here (r : regex) (s : list ascii)
  : option (list ascii * list ascii) :=
  match_items (before_group r)
    (fun s1 =>
       match_items (in_group r)
         (fun s2 =>
            match_items (after_group r)
              (fun s3 => Some (take (length s1 - length s2) s1, s3))
              s2)
         s1)
    s.

(** The scan of [re.findall]: leftmost matches that do not overlap.  An
    empty match moves on by one character.  [fuel] bounds the number of
    positions tried. *)
Fixpoint findall_from (fuel : nat) (r : regex) (s : list ascii)
  : list string :=
  match fuel with
  | O => []
  | S fuel' =>
      match match_here r s with
      | Some (g, rest) =>
          String.string_of_list_ascii g ::
            (if bool_decide (length rest < length s)%nat
             then findall_from fuel' r rest
             else match s with
                  | _ :: s' => findall_from fuel' r s'
                  | [] => []
                  end)
      | None =>
          match s with
          | _ :: s' => findall_from fuel' r s'
          | [] => []
          end
      end
  end.

Definition re_findall (r : regex) (text : string) : list string :=
  let s := String.list_ascii_of_string text in
  findall_from (S (length s)) r s.

Definition question_group : list item :=
  [PlusLazy Dot; Class (OneOf ["?"%char])].

Definition colon_or_dot : cset := OneOf [":"%char; "."%char].
Definition quote : cset := OneOf ["034"%char; "'"%char].

Definition question_patterns : list regex :=
  [ (* Q\d*[:\.]?\s*(.+?\?) *)
    mkRegex [Lit "Q"; Star Digit; Opt colon_or_dot; Star Space]
            question_group [];
    (* Question\s*\d*[:\.]?\s*(.+?\?) *)
    mkRegex [Lit "Question"; Star Space; Star Digit; Opt colon_or_dot;
             Star Space]
            question_group [];
    (* They asked[:\s]*(.+?\?) *)
    mkRegex [Lit "They asked"; Star (Union (OneOf [":"%char]) Space)]
            question_group [];
    (* The interviewer asked[:\s]*(.+?\?) *)
    mkRegex [Lit "The interviewer asked";
             Star (Union (OneOf [":"%char]) Space)]
            question_group [];
    (* [q](.+?\?)[q], q being the class of the two quote characters *)
    mkRegex [Class quote] question_group [Class quote] ].

(** [WebScraper._extract_questions_from_text] *)
Definition extract_questions (text : string) : list string :=
  _extract_questions_from_text re_findall question_patterns text.

(** *** [scrape_all_sources] *)

(** The four adapter coroutines, as what awaiting them gives. *)
Record Adapters : Type := mkAdapters {
  scrape_tcyonline : string -> outcome (list ScrapedQuestion);
  scrape_prepinsta : string -> outcome (list ScrapedQuestion);
  scrape_indiabix : string -> outcome (list ScrapedQuestion);
  scrape_reddit_interviews :
    option string -> outcome (list ScrapedQuestion)
}.

(** [asyncio.gather] with its [return_exceptions] flag: with the flag, an
    exception of a task is an element of the result list; without it,
    the first exception is raised to the caller. *)
Fixpoint gather {A : Type} (return_exceptions : bool)
    (tasks : list (outcome A)) : outcome (list (A + exn)) :=
  match tasks with
  | [] => Returned []
  | t :: tasks' =>
      match t, gather return_exceptions tasks' with
      | Returned a, Returned rs => Returned (inl a :: rs)
      | Raised e, Returned rs =>
          if return_exceptions then Returned (inr e :: rs) else Raised e
      | Returned _, Raised e' => Raised e'
      | Raised e, Raised e' =>
          if return_exceptions then Raised e' else Raised e
      end
  end.

(** The body of [for result in results], on the pair of
    [all_questions] and the logger's records. *)
Definition fold_result
    (st : list ScrapedQuestion * list log_record)
    (result : list ScrapedQuestion + exn)
  : list ScrapedQuestion * list log_record :=
  match result with
  | inl l => (st.1 ++ l, st.2)
  | inr e =>
      if is_Exception e
      then (st.1, st.2 ++ [(ERROR, "Scraping task failed: " +:+ str_exn e)])
      else st
  end.

Definition tasks_of (ad : Adapters) (topic : string)
    (company : option string) : list (outcome (list ScrapedQuestion)) :=
  [scrape_tcyonline ad topic;
   scrape_prepinsta ad topic;
   scrape_indiabix ad topic]
  ++ (if truthy_str company
      then [scrape_reddit_interviews ad company] else []).

Definition scrape_all_sources (ad : Adapters) (topic : string)
    (company : option string)
  : outcome (list ScrapedQuestion) * list log_record :=
  match gather true (tasks_of ad topic company) with
  | Raised e => (Raised e, [])
  | Returned results =>
      let st := foldl fold_result ([], []) results in
      (Returned st.1, st.2)
  end.

(** The questions an adapter contributes. *)
Definition contribution {A : Type} (o : outcome (list A)) : list A :=
  match o with
  | Returned l => l
  | Raised _ => []
  end.

End Scraper.

(** ** The tables of [backend/app/models] and the SQLAlchemy session *)

Module Orm.

(** *** Time *)

Definition datetime : Type := Z.
Definition date : Type := Z.

Definition microseconds_per_day : Z := 86400000000.

(** [timedelta(days=d, weeks=w)] *)
Definition timedelta (days weeks : Z) : Z :=
  (days + 7 * weeks) * microseconds_per_day.

(** [t.date()] *)
Definition date_of (t : datetime) : date := t `div` microseconds_per_day.

(** A [date] compared with a DateTime column stands for its midnight. *)
Definition midnight (d : date) : datetime := d * microseconds_per_day.

(** *** Rows.  The primary key [id] of [users], [topics] and
    [notification_schedules] is the key of the table's map.  A Boolean
    column holds [true] or something that is not true. *)

Record User : Type := mkUser {
  u_is_active : bool;
  u_notification_enabled : bool;
  u_quiz_completion_goal : Z
}.

Record Topic : Type := mkTopic {
  t_name : string
}.

Record UserTopic : Type := mkUserTopic {
  ut_user_id : Z;
  ut_topic_id : Z;
  ut_is_active : bool;
  ut_priority : Z
}.

Record DailyQuizSchedule : Type := mkDailyQuizSchedule {
  dq_user_id : Z;
  dq_scheduled_date : datetime;
  dq_topics : list Z;
  dq_questions_per_topic : Z;
  dq_is_completed : bool
}.

Record NotificationSchedule : Type := mkNotificationSchedule {
  ns_user_id : Z;
  ns_notification_type : string;
  ns_scheduled_time : datetime;
  ns_frequency : string;
  ns_is_active : bool;
  ns_last_sent : option datetime;
  ns_next_send : option datetime;
  ns_title_template : string;
  ns_message_template : string
}.

Record Notification : Type := mkNotification {
  n_user_id : Z;
  n_title : string;
  n_message : string;
  n_notification_type : string;
  n_fcm_token : option string;
  n_data : option (list (string * string));
  n_is_sent : bool;
  n_sent_at : option datetime;
  n_fcm_message_id : option string
}.

Record Db : Type := mkDb {
  users : gmap Z User;
  topics : gmap Z Topic;
  user_topics : list UserTopic;
  daily_quiz_schedules : list DailyQuizSchedule;
  notification_schedules : gmap Z NotificationSchedule;
  notifications : list Notification
}.

Definition with_quiz (f : list DailyQuizSchedule -> list DailyQuizSchedule)
    (db : Db) : Db :=
  mkDb (users db) (topics db) (user_topics db)
       (f (daily_quiz_schedules db))
       (notification_schedules db) (notifications db).

Definition with_schedules
    (f : gmap Z NotificationSchedule -> gmap Z NotificationSchedule)
    (db : Db) : Db :=
  mkDb (users db) (topics db) (user_topics db) (daily_quiz_schedules db)
       (f (notification_schedules db)) (notifications db).

Definition with_notifications
    (f : list Notification -> list Notification) (db : Db) : Db :=
  mkDb (users db) (topics db) (user_topics db) (daily_quiz_schedules db)
       (notification_schedules db) (f (notifications db)).

(** *** The session.  [committed] is what the database holds; [txn] is
    what the session's transaction sees, its flushed work included;
    [new_quiz] and [new_notifications] are the objects given to
    [db.add] and not flushed yet. *)

Record Session : Type := mkSession {
  committed : Db;
  txn : Db;
  new_quiz : list DailyQuizSchedule;
  new_notifications : list Notification
}.

Definition flush (s : Session) : Session :=
  mkSession (committed s)
    (with_notifications (fun l => l ++ new_notifications s)
       (with_quiz (fun l => l ++ new_quiz s) (txn s)))
    [] [].

Definition commit_session (s : Session) : Session :=
  let s' := flush s in
  mkSession (txn s') (txn s') [] [].

Definition rollback_session (s : Session) : Session :=
  mkSession (committed s) (committed s) [] [].

(** [AsyncSessionLocal()] on a database. *)
Definition open_session (db : Db) : Session := mkSession db db [] [].

(** A message handed to [messaging.send]. *)
Record FcmMessage : Type := mkFcmMessage {
  fcm_title : string;
  fcm_body : string;
  fcm_data : list (string * string);
  fcm_token : string
}.

(** *** The world a service method runs in *)

Record World : Type := mkWorld {
  session : Session;
  ticks : nat;                      (* readings of the clock so far *)
  commits : nat;                    (* calls of db.commit so far *)
  rollbacks : nat;                  (* calls of db.rollback so far *)
  logged : list log_record;
  fcm_outbox : list FcmMessage;     (* calls of messaging.send so far *)
  slept : list Z                    (* asyncio.sleep arguments, seconds *)
}.

Definition with_session (f : Session -> Session) (w : World) : World :=
  mkWorld (f (session w)) (ticks w) (commits w) (rollbacks w) (logged w)
          (fcm_outbox w) (slept w).

(** What the code does not decide: the clock, the faults of the
    database, the session's configuration, Firebase. *)
Record Env : Type := mkEnv {
  utc_clock : nat -> datetime;      (* the k-th reading, in UTC *)
  utc_offset : Z;                   (* local time minus UTC *)
  commit_ok : nat -> bool;          (* does the k-th commit succeed *)
  rollback_ok : nat -> bool;        (* does the k-th rollback succeed *)
  autoflush : bool;                 (* the sessionmaker's autoflush *)
  firebase_app : bool;              (* self.firebase_app is not None *)
  fcm_send : nat -> option string   (* k-th messaging.send: message id *)
}.

Definition M (A : Type) : Type := World -> outcome A * World.

Definition ret {A : Type} (a : A) : M A := fun w => (Returned a, w).

Definition bind {A B : Type} (m : M A) (k : A -> M B) : M B :=
  fun w =>
    match m w with
    | (Returned a, w') => k a w'
    | (Raised e, w') => (Raised e, w')
    end.

Definition raise {A : Type} (e : exn) : M A := fun w => (Raised e, w).

(** [try: m  except Exception as e: h e] *)
Definition try_except {A : Type} (m : M A) (h : exn -> M A) : M A :=
  fun w =>
    match m w with
    | (Returned a, w') => (Returned a, w')
    | (Raised e, w') =>
        if is_Exception e then h e w' else (Raised e, w')
    end.

Declare Scope orm_scope.
Delimit Scope orm_scope with orm.
Notation "'let*' x := m 'in' k" := (bind m (fun x => k))
  (at level 10, x pattern, m at level 100, k at level 200) : orm_scope.
Notation "m ;; k" := (bind m (fun _ => k))
  (at level 100, k at level 200, right associativity) : orm_scope.
Open Scope orm_scope.

(** [for x in l: acc = body acc x], for a loop that builds a value. *)
Fixpoint for_acc {A B : Type} (l : list A) (acc : B)
    (body : B -> A -> M B) : M B :=
  match l with
  | [] => ret acc
  | x :: l' => let* acc' := body acc x in for_acc l' acc' body
  end.

(** [for x in l: body x] *)
Definition for_each {A : Type} (l : list A) (body : A -> M unit)
  : M unit :=
  for_acc l () (fun _ x => body x).

Definition log (lv : level) (msg : string) : M unit :=
  fun w =>
    (Returned (),
     mkWorld (session w) (ticks w) (commits w) (rollbacks w)
             (logged w ++ [(lv, msg)]) (fcm_outbox w) (slept w)).

(** [await asyncio.sleep(seconds)] *)
Definition sleep (seconds : Z) : M unit :=
  fun w =>
    (Returned (),
     mkWorld (session w) (ticks w) (commits w) (rollbacks w)
             (logged w) (fcm_outbox w) (slept w ++ [seconds])).

(** [scalar_one_or_none()] on the rows of a result. *)
Definition scalar_one_or_none {A : Type} (rows : list A) : M (option A) :=
  match rows with
  | [] => ret None
  | [x] => ret (Some x)
  | _ :: _ :: _ => raise MultipleResultsFound
  end.

Section Operations.
Variable env : Env.

(** [datetime.utcnow()] *)
Definition utcnow : M datetime :=
  fun w =>
    (Returned (utc_clock env (ticks w)),
     mkWorld (session w) (S (ticks w)) (commits w) (rollbacks w)
             (logged w) (fcm_outbox w) (slept w)).

(** [datetime.now()] *)
Definition now : M datetime :=
  let* t := utcnow in ret (t + utc_offset env).

(** [await db.execute(q)]: the pending objects are flushed first when
    the session autoflushes; the query then reads the transaction. *)
Definition execute {A : Type} (q : Db -> A) : M A :=
  fun w =>
    let w' := if autoflush env then with_session flush w else w in
    (Returned (q (txn (session w'))), w').

(** [db.add(quiz_schedule)] *)
Definition add_quiz (q : DailyQuizSchedule) : M unit :=
  fun w =>
    (Returned (),
     with_session
       (fun s => mkSession (committed s) (txn s) (new_quiz s ++ [q])
                           (new_notifications s)) w).

(** [db.add(notification)] *)
Definition add_notification (n : Notification) : M unit :=
  fun w =>
    (Returned (),
     with_session
       (fun s => mkSession (committed s) (txn s) (new_quiz s)
                           (new_notifications s ++ [n])) w).

(** Assignments to the attributes of a loaded schedule object. *)
Definition update_schedule (id : Z)
    (f : NotificationSchedule -> NotificationSchedule) : M unit :=
  fun w =>
    (Returned (),
     with_session
       (fun s => mkSession (committed s)
                   (with_schedules (alter f id) (txn s))
                   (new_quiz s) (new_notifications s)) w).

(** Assignments to the attributes of loaded notification records. *)
Definition update_notifications
    (f : list Notification -> list Notification) : M unit :=
  fun w =>
    (Returned (),
     with_session
       (fun s => mkSession (committed s)
                   (with_notifications f (txn s))
                   (new_quiz s) (new_notifications s)) w).

(** [await db.commit()] *)
Definition commit : M unit :=
  fun w =>
    let w' := mkWorld (session w) (ticks w) (S (commits w))
                      (rollbacks w) (logged w) (fcm_outbox w)
                      (slept w) in
    if commit_ok env (commits w)
    then (Returned (), with_session commit_session w')
    else (Raised (DBAPIError "commit failed"), w').

(** [await db.rollback()] *)
Definition rollback : M unit :=
  fun w =>
    let w' := mkWorld (session w) (ticks w) (commits w)
                      (S (rollbacks w)) (logged w) (fcm_outbox w)
                      (slept w) in
    if rollback_ok env (rollbacks w)
    then (Returned (), with_session rollback_session w')
    else (Raised (DBAPIError "rollback failed"), w').

(** [async with AsyncSessionLocal() as db: body]: a session of its own
    on what the database holds; what is not committed when the block
    is left is dropped with the session. *)
Definition async_with_session {A : Type} (body : M A) : M A :=
  fun w =>
    let fresh s := open_session (committed s) in
    let (r, w') := body (with_session fresh w) in
    (r, with_session fresh w').

(** [messaging.send(message)] *)
Definition messaging_send (msg : FcmMessage) : M string :=
  fun w =>
    let w' := mkWorld (session w) (ticks w) (commits w) (rollbacks w)
                      (logged w) (fcm_outbox w ++ [msg]) (slept w) in
    match fcm_send env (length (fcm_outbox w)) with
    | Some id => (Returned id, w')
    | None => (Raised (FirebaseError "send failed"), w')
    end.

End Operations.

End Orm.

(** ** scheduler.py *)

Module Scheduler.
Import Orm.

(** *** The queries of [_create_daily_quiz_schedules] *)

(** [select(User).where(User.is_active == True)] *)
Definition select_active_users (db : Db) : list (Z * User) :=
  filter (λ r, u_is_active r.2 = true) (map_to_list (users db)).

(** [select(DailyQuizSchedule).where(and_(user_id == uid,
    scheduled_date >= today, scheduled_date < tomorrow))] *)
Definition select_schedule_between (uid : Z) (today tomorrow : date)
    (db : Db) : list DailyQuizSchedule :=
  filter
    (λ q, dq_user_id q = uid
          ∧ midnight today <= dq_scheduled_date q
          ∧ dq_scheduled_date q < midnight tomorrow)
    (daily_quiz_schedules db).

(** [.order_by(UserTopic.priority.desc())] *)
Definition priority_desc (a b : UserTopic * Topic) : Prop :=
  ut_priority b.1 <= ut_priority a.1.

#[global] Instance priority_desc_dec : RelDecision priority_desc.
Proof. intros a b. unfold priority_desc. apply _. Defined.

Definition order_by_priority_desc (rows : list (UserTopic * Topic))
  : list (UserTopic * Topic) :=
  merge_sort priority_desc rows.

(** [.join(Topic, UserTopic.topic_id == Topic.id)] on one row. *)
Definition join_topic (db : Db) (ut : UserTopic)
  : list (UserTopic * Topic) :=
  match topics db !! ut_topic_id ut with
  | Some t => [(ut, t)]
  | None => []
  end.

(** [select(UserTopic, Topic).join(...).where(and_(user_id == uid,
    is_active == True))], before the ordering. *)
Definition active_associations (uid : Z) (db : Db)
  : list (UserTopic * Topic) :=
  filter (λ r, ut_user_id r.1 = uid ∧ ut_is_active r.1 = true)
    (flat_map (join_topic db) (user_topics db)).

Definition select_user_topics (uid : Z) (db : Db)
  : list (UserTopic * Topic) :=
  order_by_priority_desc (active_associations uid db).

Section Service.
Variable env : Env.

(** The body of [for user in users]. *)
Definition schedule_user (today tomorrow : date) (user : Z * User)
  : M unit :=
  let* existing_schedule :=
    execute env (select_schedule_between user.1 today tomorrow) in
  let* existing := scalar_one_or_none existing_schedule in
  match existing with
  | Some _ => ret ()                (* continue *)
  | None =>
      let* user_topics := execute env (select_user_topics user.1) in
      match user_topics with
      | [] => ret ()                (* continue *)
      | _ :: _ =>
          let selected_topics :=
            (fun r => ut_topic_id r.1) <$> take 5 user_topics in
          let* scheduled_date := now env in
          add_quiz
            (mkDailyQuizSchedule user.1 scheduled_date selected_topics
               1 false)
      end
  end.

(** The [try] block of [_create_daily_quiz_schedules]. *)
Definition create_schedules_block : M unit :=
  let* t := now env in
  let today := date_of t in
  let tomorrow := today + 1 in
  let* users := execute env select_active_users in
  for_each users (schedule_user today tomorrow) ;;
  commit env ;;
  log INFO
    ("Created daily quiz schedules for "
       +:+ pretty (length users) +:+ " users").

Definition _create_daily_quiz_schedules : M unit :=
  try_except create_schedules_block
    (fun e =>
       log ERROR ("Error creating daily quiz schedules: " +:+ str_exn e) ;;
       rollback env).

(** One turn of the [while self.is_running] loop of
    [_daily_quiz_scheduler]. *)
Definition daily_quiz_iteration : M unit :=
  try_except
    (async_with_session _create_daily_quiz_schedules ;;
     sleep 3600)
    (fun e =>
       log ERROR ("Error in daily quiz scheduler: " +:+ str_exn e) ;;
       sleep 300).

(** The job as the loop runs it: in a session of its own. *)
Definition run_generator (w : World) : World :=
  (async_with_session _create_daily_quiz_schedules w).2.

(** The loop, for a flag [is_running] that is read at the head of each
    turn; [script] is what the reads give. *)
Fixpoint _daily_quiz_scheduler (script : list bool) : M unit :=
  match script with
  | [] => ret ()
  | false :: _ => ret ()
  | true :: script' =>
      daily_quiz_iteration ;; _daily_quiz_scheduler script'
  end.

End Service.

(** The phase of the loop after the job body of a turn, in the words of
    the specification: the sleep the turn ends with tells them apart. *)
Inductive phase : Type := Idle | BackingOff.

Definition phase_of_sleep (seconds : Z) : option phase :=
  if bool_decide (seconds = 3600) then Some Idle
  else if bool_decide (seconds = 300) then Some BackingOff
  else None.

(** The phase a turn of the quiz job ends in. *)
Definition phase_after_turn (env : Env) (w : World) : option phase :=
  let w' := (daily_quiz_iteration env w).2 in
  last (slept w') ≫= phase_of_sleep.

End Scheduler.

(** ** notification.py *)

Module Notifier.
Import Orm.

(** *** The queries of [get_pending_notifications] *)

(** [select(NotificationSchedule, User).join(User, user_id == User.id)
    .where(and_(is_active == True, next_send <= now,
    User.notification_enabled == True, User.is_active == True))].
    A NULL [next_send] satisfies no comparison. *)
Definition join_user (db : Db) (r : Z * NotificationSchedule)
  : list (Z * NotificationSchedule * (Z * User)) :=
  match users db !! ns_user_id r.2 with
  | Some u => [(r.1, r.2, (ns_user_id r.2, u))]
  | None => []
  end.

(** [next_send <= now] on a column that may be NULL. *)
Definition not_after (t : option datetime) (now : datetime) : Prop :=
  match t with
  | Some t => t <= now
  | None => False
  end.

#[global] Instance not_after_dec t now : Decision (not_after t now).
Proof. destruct t; simpl; apply _. Defined.

Definition is_due (now : datetime)
    (r : Z * NotificationSchedule * (Z * User)) : Prop :=
  ns_is_active r.1.2 = true
  ∧ not_after (ns_next_send r.1.2) now
  ∧ u_notification_enabled r.2.2 = true
  ∧ u_is_active r.2.2 = true.

Definition select_due (now : datetime) (db : Db)
  : list (Z * NotificationSchedule * (Z * User)) :=
  filter (is_due now)
    (flat_map (join_user db) (map_to_list (notification_schedules db))).

(** [select(DailyQuizSchedule).where(and_(user_id == uid,
    scheduled_date >= today, is_completed == True))] *)
Definition select_completed (uid : Z) (today : date) (db : Db)
  : list DailyQuizSchedule :=
  filter
    (λ q, dq_user_id q = uid
          ∧ midnight today <= dq_scheduled_date q
          ∧ dq_is_completed q = true)
    (daily_quiz_schedules db).

(** An element of [pending].  [p_schedule] is the schedule object: the
    key of its row in the session. *)
Record PendingItem : Type := mkPendingItem {
  p_schedule : Z;
  p_user : Z * User;
  p_title : string;
  p_message : string
}.

(** [timedelta] added to [scheduled_time] for a frequency; no branch of
    the [if]/[elif] chain is taken for another string. *)
Definition period (frequency : string) : option Z :=
  if String.eqb frequency "daily" then Some (timedelta 1 0)
  else if String.eqb frequency "weekly" then Some (timedelta 0 1)
  else if String.eqb frequency "monthly" then Some (timedelta 30 0)
  else None.

(** The assignments of the [if success] block to the schedule object. *)
Definition after_send (now : datetime) (s : NotificationSchedule)
  : NotificationSchedule :=
  mkNotificationSchedule
    (ns_user_id s) (ns_notification_type s) (ns_scheduled_time s)
    (ns_frequency s) (ns_is_active s)
    (Some now)
    (match period (ns_frequency s) with
     | Some d => Some (ns_scheduled_time s + d)
     | None => ns_next_send s
     end)
    (ns_title_template s) (ns_message_template s).

(** The assignments to the notification record after an FCM send: the
    record is the one added last. *)
Definition mark_sent (now : datetime) (response : string)
    (l : list Notification) : list Notification :=
  match reverse l with
  | [] => []
  | n :: rest =>
      reverse rest ++
        [mkNotification (n_user_id n) (n_title n) (n_message n)
           (n_notification_type n) (n_fcm_token n) (n_data n)
           true (Some now) (Some response)]
  end.

(** UTF-8 of the emoji that opens the reminder's title. *)
Definition books : string :=
  String "240" (String "159" (String "147" (String "154" EmptyString))).

Section Service.
Variable env : Env.

(** [send_notification]; [db] tells whether a session is passed.
    [db.refresh] of the record just committed reads it back and
    changes nothing here. *)
Definition send_notification (user_id : Z) (title message : string)
    (notification_type : string) (fcm_token : option string)
    (data : option (list (string * string))) (db : bool) : M bool :=
  try_except
    (if negb (firebase_app env)
     then log ERROR "Firebase not initialized" ;; ret false
     else
       let notification :=
         mkNotification user_id title message notification_type
           fcm_token data false None None in
       (if db
        then add_notification notification ;; commit env
        else ret ()) ;;
       if truthy_str fcm_token then
         let token := default "" fcm_token in
         let fcm_message :=
           mkFcmMessage title message (default [] data) token in
         try_except
           (let* response := messaging_send env fcm_message in
            log INFO ("Successfully sent message: " +:+ response) ;;
            (if db
             then
               let* t := utcnow env in
               update_notifications (mark_sent t response) ;;
               commit env
             else ret ()) ;;
            ret true)
           (fun e =>
              log ERROR ("Failed to send FCM message: " +:+ str_exn e) ;;
              ret false)
       else ret true)
    (fun e =>
       log ERROR ("Error sending notification: " +:+ str_exn e) ;;
       ret false).

(** [send_quiz_reminder] *)
Definition send_quiz_reminder (user : Z * User)
    (fcm_token : option string) (db : bool) : M bool :=
  let title := books +:+ " Time for your daily quiz!" in
  let message :=
    "Complete your quiz to stay on track with your "
      +:+ pretty (u_quiz_completion_goal user.2) +:+ " daily goal." in
  let data :=
    [("type", "quiz_reminder"); ("action", "open_quiz");
     ("user_id", pretty user.1)] in
  send_notification user.1 title message "quiz_reminder" fcm_token
    (Some data) db.

(** The body of [for schedule, user in result.all()]. *)
Definition consider (pending : list PendingItem)
    (row : Z * NotificationSchedule * (Z * User))
  : M (list PendingItem) :=
  let '(id, schedule, user) := row in
  let* t := now env in
  let today := date_of t in
  let* quiz_result := execute env (select_completed user.1 today) in
  let* completed_today := scalar_one_or_none quiz_result in
  match completed_today with
  | Some _ => ret pending
  | None =>
      ret (pending ++
             [mkPendingItem id user (ns_title_template schedule)
                (ns_message_template schedule)])
  end.

Definition get_pending_notifications : M (list PendingItem) :=
  try_except
    (let* t := utcnow env in
     let* result := execute env (select_due t) in
     for_acc result [] consider)
    (fun e =>
       log ERROR ("Error getting pending notifications: " +:+ str_exn e) ;;
       ret []).

(** The body of [for notification_data in pending]. *)
Definition dispatch (notification_data : PendingItem) : M unit :=
  let schedule := p_schedule notification_data in
  let user := p_user notification_data in
  let* success := send_quiz_reminder user None true in
  if success then
    let* t := utcnow env in
    update_schedule schedule (after_send t) ;;
    commit env
  else ret ().

Definition process_pending_notifications : M unit :=
  try_except
    (let* pending := get_pending_notifications in
     for_each pending dispatch)
    (fun e =>
       log ERROR
         ("Error processing pending notifications: " +:+ str_exn e)).

(** One turn of the loop of [_notification_processor]. *)
Definition notification_iteration : M unit :=
  try_except
    (async_with_session process_pending_notifications ;;
     sleep 900)
    (fun e =>
       log ERROR ("Error in notification processor: " +:+ str_exn e) ;;
       sleep 300).

(** A dispatcher run on a database: [process_pending_notifications] in
    a session of its own; what the database holds afterwards. *)
Definition run_dispatcher (w : World) : World :=
  (async_with_session process_pending_notifications w).2.

End Service.

End Notifier.

(** ** Notions the statements and the proofs use *)

Module Spec.
Import Orm Scraper Scheduler Notifier.

(** *** Texts and results *)

(** A text that does not start with a space. *)
Definition clean_head (l : list ascii) : Prop :=
  match l with
  | [] => True
  | c :: _ => isspace c = false
  end.

(** What the loops keep true of [questions]. *)
Definition well_formed (questions : list string) : Prop :=
  NoDup questions
  ∧ Forall (λ q, (10 < String.length q)%nat ∧ strip q = q) questions.

(** An outcome as an element of the list [gather] returns. *)
Definition as_result {A : Type} (o : outcome A) : A + exn :=
  match o with
  | Returned a => inl a
  | Raised e => inr e
  end.

(** *** Computations *)

(** A computation that keeps a relation between the world before and
    after, and raises only exceptions of one kind. *)
Definition respects {A : Type} (R : relation World) (P : exn → Prop)
    (m : M A) : Prop :=
  ∀ w, R w (m w).2 ∧ ∀ e, (m w).1 = Raised e → P e.

(** What the service methods keep outside a commit or a rollback: the
    database, the counters of commits and rollbacks, the sleeps. *)
Record steady (w w' : World) : Prop := mkSteady {
  steady_committed : committed (session w') = committed (session w);
  steady_commits : commits w' = commits w;
  steady_rollbacks : rollbacks w' = rollbacks w;
  steady_slept : slept w' = slept w
}.

Definition never : exn → Prop := λ _, False.
Definition only_multiple : exn → Prop := λ e, e = MultipleResultsFound.

(** What a turn of the loop keeps, besides the session. *)
Record quiet (w w' : World) : Prop := mkQuiet {
  quiet_steady : steady w w';
  quiet_logged : logged w' = logged w;
  quiet_outbox : fcm_outbox w' = fcm_outbox w
}.

(** *** The generator *)

(** [datetime.now()] at the k-th reading of the clock. *)
Definition local_clock (env : Env) (k : nat) : datetime :=
  utc_clock env k + utc_offset env.

(** What a commit of the session would write. *)
Definition view (s : Session) : Db := txn (flush s).

(** The entries of a user on a calendar day. *)
Definition entries_on (uid : Z) (d : date) (db : Db)
  : list DailyQuizSchedule :=
  filter (λ q, dq_user_id q = uid ∧ date_of (dq_scheduled_date q) = d)
    (daily_quiz_schedules db).

(** At most one entry per user and calendar day. *)
Definition unique_per_day (db : Db) : Prop :=
  ∀ uid d, (length (entries_on uid d db) ≤ 1)%nat.

(** The entry [schedule_user] adds for a user at the k-th reading. *)
Definition entry_for (env : Env) (db : Db) (uid : Z) (k : nat)
  : DailyQuizSchedule :=
  mkDailyQuizSchedule uid (local_clock env k)
    ((λ r, ut_topic_id r.1) <$> take 5 (select_user_topics uid db))
    1 false.

(** Does a turn of the loop add an entry for the user: no entry of
    today yet, and an active topic. *)
Definition wants_entry (db : Db) (today : date) (uid : Z) : bool :=
  match select_schedule_between uid today (today + 1) db,
        select_user_topics uid db with
  | [], _ :: _ => true
  | _, _ => false
  end.

(** What one turn of the loop over the users adds. *)
Definition plan_user (env : Env) (db : Db) (today : date) (k : nat)
    (uid : Z) : list DailyQuizSchedule :=
  if wants_entry db today uid then [entry_for env db uid k] else [].

(** No active user has two entries between the midnights of [today]. *)
Definition no_double_today (db : Db) (today : date) : Prop :=
  Forall (λ u : Z * User,
    (length (select_schedule_between u.1 today (today + 1)%Z db) ≤ 1)%nat)
    (select_active_users db).

(** What the whole loop adds, the first reading being the k-th. *)
Fixpoint planned (env : Env) (db : Db) (today : date) (k : nat)
    (us : list (Z * User)) : list DailyQuizSchedule :=
  match us with
  | [] => []
  | u :: us' =>
      let p := plan_user env db today k u.1 in
      p ++ planned env db today (k + length p) us'
  end.

(** A session over [db] whose additional quiz entries belong to none of
    the users [ids]. *)
Record extends (db : Db) (ids : list Z) (s : Session) : Prop := mkExtends {
  ext_users : users (txn s) = users db;
  ext_topics : topics (txn s) = topics db;
  ext_user_topics : user_topics (txn s) = user_topics db;
  ext_quiz :
    ∃ fl, daily_quiz_schedules (txn s) = daily_quiz_schedules db ++ fl
          ∧ Forall (λ q, dq_user_id q ∉ ids) (fl ++ new_quiz s)
}.

(** The claim C5 as it is worded, for one world: two runs in a row
    leave exactly one entry of today for every active user. *)
Definition one_entry_for_every_active_user (env : Env) (w : World)
  : Prop :=
  let today := date_of (local_clock env (ticks w)) in
  let w2 := run_generator env (run_generator env w) in
  ∀ uid u,
    users (committed (session w)) !! uid = Some u →
    u_is_active u = true →
    length (entries_on uid today (committed (session w2))) = 1%nat.

(** The claim C2 as it is worded, for one world: a commit that fails
    sends the loop into its five-minute back-off. *)
Definition commit_fault_backs_off (env : Env) (w : World) : Prop :=
  commit_ok env (commits w) = false →
  phase_after_turn env w = Some BackingOff.

(** *** The dispatcher *)

(** The record [send_quiz_reminder] writes for a user. *)
Definition reminder_record (user : Z * User) : Notification :=
  mkNotification user.1 (books +:+ " Time for your daily quiz!")
    ("Complete your quiz to stay on track with your "
       +:+ pretty (u_quiz_completion_goal user.2) +:+ " daily goal.")
    "quiz_reminder" None
    (Some [("type", "quiz_reminder"); ("action", "open_quiz");
           ("user_id", pretty user.1)])
    false None None.

(** The session after [db.add(notification)]. *)
Definition added (n : Notification) (s : Session) : Session :=
  mkSession (committed s) (txn s) (new_quiz s)
    (new_notifications s ++ [n]).

(** The element of [pending] made from a row of the due query. *)
Definition item_of (row : Z * NotificationSchedule * (Z * User))
  : PendingItem :=
  mkPendingItem row.1.1 row.2 (ns_title_template row.1.2)
    (ns_message_template row.1.2).

(** A schedule row before and after some turns of the dispatch loop:
    as it was, or as the [if success] block leaves it at some reading
    of the clock, which takes a Firebase app. *)
Definition evolves (env : Env) (k0 : nat)
    (o o' : option NotificationSchedule) : Prop :=
  o' = o
  ∨ ∃ s k, o = Some s
           ∧ o' = Some (after_send (utc_clock env k) s)
           ∧ (k0 ≤ k)%nat
           ∧ firebase_app env = true.

(** A database the dispatch loop over [items] can make of [db0]. *)
Record derived (env : Env) (k0 : nat) (items : list PendingItem)
    (db0 db : Db) : Prop := mkDerived {
  der_users : users db = users db0;
  der_topics : topics db = topics db0;
  der_user_topics : user_topics db = user_topics db0;
  der_quiz : daily_quiz_schedules db = daily_quiz_schedules db0;
  der_schedules :
    ∀ id, evolves env k0 (notification_schedules db0 !! id)
            (notification_schedules db !! id);
  der_untouched :
    ∀ id, id ∉ p_schedule <$> items →
          notification_schedules db !! id
          = notification_schedules db0 !! id;
  der_notifications :
    ∃ extra, notifications db = notifications db0 ++ extra
             ∧ Forall (λ n, ∃ it, it ∈ items
                                  ∧ n = reminder_record (p_user it))
                 extra
}.

(** The world between two turns of the dispatch loop; [rest] are the
    schedules still to come. *)
Record dispatching (env : Env) (k0 : nat) (items : list PendingItem)
    (db0 : Db) (rest : list Z) (w : World) : Prop := mkDispatching {
  dis_db : derived env k0 items db0 (committed (session w));
  dis_view : derived env k0 items db0 (view (session w));
  dis_rest :
    ∀ id, id ∈ rest →
          notification_schedules (txn (session w)) !! id
          = notification_schedules db0 !! id;
  dis_ticks : (k0 ≤ ticks w)%nat
}.

(** What the dispatch loop keeps of the world. *)
Record calm_step (w w' : World) : Prop := mkCalmStep {
  calm_rollbacks : rollbacks w' = rollbacks w;
  calm_slept : slept w' = slept w;
  calm_outbox : fcm_outbox w' = fcm_outbox w
}.

(** The database after a turn of the loop that sends and commits, the
    clock being at its k-th reading. *)
Definition sent_db (env : Env) (k : nat) (it : PendingItem) (db : Db)
  : Db :=
  with_schedules
    (alter (after_send (utc_clock env k)) (p_schedule it))
    (with_notifications (λ l, l ++ [reminder_record (p_user it)]) db).

(** The database after the whole loop when every turn sends and
    commits. *)
Fixpoint sent_all (env : Env) (k : nat) (its : list PendingItem)
    (db : Db) : Db :=
  match its with
  | [] => db
  | it :: its' => sent_all env (S k) its' (sent_db env k it db)
  end.

(** [next_send] compared as the query does: NULL is before anything. *)
Definition next_send_le (a b : option datetime) : Prop :=
  match a, b with
  | None, _ => True
  | Some _, None => False
  | Some x, Some y => x <= y
  end.

(** A schedule whose [next_send] is not after [scheduled_time] plus
    the period of its frequency. *)
Definition within_period (s : NotificationSchedule) : Prop :=
  match ns_next_send s, period (ns_frequency s) with
  | Some n, Some d => n <= ns_scheduled_time s + d
  | _, _ => True
  end.

(** Histories of the database: runs of the dispatcher, and anything
    else that leaves the schedules alone. *)
Inductive dispatcher_runs : World → World → Prop :=
| runs_none w : dispatcher_runs w w
| runs_dispatch env w w' :
    dispatcher_runs w w' → dispatcher_runs w (run_dispatcher env w')
| runs_other w w' w'' :
    dispatcher_runs w w' →
    notification_schedules (committed (session w''))
    = notification_schedules (committed (session w')) →
    dispatcher_runs w w''.

(** The claim C3 as it is worded, for one run and one schedule: the
    run does not move [next_send] back. *)
Definition never_earlier (env : Env) (w : World) (id : Z) : Prop :=
  ∀ s s',
    notification_schedules (committed (session w)) !! id = Some s →
    notification_schedules (committed (session (run_dispatcher env w)))
      !! id = Some s' →
    next_send_le (ns_next_send s) (ns_next_send s').

(** What a turn of the loop over the rows keeps. *)
Record reading (db0 : Db) (w w' : World) : Prop := mkReading {
  rd_session : session w' = open_session db0;
  rd_ticks : (ticks w ≤ ticks w')%nat;
  rd_commits : commits w' = commits w;
  rd_rollbacks : rollbacks w' = rollbacks w;
  rd_slept : slept w' = slept w;
  rd_outbox : fcm_outbox w' = fcm_outbox w
}.

(** The items the loop makes: rows of the query whose user had no
    completed entry at the reading of the clock of the row's turn. *)
Definition picked (env : Env) (db0 : Db) (k0 : nat)
    (rows : list (Z * NotificationSchedule * (Z * User)))
    (items : list PendingItem) : Prop :=
  (p_schedule <$> items) `sublist_of` (rows.*1).*1
  ∧ Forall (λ it, ∃ row k,
              row ∈ rows ∧ it = item_of row ∧ (k0 ≤ k)%nat
              ∧ select_completed row.2.1
                  (date_of (local_clock env k)) db0 = [])
      items.

End Spec.

(** ** Concrete inputs *)

Module Examples.
Import Orm Scheduler Notifier Spec.

Definition a_day : date := 20000.
Definition hour : Z := 3600000000.
Definition second : Z := 1000000.

(** A clock in UTC that starts at 04:00 of [a_day], gains a second with
    each reading and stops after a hundred readings; local time is
    UTC+05:30. *)
Definition clock (k : nat) : datetime :=
  midnight a_day + 4 * hour + second * Z.of_nat (k `min` 100).

Definition calm : Env :=
  mkEnv clock (5 * hour + 1800 * second) (λ _, true) (λ _, true) true true
    (λ _, Some "projects/app/messages/1").

(** The same with a database whose commits fail. *)
Definition commits_fail : Env :=
  mkEnv clock (5 * hour + 1800 * second) (λ _, false) (λ _, true) true
    true (λ _, Some "projects/app/messages/1").

(** The same without a Firebase app. *)
Definition no_firebase : Env :=
  mkEnv clock (5 * hour + 1800 * second) (λ _, true) (λ _, true) true
    false (λ _, None).

Definition alice : User := mkUser true true 1.
Definition bob : User := mkUser true true 2.
Definition carol : User := mkUser false true 1.

(** A reminder of Alice, due since three o'clock. *)
Definition reminder : NotificationSchedule :=
  mkNotificationSchedule 1 "quiz_reminder"
    (midnight a_day + 3 * hour) "daily" true None
    (Some (midnight a_day + 3 * hour))
    "Daily Quiz Reminder" "Time to complete your daily quiz!".

(** A reminder of Bob anchored ten days ago whose next send was set to
    three o'clock today. *)
Definition late_reminder : NotificationSchedule :=
  mkNotificationSchedule 2 "quiz_reminder"
    (midnight (a_day - 10) + 3 * hour) "daily" true None
    (Some (midnight a_day + 3 * hour))
    "Daily Quiz Reminder" "Time to complete your daily quiz!".

(** Alice follows three topics with priorities 1, 5 and 3, Bob none,
    Carol is not active; nobody has an entry yet. *)
Definition campus : Db :=
  mkDb
    (list_to_map [(1, alice); (2, bob); (3, carol)])
    (list_to_map
       [(10, mkTopic "DBMS"); (20, mkTopic "Operating Systems");
        (30, mkTopic "Networks")])
    [mkUserTopic 1 10 true 1; mkUserTopic 1 20 true 5;
     mkUserTopic 1 30 true 3; mkUserTopic 3 10 true 2]
    []
    (list_to_map [(7, reminder); (8, late_reminder)])
    [].

(** The same after Alice completed a quiz of today. *)
Definition campus_done : Db :=
  with_quiz
    (λ _, [mkDailyQuizSchedule 1 (midnight a_day + 8 * hour) [20; 30; 10]
             1 true])
    campus.

Definition world_on (db : Db) : World :=
  mkWorld (open_session db) 0 0 0 [] [] [].

End Examples.

(** ** The rest of scheduler.py *)

Module SchedulerRest.
Import Orm Scheduler Notifier.

(** *** The queries of [create_user_quiz_schedule] *)

(** [select(DailyQuizSchedule).where(and_(user_id == uid,
    scheduled_date >= today))]: no upper bound on the date. *)
Definition select_schedule_from (uid : Z) (today : date) (db : Db)
  : list DailyQuizSchedule :=
  filter
    (λ q, dq_user_id q = uid ∧ midnight today <= dq_scheduled_date q)
    (daily_quiz_schedules db).

(** [.order_by(UserTopic.priority.desc())] on rows of [UserTopic]. *)
Definition by_priority_desc (a b : UserTopic) : Prop :=
  ut_priority b <= ut_priority a.

#[global] Instance by_priority_desc_dec : RelDecision by_priority_desc.
Proof. intros a b. unfold by_priority_desc. apply _. Defined.

(** [select(UserTopic).where(and_(user_id == uid, is_active == True))]:
    no join with [Topic]. *)
Definition active_user_topics (uid : Z) (db : Db) : list UserTopic :=
  filter (λ ut, ut_user_id ut = uid ∧ ut_is_active ut = true)
    (user_topics db).

Definition select_own_topics (uid : Z) (db : Db) : list UserTopic :=
  merge_sort by_priority_desc (active_user_topics uid db).

Section Service.
Variable env : Env.

(** The [try] block of [create_user_quiz_schedule]. *)
Definition create_user_block (user_id : Z) : M unit :=
  let* t := now env in
  let today := date_of t in
  let* existing_schedule :=
    execute env (select_schedule_from user_id today) in
  let* existing := scalar_one_or_none existing_schedule in
  match existing with
  | Some _ => ret ()                  (* return *)
  | None =>
      let* user_topics := execute env (select_own_topics user_id) in
      match user_topics with
      | [] => ret ()                  (* return *)
      | _ :: _ =>
          let selected_topics := ut_topic_id <$> take 5 user_topics in
          let* scheduled_date := now env in
          add_quiz
            (mkDailyQuizSchedule user_id scheduled_date selected_topics 1
               false) ;;
          commit env
      end
  end.

Definition create_user_quiz_schedule (user_id : Z) : M unit :=
  try_except (create_user_block user_id)
    (fun e =>
       log ERROR ("Error creating user quiz schedule: " +:+ str_exn e) ;;
       rollback env).

(** The loop of [_notification_processor], for a flag [is_running] that
    is read at the head of each turn; [script] is what the reads give. *)
Fixpoint _notification_processor (script : list bool) : M unit :=
  match script with
  | [] => ret ()
  | false :: _ => ret ()
  | true :: script' =>
      notification_iteration env ;; _notification_processor script'
  end.

End Service.

(** The turns a loop makes for a script of reads of [is_running]. *)
Fixpoint turns (script : list bool) : nat :=
  match script with
  | true :: script' => S (turns script')
  | _ => O
  end.

End SchedulerRest.

(** ** The rest of notification.py *)

Module NotifierRest.
Import Orm Scheduler Notifier.

(** *** [setup_daily_notifications] *)

(** [s.split(':')] *)
Fixpoint split_colon (cur : list ascii) (l : list ascii)
  : list (list ascii) :=
  match l with
  | [] => [reverse cur]
  | c :: l' =>
      if Ascii.eqb c ":"%char
      then reverse cur :: split_colon [] l'
      else split_colon (c :: cur) l'
  end.

Definition digit_of (c : ascii) : option Z :=
  let n := nat_of_ascii c in
  if ((48 <=? n) && (n <=? 57))%nat then Some (Z.of_nat n - 48) else None.

(** The digits of an [int] literal; an underscore may stand between two
    digits.  [acc] is the value so far, [after_digit] tells whether the
    character before was a digit. *)
Fixpoint digits (acc : Z) (after_digit : bool) (l : list ascii)
  : option Z :=
  match l with
  | [] => if after_digit then Some acc else None
  | c :: l' =>
      match digit_of c with
      | Some d => digits (10 * acc + d) true l'
      | None =>
          if Ascii.eqb c "_"%char && after_digit
          then match l' with
               | [] => None
               | _ :: _ => digits acc false l'
               end
          else None
      end
  end.

(** [int(s)] for a string: spaces around, a sign, the digits; [None]
    where Python raises [ValueError]. *)
Definition py_int (s : list ascii) : option Z :=
  match strip_chars s with
  | [] => None
  | c :: l =>
      if Ascii.eqb c "-"%char then Z.opp <$> digits 0 false l
      else if Ascii.eqb c "+"%char then digits 0 false l
      else digits 0 false (c :: l)
  end.

(** Why the scheduled time cannot be made of the configured text. *)
Inductive time_error : Type :=
| InvalidLiteral (s : string)          (* ValueError of int *)
| IndexOutOfRange                      (* IndexError of [1] *)
| HourOutOfRange                       (* ValueError of replace *)
| MinuteOutOfRange.

#[global] Instance time_error_eq_dec : EqDecision time_error.
Proof. solve_decision. Defined.

Definition str_time_error (e : time_error) : string :=
  match e with
  | InvalidLiteral s =>
      "invalid literal for int() with base 10: '" +:+ s +:+ "'"
  | IndexOutOfRange => "list index out of range"
  | HourOutOfRange => "hour must be in 0..23"
  | MinuteOutOfRange => "minute must be in 0..59"
  end.

Definition minute : Z := 60 * 1000000.

(** [int(T.split(':')[0])] and [int(T.split(':')[1])], evaluated from
    left to right. *)
Definition hour_minute_of (T : string) : time_error + Z * Z :=
  let parts := split_colon [] (String.list_ascii_of_string T) in
  match parts with
  | [] => inl IndexOutOfRange
  | p0 :: rest =>
      match py_int p0 with
      | None => inl (InvalidLiteral (String.string_of_list_ascii p0))
      | Some h =>
          match rest with
          | [] => inl IndexOutOfRange
          | p1 :: _ =>
              match py_int p1 with
              | None =>
                  inl (InvalidLiteral (String.string_of_list_ascii p1))
              | Some m => inr (h, m)
              end
          end
      end
  end.

(** [now.replace(hour=h, minute=m, second=0, microsecond=0)] for the
    two numbers of the configured text [T]: [replace] checks the hour,
    then the minute. *)
Definition scheduled_time_of (T : string) (now : datetime)
  : time_error + datetime :=
  match hour_minute_of T with
  | inl e => inl e
  | inr (h, m) =>
      if negb (bool_decide (0 <= h < 24)) then inl HourOutOfRange
      else if negb (bool_decide (0 <= m < 60)) then inl MinuteOutOfRange
      else inr (midnight (date_of now) + h * (60 * minute) + m * minute)
  end.

(** UTF-8 of the emoji that opens the title of an achievement. *)
Definition party : string :=
  String "240" (String "159" (String "142" (String "137" EmptyString))).

(** UTF-8 of the emoji that opens the schedule's title. *)
Definition daily_title : string := books +:+ " Daily Quiz Reminder".

Definition daily_message : string :=
  "Time to complete your daily quiz! Stay consistent with your learning goals.".

(** The row of [NotificationSchedule(...)] as the insert writes it:
    [is_active] takes the column's default, [last_sent] and [next_send]
    are not given and stay NULL. *)
Definition daily_schedule (user_id : Z) (scheduled_time : datetime)
  : NotificationSchedule :=
  mkNotificationSchedule user_id "quiz_reminder" scheduled_time "daily"
    true None None daily_title daily_message.

(** The primary key the insert gives: a key the table does not hold. *)
Definition new_key (m : gmap Z NotificationSchedule) : Z := fresh (dom m).

(** [db.add(schedule)].  The commit follows at once, so the object is
    put into the transaction directly. *)
Definition add_schedule (s : NotificationSchedule) : M unit :=
  fun w =>
    (Returned (),
     with_session
       (fun ss => mkSession (committed ss)
                    (with_schedules (λ m, <[new_key m := s]> m) (txn ss))
                    (new_quiz ss) (new_notifications ss)) w).

Section Service.
Variable env : Env.

(** [settings.DEFAULT_NOTIFICATION_TIME] *)
Variable DEFAULT_NOTIFICATION_TIME : string.

(** [setup_daily_notifications].  An exception of the computation of
    [scheduled_time] goes to the handler at once; the handler logs and
    does not roll back. *)
Definition setup_daily_notifications (user_id : Z) : M unit :=
  try_except
    (let* t := now env in
     match scheduled_time_of DEFAULT_NOTIFICATION_TIME t with
     | inl e =>
         log ERROR
           ("Error setting up daily notifications: " +:+ str_time_error e)
     | inr scheduled_time =>
         add_schedule (daily_schedule user_id scheduled_time) ;;
         commit env
     end)
    (fun e =>
       log ERROR ("Error setting up daily notifications: " +:+ str_exn e)).

(** [send_achievement_notification] *)
Definition send_achievement_notification (user : Z * User)
    (achievement : string) (fcm_token : option string) (db : bool)
  : M bool :=
  let title := party +:+ " Achievement Unlocked!" in
  let message := "Congratulations! You've " +:+ achievement in
  let data :=
    [("type", "achievement"); ("achievement", achievement);
     ("user_id", pretty user.1)] in
  send_notification env user.1 title message "achievement" fcm_token
    (Some data) db.

End Service.

End NotifierRest.

(** ** Notions for the rest of the services *)

Module SpecRest.
Import Orm Scheduler Notifier Spec.

(** The list [pending] the loop of [get_pending_notifications] builds
    from the rows of the due query, the clock being at its k-th reading
    when the loop starts; [None] where a lookup of a completed entry
    finds two rows. *)
Fixpoint pending_of (env : Env) (db0 : Db) (k : nat)
    (rows : list (Z * NotificationSchedule * (Z * User)))
  : option (list PendingItem) :=
  match rows with
  | [] => Some []
  | row :: rows' =>
      match select_completed row.2.1 (date_of (local_clock env k)) db0 with
      | [] => (λ items, item_of row :: items)
                <$> pending_of env db0 (S k) rows'
      | [_] => pending_of env db0 (S k) rows'
      | _ :: _ :: _ => None
      end
  end.

(** A time of the day as the configuration writes it: two digits, a
    colon, two digits. *)
Definition two_digits (n : Z) : string :=
  if bool_decide (n < 10) then "0" +:+ pretty n else pretty n.

Definition clock_text (h m : Z) : string :=
  two_digits h +:+ ":" +:+ two_digits m.

(** Does the text of an hour and a minute give them back. *)
Definition round_trips (h m : Z) : bool :=
  bool_decide (NotifierRest.hour_minute_of (clock_text h m) = inr (h, m)).

End SpecRest.

(** ** The rest of scraper.py: the page fetcher and the four adapters *)

(** *** The fragment of BeautifulSoup the adapters use *)

Module Bs4.

(** A parsed document: a string of text, or a tag with its name, the
    values of its [class] attribute and its contents.  [Text] stands
    for the strings [get_text] yields. *)
#[warnings="-register-all"] Inductive node : Type :=
| Text (s : string)
| Tag (name : string) (class_ : list string) (contents : list node).

(** [tag.descendants]: the nodes below a tag, in document order. *)
Fixpoint descendants (n : node) : list node :=
  match n with
  | Text _ => []
  | Tag _ _ contents => flat_map (fun c => c :: descendants c) contents
  end.

(** Does a node match [find_all(name, class_=c)]: a tag of that name,
    one of whose classes is [c] when a class is asked for. *)
Definition matches (name : string) (class_ : option string) (n : node)
  : bool :=
  match n with
  | Text _ => false
  | Tag nm cs _ =>
      String.eqb nm name
      && match class_ with
         | None => true
         | Some c => bool_decide (c ∈ cs)
         end
  end.

(** [tag.find_all(name, class_=c)] *)
Definition find_all (name : string) (class_ : option string) (n : node)
  : list node :=
  filter (λ d, matches name class_ d = true) (descendants n).

(** [tag.find(name, class_=c)]: the first match, or [None]. *)
Definition find (name : string) (class_ : option string) (n : node)
  : option node :=
  head (find_all name class_ n).

Definition string_of (n : node) : option string :=
  match n with
  | Text s => Some s
  | Tag _ _ _ => None
  end.

(** [tag.get_text(strip=True)]: the strings below the tag, each
    stripped, the empty ones left out, joined without a separator. *)
Definition get_text (n : node) : string :=
  String.concat ""
    (filter (λ s, s ≠ "") (strip <$> omap string_of (descendants n))).

End Bs4.

(** *** The values of [json.loads] *)

Module Json.

#[warnings="-register-all"] Inductive json : Type :=
| JNull
| JBool (b : bool)
| JInt (n : Z)
| JFloat (repr : string)          (* the number as Python prints it *)
| JString (s : string)
| JArray (items : list json)
| JObject (members : list (string * json)).

(** [type(v).__name__] *)
Definition type_name (v : json) : string :=
  match v with
  | JNull => "NoneType"
  | JBool _ => "bool"
  | JInt _ => "int"
  | JFloat _ => "float"
  | JString _ => "str"
  | JArray _ => "list"
  | JObject _ => "dict"
  end.

(** [d.get(key, default)] on the members of a dict. *)
Fixpoint lookup_member (key : string) (members : list (string * json))
  : option json :=
  match members with
  | [] => None
  | (k, v) :: members' =>
      if String.eqb k key then Some v else lookup_member key members'
  end.

(** The characters of a string, each as a string. *)
Definition characters (s : string) : list json :=
  (λ c, JString (String c EmptyString)) <$> String.list_ascii_of_string s.

End Json.

(** *** [WebScraper] *)

Module WebScraper.
Import Scraper Bs4 Json.

(** What can be raised inside an adapter: an exception of the services,
    or one of the two the handling of a JSON value raises. *)
Inductive fault : Type :=
| Known (e : exn)
| AttributeError (msg : string)
| TypeError (msg : string).

(** Is the fault an instance of [Exception]. *)
Definition is_exception (f : fault) : bool :=
  match f with
  | Known e => is_Exception e
  | AttributeError _ | TypeError _ => true
  end.

(** [str(e)] *)
Definition str_fault (f : fault) : string :=
  match f with
  | Known e => str_exn e
  | AttributeError msg | TypeError msg => msg
  end.

Inductive result (A : Type) : Type :=
| Ok (a : A)
| Err (f : fault).
Arguments Ok {A} a.
Arguments Err {A} f.

(** What an adapter does to the outside. *)
Inductive event : Type :=
| Slept (seconds : Z)             (* await asyncio.sleep(seconds) *)
| Got (url : string).             (* await self.session.get(url) *)

(** The state an adapter runs in: what it did so far, the records of
    the logger, and its local list [questions]. *)
Record Net : Type := mkNet {
  events : list event;
  records : list log_record;
  questions : list ScrapedQuestion
}.

(** What the code does not decide: the settings, whether the scraper
    is inside its [async with] block, the answers of the sites, the
    parsers.  [http_get] gives the text of a response whose status is
    not an error. *)
Record Web : Type := mkWeb {
  SCRAPING_DELAY : Z;
  session_open : bool;
  http_get : string -> outcome string;
  BeautifulSoup : string -> node;
  json_loads : string -> option json;
  repr_json : json -> string        (* str() of a list or a dict *)
}.

Definition W (A : Type) : Type := Net -> result A * Net.

Definition ret {A : Type} (a : A) : W A := fun n => (Ok a, n).

Definition bind {A B : Type} (m : W A) (k : A -> W B) : W B :=
  fun n =>
    match m n with
    | (Ok a, n') => k a n'
    | (Err f, n') => (Err f, n')
    end.

Definition raise {A : Type} (f : fault) : W A := fun n => (Err f, n).

(** [try: m  except Exception as e: h e] *)
Definition try_except {A : Type} (m : W A) (h : fault -> W A) : W A :=
  fun n =>
    match m n with
    | (Ok a, n') => (Ok a, n')
    | (Err f, n') => if is_exception f then h f n' else (Err f, n')
    end.

(** [try: m  except json.JSONDecodeError: h] *)
Definition try_except_json {A : Type} (m : W A) (h : W A) : W A :=
  fun n =>
    match m n with
    | (Err (Known JSONDecodeError), n') => h n'
    | r => r
    end.

Declare Scope web_scope.
Delimit Scope web_scope with web.
Notation "'let*' x := m 'in' k" := (bind m (fun x => k))
  (at level 10, x pattern, m at level 100, k at level 200) : web_scope.
Notation "m ;; k" := (bind m (fun _ => k))
  (at level 100, k at level 200, right associativity) : web_scope.
Open Scope web_scope.

(** [for x in l: body x] *)
Fixpoint for_each {A : Type} (l : list A) (body : A -> W unit) : W unit :=
  match l with
  | [] => ret ()
  | x :: l' => body x ;; for_each l' body
  end.

Definition log (lv : level) (msg : string) : W unit :=
  fun n => (Ok (), mkNet (events n) (records n ++ [(lv, msg)]) (questions n)).

Definition emit (e : event) : W unit :=
  fun n => (Ok (), mkNet (events n ++ [e]) (records n) (questions n)).

(** [questions = []] *)
Definition new_questions : W unit :=
  fun n => (Ok (), mkNet (events n) (records n) []).

(** [questions.append(q)] *)
Definition append (q : ScrapedQuestion) : W unit :=
  fun n => (Ok (), mkNet (events n) (records n) (questions n ++ [q])).

(** [return questions] *)
Definition return_questions : W (list ScrapedQuestion) :=
  fun n => (Ok (questions n), n).

(** [d.get(key, default)]: an attribute of dicts only. *)
Definition get (v : json) (key : string) (default : json) : W json :=
  match v with
  | JObject members =>
      ret (match lookup_member key members with
           | Some x => x
           | None => default
           end)
  | _ =>
      raise (AttributeError
               ("'" +:+ type_name v +:+ "' object has no attribute 'get'"))
  end.

(** The values [for x in v] goes through. *)
Definition iterate (v : json) : W (list json) :=
  match v with
  | JArray items => ret items
  | JObject members => ret (JString <$> members.*1)
  | JString s => ret (characters s)
  | _ =>
      raise (TypeError ("'" +:+ type_name v +:+ "' object is not iterable"))
  end.

(** [topic.lower().replace(' ', '-')] *)
Definition topic_slug (topic : string) : string :=
  String.string_of_list_ascii
    ((λ c, if Ascii.eqb (lower c) " "%char then "-"%char else lower c)
       <$> String.list_ascii_of_string topic).

(** [re.search(r'Answer:\s*([A-D])', text)]: the group of the leftmost
    match, the case of the letters being kept. *)
Fixpoint skip_exact (lit : list ascii) (s : list ascii)
  : option (list ascii) :=
  match lit, s with
  | [], _ => Some s
  | _ :: _, [] => None
  | a :: lit', c :: s' => if Ascii.eqb a c then skip_exact lit' s' else None
  end.

Definition is_A_to_D (c : ascii) : bool :=
  let n := nat_of_ascii c in ((65 <=? n) && (n <=? 68))%nat.

Definition answer_here (s : list ascii) : option string :=
  match skip_exact (String.list_ascii_of_string "Answer:") s with
  | Some rest =>
      match lstrip_chars rest with
      | c :: _ => if is_A_to_D c then Some (String c EmptyString) else None
      | [] => None
      end
  | None => None
  end.

Fixpoint search_answer (s : list ascii) : option string :=
  match answer_here s with
  | Some a => Some a
  | None =>
      match s with
      | _ :: s' => search_answer s'
      | [] => None
      end
  end.

Section Scraper.
Variable web : Web.

(** [str(v)] as an f-string formats a value. *)
Definition str (v : json) : string :=
  match v with
  | JString s => s
  | JNull => "None"
  | JBool true => "True"
  | JBool false => "False"
  | JInt n => pretty n
  | JFloat r => r
  | JArray _ | JObject _ => repr_json web v
  end.

(** [await self.session.get(url)] and [response.raise_for_status()];
    [self.session] is [None] outside the [async with] block. *)
Definition session_get (url : string) : W string :=
  if session_open web then
    emit (Got url) ;;
    match http_get web url with
    | Returned text => ret text
    | Raised e => raise (Known e)
    end
  else raise (AttributeError "'NoneType' object has no attribute 'get'").

(** [scrape_page] *)
Definition scrape_page (url : string) : W (option string) :=
  try_except
    (emit (Slept (SCRAPING_DELAY web)) ;;
     let* text := session_get url in
     ret (Some text))
    (fun e =>
       log ERROR ("Error scraping " +:+ url +:+ ": " +:+ str_fault e) ;;
       ret None).

(** [options if options else None] *)
Definition options_or_None (options : list string)
  : option (list string) :=
  match options with
  | [] => None
  | _ :: _ => Some options
  end.

(** The body of the inner [try] of [scrape_tcyonline], up to the
    [append]: the record of a container, [None] where the loop goes on
    with the next container. *)
Definition tcyonline_question (search_url topic : string) (container : node)
  : option ScrapedQuestion :=
  match find "div" (Some "question-text") container with
  | None => None                        (* continue *)
  | Some question_text =>
      let options :=
        get_text <$> find_all "div" (Some "option") container in
      let correct_answer :=
        get_text <$> find "div" (Some "correct-answer") container in
      Some
        (mkScrapedQuestion (get_text question_text)
           (options_or_None options) correct_answer
           (Some search_url) (Some "TCYOnline") None (Some topic)
           (Some "medium"))
  end.

(** [scrape_tcyonline] *)
Definition scrape_tcyonline (topic : string) : W (list ScrapedQuestion) :=
  new_questions ;;
  try_except
    (let search_url := "https://www.tcyonline.com/search?q=" +:+ topic in
     let* html := scrape_page search_url in
     if negb (truthy_str html) then ret ()
     else
       let soup := BeautifulSoup web (default "" html) in
       let question_containers :=
         find_all "div" (Some "question-container") soup in
       for_each question_containers (fun container =>
         try_except
           (match tcyonline_question search_url topic container with
            | None => ret ()
            | Some q => append q
            end)
           (fun e =>
              log ERROR
                ("Error parsing question from TCYOnline: " +:+ str_fault e))))
    (fun e =>
       log ERROR
         ("Error scraping TCYOnline for topic " +:+ topic +:+ ": "
            +:+ str_fault e)) ;;
  return_questions.

(** The body of the inner [try] of [scrape_prepinsta]. *)
Definition prepinsta_question (search_url topic : string) (container : node)
  : option ScrapedQuestion :=
  match find "p" (Some "question") container with
  | None => None                        (* continue *)
  | Some question_text =>
      let options :=
        get_text <$> find_all "li" (Some "option") container in
      let correct_answer :=
        get_text <$> find "div" (Some "answer") container in
      Some
        (mkScrapedQuestion (get_text question_text)
           (options_or_None options) correct_answer
           (Some search_url) (Some "PrepInsta") None (Some topic)
           (Some "medium"))
  end.

(** [scrape_prepinsta] *)
Definition scrape_prepinsta (topic : string) : W (list ScrapedQuestion) :=
  new_questions ;;
  try_except
    (let search_url :=
       "https://prepinsta.com/" +:+ topic_slug topic +:+ "-questions" in
     let* html := scrape_page search_url in
     if negb (truthy_str html) then ret ()
     else
       let soup := BeautifulSoup web (default "" html) in
       let question_containers :=
         find_all "div" (Some "mcq-question") soup in
       for_each question_containers (fun container =>
         try_except
           (match prepinsta_question search_url topic container with
            | None => ret ()
            | Some q => append q
            end)
           (fun e =>
              log ERROR
                ("Error parsing question from PrepInsta: " +:+ str_fault e))))
    (fun e =>
       log ERROR
         ("Error scraping PrepInsta for topic " +:+ topic +:+ ": "
            +:+ str_fault e)) ;;
  return_questions.

(** The texts of the cells of the option table that are kept:
    [if option_text and len(option_text) > 2]. *)
Definition kept_options (option_table : node) : list string :=
  filter (λ option_text, option_text ≠ ""
                         ∧ (2 < String.length option_text)%nat)
    (get_text <$> find_all "td" None option_table).

(** The body of the inner [try] of [scrape_indiabix]. *)
Definition indiabix_question (search_url topic : string) (container : node)
  : option ScrapedQuestion :=
  match find "td" (Some "bix-td-qtxt") container with
  | None => None                        (* continue *)
  | Some question_text =>
      let options :=
        match find "table" (Some "bix-tbl-options") container with
        | Some option_table => kept_options option_table
        | None => []
        end in
      let correct_answer :=
        match find "div" (Some "bix-ans-description") container with
        | Some answer_element =>
            search_answer
              (String.list_ascii_of_string (get_text answer_element))
        | None => None
        end in
      Some
        (mkScrapedQuestion (get_text question_text)
           (options_or_None options) correct_answer
           (Some search_url) (Some "IndiaBIX") None (Some topic)
           (Some "medium"))
  end.

(** [scrape_indiabix] *)
Definition scrape_indiabix (topic : string) : W (list ScrapedQuestion) :=
  new_questions ;;
  try_except
    (let search_url :=
       "https://www.indiabix.com/" +:+ topic_slug topic
         +:+ "/questions-and-answers" in
     let* html := scrape_page search_url in
     if negb (truthy_str html) then ret ()
     else
       let soup := BeautifulSoup web (default "" html) in
       let question_containers :=
         find_all "div" (Some "bix-div-container") soup in
       for_each question_containers (fun container =>
         try_except
           (match indiabix_question search_url topic container with
            | None => ret ()
            | Some q => append q
            end)
           (fun e =>
              log ERROR
                ("Error parsing question from IndiaBIX: " +:+ str_fault e))))
    (fun e =>
       log ERROR
         ("Error scraping IndiaBIX for topic " +:+ topic +:+ ": "
            +:+ str_fault e)) ;;
  return_questions.

(** [json.loads(html)] *)
Definition loads (html : string) : W json :=
  match json_loads web html with
  | Some v => ret v
  | None => raise (Known JSONDecodeError)
  end.

(** The body of [for post in posts]. *)
Definition scrape_post (company : option string) (post : json) : W unit :=
  let* post_data := get post "data" (JObject []) in
  let* title := get post_data "title" (JString "") in
  let* selftext := get post_data "selftext" (JString "") in
  let* permalink := get post_data "permalink" (JString "") in
  let url := "https://www.reddit.com" +:+ str permalink in
  let content := str title +:+ " " +:+ str selftext in
  let extracted_questions := extract_questions content in
  for_each extracted_questions (fun q_text =>
    append
      (mkScrapedQuestion q_text None None (Some url) (Some "Reddit")
         company (Some "Interview Experience") (Some "medium"))).

(** The body of [for subreddit in subreddits]. *)
Definition scrape_subreddit (company : option string) (subreddit : string)
  : W unit :=
  let search_query :=
    if truthy_str company
    then "interview questions " +:+ default "" company
    else "interview questions" in
  let search_url :=
    "https://www.reddit.com/r/" +:+ subreddit +:+ "/search.json?q="
      +:+ search_query +:+ "&sort=relevance&limit=25" in
  let* html := scrape_page search_url in
  if negb (truthy_str html) then ret ()       (* continue *)
  else
    try_except_json
      (let* data := loads (default "" html) in
       let* listing := get data "data" (JObject []) in
       let* posts := get listing "children" (JArray []) in
       let* posts := iterate posts in
       for_each posts (scrape_post company))
      (log ERROR ("Error parsing Reddit JSON for subreddit " +:+ subreddit)).

Definition subreddits : list string :=
  ["cscareerquestions"; "interviews"; "programming"].

(** [scrape_reddit_interviews] *)
Definition scrape_reddit_interviews (company : option string)
  : W (list ScrapedQuestion) :=
  new_questions ;;
  try_except
    (for_each subreddits (scrape_subreddit company))
    (fun e =>
       log ERROR ("Error scraping Reddit interviews: " +:+ str_fault e)) ;;
  return_questions.

(** What awaiting an adapter gives to [asyncio.gather].  An
    [AttributeError] or a [TypeError] that left an adapter would reach
    [gather] as an instance of [Exception] with its message; no adapter
    lets one out. *)
Definition awaited {A : Type} (m : W A) : outcome A :=
  match (m (mkNet [] [] [])).1 with
  | Ok a => Returned a
  | Err (Known e) => Raised e
  | Err (AttributeError msg) | Err (TypeError msg) => Raised (HTTPError msg)
  end.

(** The four adapters of this scraper, for [scrape_all_sources]. *)
Definition adapters : Adapters :=
  mkAdapters
    (fun topic => awaited (scrape_tcyonline topic))
    (fun topic => awaited (scrape_prepinsta topic))
    (fun topic => awaited (scrape_indiabix topic))
    (fun company => awaited (scrape_reddit_interviews company)).

End Scraper.

End WebScraper.

(** ** Notions and inputs for the adapters *)

Module WebSpec.
Import Scraper Bs4 Json WebScraper.

(** The questions of a page: what an adapter makes of the address it
    asks for, given the record of a container. *)
Definition page_questions (web : Web) (search_url : string)
    (select : node -> list node)
    (question : node -> option ScrapedQuestion) : list ScrapedQuestion :=
  if session_open web then
    match http_get web search_url with
    | Returned html =>
        if String.eqb html "" then []
        else omap question (select (BeautifulSoup web html))
    | Raised _ => []
    end
  else [].

(** The exception that leaves [scrape_page]: one that is no instance of
    [Exception], raised by the request. *)
Definition cancelled (web : Web) (url : string) : option exn :=
  if session_open web then
    match http_get web url with
    | Raised e => if is_Exception e then None else Some e
    | Returned _ => None
    end
  else None.

(** The text [scrape_page] returns. *)
Definition fetched (web : Web) (url : string) : option string :=
  if session_open web then
    match http_get web url with
    | Returned text => Some text
    | Raised _ => None
    end
  else None.

(** A computation that keeps a relation between the states before and
    after, and raises only faults of one kind. *)
Definition keeps {A : Type} (R : relation Net) (P : fault → Prop)
    (m : W A) : Prop :=
  ∀ n, R n (m n).2 ∧ ∀ f, (m n).1 = Err f → P f.

(** Faults that are instances of [Exception]. *)
Definition only_exceptions : fault → Prop := λ f, is_exception f = true.

(** The state after some records were appended to [questions], nothing
    being asked of the outside. *)
Definition grows (P : ScrapedQuestion → Prop) (n n' : Net) : Prop :=
  events n' = events n
  ∧ ∃ l, questions n' = questions n ++ l ∧ Forall P l.

(** The addresses the three page adapters ask for. *)
Definition tcyonline_url (topic : string) : string :=
  "https://www.tcyonline.com/search?q=" +:+ topic.

Definition prepinsta_url (topic : string) : string :=
  "https://prepinsta.com/" +:+ topic_slug topic +:+ "-questions".

Definition indiabix_url (topic : string) : string :=
  "https://www.indiabix.com/" +:+ topic_slug topic
    +:+ "/questions-and-answers".

(** What an adapter does for its one request. *)
Definition one_request (web : Web) (search_url : string) : list event :=
  Slept (SCRAPING_DELAY web)
    :: (if session_open web then [Got search_url] else []).

(** The address [scrape_reddit_interviews] asks for a subreddit. *)
Definition reddit_url (company : option string) (subreddit : string)
  : string :=
  "https://www.reddit.com/r/" +:+ subreddit +:+ "/search.json?q="
    +:+ (if truthy_str company
         then "interview questions " +:+ default "" company
         else "interview questions")
    +:+ "&sort=relevance&limit=25".

(** A trace in which every request comes right after a sleep of the
    configured delay, and nothing else happens. *)
Fixpoint polite (delay : Z) (evs : list event) : bool :=
  match evs with
  | [] => true
  | Got _ :: _ => false
  | Slept s :: rest =>
      bool_decide (s = delay)
      && match rest with
         | Got _ :: rest' => polite delay rest'
         | _ => polite delay rest
         end
  end.

(** A record as the Reddit adapter makes it. *)
Definition reddit_record (company : option string) (q : ScrapedQuestion)
  : Prop :=
  source_name q = Some "Reddit"
  ∧ topic q = Some "Interview Experience"
  ∧ difficulty q = Some "medium"
  ∧ company_name q = company
  ∧ options q = None
  ∧ correct_answer q = None
  ∧ (10 < String.length (question_text q))%nat
  ∧ strip (question_text q) = question_text q
  ∧ ∃ path, source_url q = Some ("https://www.reddit.com" +:+ path).

(** A record as one of the three page adapters makes it. *)
Definition page_record (name search_url topic_ : string)
    (q : ScrapedQuestion) : Prop :=
  source_name q = Some name
  ∧ source_url q = Some search_url
  ∧ topic q = Some topic_
  ∧ difficulty q = Some "medium"
  ∧ company_name q = None
  ∧ options q ≠ Some [].

(** What awaiting a page adapter gives. *)
Definition page_outcome (web : Web) (search_url : string)
    (select : node -> list node)
    (question : node -> option ScrapedQuestion)
  : result (list ScrapedQuestion) :=
  match cancelled web search_url with
  | Some e => Err (Known e)
  | None => Ok (page_questions web search_url select question)
  end.

(** The letters of an answer. *)
Definition answer_letters : list string := ["A"; "B"; "C"; "D"].

(** A record as the IndiaBIX adapter makes it, beyond [page_record]. *)
Definition indiabix_record (q : ScrapedQuestion) : Prop :=
  match options q with
  | Some l => Forall (λ o, (2 < String.length o)%nat) l
  | None => True
  end
  ∧ match correct_answer q with
    | Some a => a ∈ answer_letters
    | None => True
    end.

(** A small web: TCYOnline answers for the topic [os], Reddit answers
    for two subreddits, with a body that is no JSON for the first; the
    other addresses are not found. *)
Definition os_page : node :=
  Tag "[document]" []
    [Tag "div" ["results"]
       [Tag "div" ["question-container"; "mcq"]
          [Tag "div" ["question-text"] [Text "  What is a deadlock? "];
           Tag "div" ["option"] [Text "A cycle "; Tag "b" [] [Text "of waits"]];
           Tag "div" ["option"] [Text "A race"];
           Tag "div" ["correct-answer"] [Text " A cycle of waits"]];
        Tag "div" ["question-container"]
          [Tag "span" ["question-text"] [Text "not a div"]];
        Tag "div" ["question-container"]
          [Tag "div" ["question-text"] [Text "What is paging?"]]]].

Definition listing : json :=
  JObject
    [("kind", JString "Listing");
     ("data",
      JObject
        [("children",
          JArray
            [JObject
               [("data",
                 JObject
                   [("title", JString "Interview at a bank");
                    ("selftext",
                     JString "They asked: What is a deadlock in an OS?");
                    ("permalink", JString "/r/interviews/1")])];
             JObject [("data", JObject [("title", JInt 3)])]])])].

Definition small_web : Web :=
  mkWeb 2 true
    (λ url,
       if String.eqb url "https://www.tcyonline.com/search?q=os"
       then Returned "<html>os</html>"
       else if String.eqb url (reddit_url (Some "bank") "cscareerquestions")
       then Returned "<html>Too many requests</html>"
       else if String.eqb url (reddit_url (Some "bank") "interviews")
       then Returned "{listing}"
       else Raised (HTTPError "404 Not Found"))
    (λ _, os_page)
    (λ text, if String.eqb text "{listing}" then Some listing else None)
    (λ _, "").

(** The same web when every Reddit body is a JSON list. *)
Definition odd_web : Web :=
  mkWeb 2 true (λ _, Returned "[]") (λ _, os_page) (λ _, Some (JArray []))
    (λ _, "").

End WebSpec.

(** ** More concrete inputs *)

Module MoreExamples.
Import Orm Scheduler Notifier NotifierRest Spec Examples.

(** The campus when Alice has two entries of today, none completed. *)
Definition campus_double : Db :=
  with_quiz
    (λ _, [mkDailyQuizSchedule 1 (midnight a_day + 8 * hour) [20] 1 false;
           mkDailyQuizSchedule 1 (midnight a_day + 9 * hour) [30] 1 false])
    campus.

(** The campus when Alice has completed two quizzes of today. *)
Definition campus_twice_done : Db :=
  with_quiz
    (λ _, [mkDailyQuizSchedule 1 (midnight a_day + 8 * hour) [20] 1 true;
           mkDailyQuizSchedule 1 (midnight a_day + 9 * hour) [30] 1 true])
    campus.

(** A schedule as [setup_daily_notifications] makes it for Bob, and the
    campus with it. *)
Definition dormant : NotificationSchedule :=
  daily_schedule 2 (midnight a_day + 9 * hour).

Definition campus_dormant : Db :=
  with_schedules (λ m, <[9 := dormant]> m) campus.

End MoreExamples.

(** * Part II: facts *)

(** ** Python values *)

Module PyFacts.
Import Spec.

Lemma lstrip_chars_suffix l : ∃ k, l = k ++ lstrip_chars l.
Proof.
  induction l as [|c l [k IH]]; simpl.
  - by exists [].
  - destruct (isspace c).
    + exists (c :: k). by rewrite IH at 1.
    + by exists [].
Qed.

Lemma lstrip_chars_clean l : clean_head (lstrip_chars l).
Proof.
  induction l as [|c l IH]; simpl; [done|].
  destruct (isspace c) eqn:E; [done|]. simpl. done.
Qed.

Lemma lstrip_chars_id l : clean_head l → lstrip_chars l = l.
Proof. destruct l as [|c l]; simpl; [done|]. by intros ->. Qed.

Lemma lstrip_chars_idemp l : lstrip_chars (lstrip_chars l) = lstrip_chars l.
Proof. apply lstrip_chars_id, lstrip_chars_clean. Qed.

Lemma rstrip_chars_idemp l : rstrip_chars (rstrip_chars l) = rstrip_chars l.
Proof.
  unfold rstrip_chars. by rewrite rev_involutive, lstrip_chars_idemp.
Qed.

Lemma rstrip_chars_prefix l : ∃ k, l = rstrip_chars l ++ k.
Proof.
  unfold rstrip_chars.
  destruct (lstrip_chars_suffix (rev l)) as [k Hk].
  exists (rev k).
  rewrite <- rev_app_distr, <- Hk. by rewrite rev_involutive.
Qed.

Lemma rstrip_chars_clean l : clean_head l → clean_head (rstrip_chars l).
Proof.
  destruct (rstrip_chars_prefix l) as [k Hk].
  destruct (rstrip_chars l) as [|c r]; [done|].
  rewrite Hk. done.
Qed.

Lemma strip_chars_idemp l : strip_chars (strip_chars l) = strip_chars l.
Proof.
  unfold strip_chars.
  rewrite (lstrip_chars_id (rstrip_chars _)).
  - apply rstrip_chars_idemp.
  - apply rstrip_chars_clean, lstrip_chars_clean.
Qed.

Lemma strip_idemp s : strip (strip s) = strip s.
Proof.
  unfold strip.
  by rewrite String.list_ascii_of_string_of_list_ascii, strip_chars_idemp.
Qed.

End PyFacts.

(** ** scraper.py *)

Module ScraperFacts.
Import Scraper Spec PyFacts.

(** *** [_extract_questions_from_text] *)

Section Extraction.
Context {pattern : Type}.
Variable findall : pattern → string → list string.
Variable question_patterns : list pattern.

Lemma keep_match_well_formed questions m :
  well_formed questions → well_formed (keep_match questions m).
Proof.
  intros [Hnd Hall]. unfold keep_match.
  destruct (bool_decide (10 < String.length (strip m))%nat) eqn:Hlen;
    simpl; [|done].
  destruct (bool_decide (strip m ∉ questions)) eqn:Hnew; [|done].
  apply bool_decide_eq_true in Hlen, Hnew. split.
  - apply NoDup_app. split_and!; [done| |apply NoDup_singleton].
    intros q Hq ->%list_elem_of_singleton. done.
  - apply Forall_app. split; [done|].
    apply Forall_singleton. split; [done|apply strip_idemp].
Qed.

Lemma scan_pattern_well_formed text questions p :
  well_formed questions →
  well_formed (scan_pattern findall text questions p).
Proof.
  unfold scan_pattern. generalize (findall p text) as ms.
  intros ms. revert questions.
  induction ms as [|m ms IH]; intros questions Hwf; simpl; [done|].
  apply IH, keep_match_well_formed, Hwf.
Qed.

Lemma scan_all_well_formed text questions ps :
  well_formed questions →
  well_formed (foldl (scan_pattern findall text) questions ps).
Proof.
  revert questions.
  induction ps as [|p ps IH]; intros questions Hwf; simpl; [done|].
  apply IH, scan_pattern_well_formed, Hwf.
Qed.

Lemma well_formed_take n questions :
  well_formed questions → well_formed (take n questions).
Proof.
  intros [Hnd Hall]. split.
  - eapply sublist_NoDup; [done|apply sublist_take].
  - by apply Forall_take.
Qed.

Lemma extraction_well_formed text :
  well_formed (_extract_questions_from_text findall question_patterns text).
Proof.
  apply well_formed_take, scan_all_well_formed.
  split; [apply NoDup_nil_2 | apply Forall_nil_2].
Qed.

(** C6: at most 5 strings, no two equal, each longer than 10
    characters once trimmed, for every text, whatever [re.findall]
    gives for the patterns. *)
Theorem extract_questions_bounds text :
  let result :=
    _extract_questions_from_text findall question_patterns text in
  (length result ≤ 5)%nat
  ∧ NoDup result
  ∧ Forall (λ q, (10 < String.length (strip q))%nat) result.
Proof.
  intros result.
  destruct (extraction_well_formed text) as [Hnd Hall]. split_and!.
  - unfold result, _extract_questions_from_text.
    rewrite length_take. lia.
  - done.
  - eapply Forall_impl; [exact Hall|].
    intros q [Hlen ->]. done.
Qed.

End Extraction.

(** The five patterns of the source under the matcher of this file, on
    texts checked against [re]. *)
Example extract_numbered :
  extract_questions
    "Q1: What is a deadlock in DBMS? q2. explain joins? Q:x?"
  = ["What is a deadlock in DBMS?"; "explain joins?"].
Proof. reflexivity. Qed.

Example extract_mixed :
  extract_questions
    ("They asked: What is normalization in databases?  "
     +:+ "Question 2: What is normalization in databases? "
     +:+ "'How do you reverse a list?' Q: hi?")
  = ["uestion 2: What is normalization in databases?";
     "What is normalization in databases?";
     "How do you reverse a list?"].
Proof. reflexivity. Qed.

Example extract_capped :
  extract_questions
    ("Q: a b c d e f g h? Q: 1 2 3 4 5 6 7? Q: what is your name? "
     +:+ "Q: how old are you?? Q: where do you live? "
     +:+ "Q: what do you do now? Q: extra question here?")
  = ["a b c d e f g h?"; "1 2 3 4 5 6 7?"; "what is your name?";
     "how old are you?"; "where do you live?"].
Proof. reflexivity. Qed.

(** *** [scrape_all_sources] *)

(** With [return_exceptions=True], [gather] gives every task's outcome,
    in the order of the tasks, and raises nothing. *)
Lemma gather_return_exceptions {A : Type} (tasks : list (outcome A)) :
  gather true tasks = Returned (as_result <$> tasks).
Proof.
  induction tasks as [|t tasks IH]; simpl; [done|].
  rewrite IH. by destruct t.
Qed.

(** Without the flag a raising task makes [gather] raise. *)
Lemma gather_propagates {A : Type} (tasks : list (outcome A)) e :
  Raised e ∈ tasks → ∃ e', gather false tasks = Raised e'.
Proof.
  induction tasks as [|t tasks IH]; [by intros ?%elem_of_nil|].
  intros [<-|Hin]%elem_of_cons; simpl.
  - destruct (gather false tasks); eauto.
  - destruct (IH Hin) as [e' ->]. destruct t; eauto.
Qed.

Lemma foldl_fold_result_questions tasks acc lg :
  (foldl fold_result (acc, lg) (as_result <$> tasks)).1
  = acc ++ concat (contribution <$> tasks).
Proof.
  revert acc lg.
  induction tasks as [|t tasks IH]; intros acc lg; simpl.
  - by rewrite app_nil_r.
  - destruct t as [l|e]; simpl.
    + rewrite IH. by rewrite app_assoc.
    + destruct (is_Exception e); simpl; by rewrite IH.
Qed.

Lemma scrape_all_sources_unfold ad topic company :
  scrape_all_sources ad topic company
  = let st := foldl fold_result ([], [])
                (as_result <$> tasks_of ad topic company) in
    (Returned st.1, st.2).
Proof.
  unfold scrape_all_sources. by rewrite gather_return_exceptions.
Qed.

(** C1: whatever each adapter does, [scrape_all_sources] returns, and
    returns the lists of the adapters that returned one, one after the
    other in the order TCYOnline, PrepInsta, IndiaBIX, Reddit (Reddit
    when [company] is a non-empty string), nothing removed; when every
    adapter raises this is the empty list. *)
Theorem scrape_all_sources_isolates (ad : Adapters) (topic : string)
    (company : option string) :
  let merged :=
    contribution (scrape_tcyonline ad topic)
    ++ contribution (scrape_prepinsta ad topic)
    ++ contribution (scrape_indiabix ad topic)
    ++ (if truthy_str company
        then contribution (scrape_reddit_interviews ad company)
        else []) in
  (scrape_all_sources ad topic company).1 = Returned merged
  ∧ length merged
    = (length (contribution (scrape_tcyonline ad topic))
       + length (contribution (scrape_prepinsta ad topic))
       + length (contribution (scrape_indiabix ad topic))
       + (if truthy_str company
          then length (contribution (scrape_reddit_interviews ad company))
          else 0))%nat
  ∧ (∀ e1 e2 e3 e4,
       (scrape_all_sources
          (mkAdapters (λ _, Raised e1) (λ _, Raised e2) (λ _, Raised e3)
             (λ _, Raised e4)) topic company).1 = Returned []).
Proof.
  intros merged. split_and!.
  - rewrite scrape_all_sources_unfold. cbn [fst].
    rewrite foldl_fold_result_questions. unfold tasks_of, merged.
    destruct (truthy_str company); simpl; by rewrite ?app_nil_r.
  - unfold merged. rewrite !length_app.
    destruct (truthy_str company); simpl; lia.
  - intros e1 e2 e3 e4. rewrite scrape_all_sources_unfold. cbn [fst].
    rewrite foldl_fold_result_questions. unfold tasks_of.
    destruct (truthy_str company); done.
Qed.

(** The scenario of the specification: two adapters raise, IndiaBIX
    returns two records; these two come back, in its order. *)
Example two_adapters_fail q1 q2 :
  (scrape_all_sources
     (mkAdapters (λ _, Raised (HTTPError "timeout"))
        (λ _, Raised (HTTPError "503")) (λ _, Returned [q1; q2])
        (λ _, Returned []))
     "DBMS" None).1
  = Returned [q1; q2].
Proof. reflexivity. Qed.

End ScraperFacts.

(** ** The session *)

Module OrmFacts.
Import Orm Spec.

(** *** Flushing *)

Lemma with_quiz_nil db : with_quiz (λ l, l ++ []) db = db.
Proof. destruct db. unfold with_quiz. simpl. by rewrite app_nil_r. Qed.

Lemma with_notifications_nil db : with_notifications (λ l, l ++ []) db = db.
Proof.
  destruct db. unfold with_notifications. simpl. by rewrite app_nil_r.
Qed.

Lemma flush_open_session db : flush (open_session db) = open_session db.
Proof.
  unfold flush, open_session. simpl.
  by rewrite with_quiz_nil, with_notifications_nil.
Qed.

Lemma committed_flush s : committed (flush s) = committed s.
Proof. done. Qed.

(** *** Rules for [respects] *)

Section Rules.
Context (R : relation World) `{!Reflexive R, !Transitive R}.
Context (P : exn → Prop).

Lemma respects_ret {A} (a : A) : respects R P (ret a).
Proof. intros w. split; [reflexivity|done]. Qed.

Lemma respects_raise {A} e : P e → respects R P (@raise A e).
Proof. intros He w. split; [reflexivity|]. by intros e' [= <-]. Qed.

Lemma respects_bind {A B} (m : M A) (k : A → M B) :
  respects R P m → (∀ a, respects R P (k a)) → respects R P (bind m k).
Proof.
  intros Hm Hk w. unfold bind.
  destruct (Hm w) as [HR HP]. destruct (m w) as [[a|e] w1]; simpl in *.
  - destruct (Hk a w1) as [HR' HP']. split; [by etrans|done].
  - split; [done|]. intros e' [= <-]. by apply HP.
Qed.

Lemma respects_try_except {A} (m : M A) (h : exn → M A) P' :
  respects R P' m → (∀ e, respects R P (h e)) →
  (∀ e, P' e → is_Exception e = false → P e) →
  respects R P (try_except m h).
Proof.
  intros Hm Hh HPP w. unfold try_except.
  destruct (Hm w) as [HR HP]. destruct (m w) as [[a|e] w1]; simpl in *.
  - done.
  - destruct (is_Exception e) eqn:He.
    + destruct (Hh e w1) as [HR' HP']. split; [by etrans|done].
    + split; [done|]. intros e' [= <-]. by apply HPP; [apply HP|].
Qed.

Lemma respects_for_acc {A B} (l : list A) (acc : B) body :
  (∀ acc x, respects R P (body acc x)) →
  respects R P (for_acc l acc body).
Proof.
  intros Hbody. revert acc.
  induction l as [|x l IH]; intros acc; simpl.
  - apply respects_ret.
  - apply respects_bind; [apply Hbody|]. intros acc'. apply IH.
Qed.

Lemma respects_for_each {A} (l : list A) body :
  (∀ x, respects R P (body x)) → respects R P (for_each l body).
Proof. intros Hbody. apply respects_for_acc. intros _ x. apply Hbody. Qed.

Lemma respects_scalar_one_or_none {A} (rows : list A) :
  P MultipleResultsFound → respects R P (scalar_one_or_none rows).
Proof.
  intros HP. destruct rows as [|x [|y rows]]; simpl;
    auto using respects_ret, respects_raise.
Qed.

Lemma respects_if {A} (b : bool) (m1 m2 : M A) :
  respects R P m1 → respects R P m2 →
  respects R P (if b then m1 else m2).
Proof. by destruct b. Qed.

End Rules.

Lemma respects_weaken {A} (R R' : relation World) (P P' : exn → Prop)
    (m : M A) :
  respects R P m → (∀ w w', R w w' → R' w w') → (∀ e, P e → P' e) →
  respects R' P' m.
Proof. intros Hm HR HP w. destruct (Hm w). split; auto. Qed.

#[global] Instance steady_refl : Reflexive steady.
Proof. by intros w. Qed.

#[global] Instance steady_trans : Transitive steady.
Proof.
  intros w1 w2 w3 [] []. split; congruence.
Qed.

Section Primitives.
Variable env : Env.
Variable P : exn → Prop.

Lemma steady_log lv msg : respects steady P (log lv msg).
Proof. intros w. by split. Qed.

Lemma steady_utcnow : respects steady P (utcnow env).
Proof. intros w. by split. Qed.

Lemma steady_now : respects steady P (now env).
Proof.
  apply respects_bind; [apply _|apply steady_utcnow|].
  intros t. apply respects_ret. apply _.
Qed.

Lemma steady_execute {A} (q : Db → A) : respects steady P (execute env q).
Proof.
  intros w. unfold execute. destruct (autoflush env); by split.
Qed.

Lemma steady_add_quiz q : respects steady P (add_quiz q).
Proof. intros w. by split. Qed.

Lemma steady_add_notification n : respects steady P (add_notification n).
Proof. intros w. by split. Qed.

Lemma steady_update_schedule id f : respects steady P (update_schedule id f).
Proof. intros w. by split. Qed.

End Primitives.

(** *** Days *)

Lemma date_of_bounds t d :
  date_of t = d ↔ midnight d <= t < midnight (d + 1).
Proof.
  unfold date_of, midnight, microseconds_per_day. split.
  - intros <-.
    pose proof (Z.div_mod t 86400000000).
    pose proof (Z.mod_pos_bound t 86400000000). lia.
  - intros [Hlo Hhi]. symmetry.
    apply (Z.div_unique_pos t 86400000000 d (t - 86400000000 * d)); lia.
Qed.

(** *** Lists and loops *)

Lemma filter_none {A} (P : A → Prop) `{!∀ x, Decision (P x)} (l : list A) :
  Forall (λ x, ¬ P x) l → filter P l = [].
Proof.
  induction 1 as [|x l Hx _ IH]; [done|].
  by rewrite filter_cons_False.
Qed.

Lemma for_each_cons {A} (x : A) l body w :
  for_each (x :: l) body w = bind (body x) (λ _, for_each l body) w.
Proof.
  unfold for_each. simpl. unfold bind.
  by destruct (body x w) as [[[]|e] w'].
Qed.

(** *** What a commit would write *)

Lemma with_quiz_app db a b :
  with_quiz (λ l, l ++ b) (with_quiz (λ l, l ++ a) db)
  = with_quiz (λ l, l ++ (a ++ b)) db.
Proof. unfold with_quiz. simpl. by rewrite app_assoc. Qed.

Lemma view_flush s : view (flush s) = view s.
Proof.
  unfold view. simpl.
  rewrite with_quiz_nil, with_notifications_nil. done.
Qed.

Lemma view_open_session db : view (open_session db) = db.
Proof. unfold view. by rewrite flush_open_session. Qed.

Lemma view_add_quiz s q :
  view (mkSession (committed s) (txn s) (new_quiz s ++ [q])
          (new_notifications s))
  = with_quiz (λ l, l ++ [q]) (view s).
Proof.
  unfold view, flush, with_quiz, with_notifications. simpl.
  by rewrite app_assoc.
Qed.

Lemma commit_session_view s :
  commit_session s = open_session (view s).
Proof. done. Qed.

Lemma execute_run {A} env (q : Db → A) w :
  execute env q w
  = let w1 := if autoflush env then with_session flush w else w in
    (Returned (q (txn (session w1))), w1).
Proof. done. Qed.

End OrmFacts.

(** ** The inputs of the examples *)

Module ExampleFacts.
Import Orm Spec Examples OrmFacts.

Lemma clock_stays_on_a_day k : date_of (local_clock calm k) = a_day.
Proof.
  apply date_of_bounds.
  unfold local_clock, calm, clock, midnight, a_day, hour, second,
    microseconds_per_day. simpl. lia.
Defined.

End ExampleFacts.

(** ** scheduler.py *)

Module SchedulerFacts.
Import Orm Scheduler Spec Examples OrmFacts ExampleFacts.

Create HintDb steady_db.
#[local] Hint Resolve steady_log steady_utcnow steady_now steady_execute
  steady_add_quiz steady_add_notification steady_update_schedule
  : steady_db.
#[local] Hint Extern 1 (respects steady _ (ret _)) =>
  apply respects_ret; apply _ : steady_db.
#[local] Hint Extern 2 (respects steady _ (bind _ _)) =>
  apply respects_bind; [apply _| |intros ?] : steady_db.
#[local] Hint Extern 1 (respects steady _ (scalar_one_or_none _)) =>
  apply respects_scalar_one_or_none; [apply _|reflexivity] : steady_db.

Lemma schedule_user_steady env today tomorrow user :
  respects steady only_multiple (schedule_user env today tomorrow user).
Proof.
  unfold schedule_user.
  apply respects_bind; [apply _|auto with steady_db|intros rows].
  apply respects_bind; [apply _|auto with steady_db|intros [q|]].
  { auto with steady_db. }
  apply respects_bind; [apply _|auto with steady_db|intros [|r rs]];
    auto with steady_db.
Qed.

(** The [try] block up to its commit never raises anything but
    [MultipleResultsFound] and leaves the database as it is; with a
    commit that fails the whole block raises. *)
Lemma block_raises_on_commit_fault env w :
  commit_ok env (commits w) = false →
  ∃ e w', create_schedules_block env w = (Raised e, w')
          ∧ is_Exception e = true
          ∧ committed (session w') = committed (session w)
          ∧ rollbacks w' = rollbacks w
          ∧ slept w' = slept w.
Proof.
  intros Hfault. unfold create_schedules_block.
  unfold bind at 1.
  destruct (steady_now env never w) as [[] Hno1].
  destruct (now env w) as [[t|e] w1]; simpl in *;
    [|by destruct (Hno1 e)].
  unfold bind at 1.
  destruct (steady_execute env never select_active_users w1) as [[] Hno2].
  destruct (execute env select_active_users w1) as [[us|e] w2]; simpl in *;
    [|by destruct (Hno2 e)].
  unfold bind at 1.
  destruct (respects_for_each steady only_multiple us
              (schedule_user env (date_of t) (date_of t + 1))
              (schedule_user_steady env _ _) w2) as [[] Hmul].
  destruct (for_each us _ w2) as [[[]|e] w3]; simpl in *.
  - unfold bind at 1, commit.
    replace (commits w3) with (commits w) by congruence.
    rewrite Hfault. eexists _, _. split; [done|]. simpl.
    split_and!; congruence.
  - eexists _, _. split; [done|]. rewrite (Hmul e eq_refl).
    split_and!; [done|congruence..].
Qed.

(** The handler of [_create_daily_quiz_schedules] takes the exception:
    the method returns when the rollback succeeds and raises only
    when the rollback fails. *)
Lemma create_absorbs_commit_fault env w :
  commit_ok env (commits w) = false →
  ∃ w', committed (session w') = committed (session w)
        ∧ slept w' = slept w
        ∧ _create_daily_quiz_schedules env w
          = (if rollback_ok env (rollbacks w)
             then Returned ()
             else Raised (DBAPIError "rollback failed"), w').
Proof.
  intros Hfault.
  destruct (block_raises_on_commit_fault env w Hfault)
    as (e & w1 & Hrun & He & Hdb & Hrb & Hsl).
  unfold _create_daily_quiz_schedules, try_except.
  rewrite Hrun, He. unfold bind, log, rollback. simpl.
  rewrite Hrb. destruct (rollback_ok env (rollbacks w)); simpl.
  - eexists. split_and!; [..|done]; simpl; done.
  - eexists. split_and!; [..|done]; simpl; done.
Qed.

(** C2, as the code has it: a commit that fails in the quiz job is caught
    inside the job body, logged and rolled back; the loop then sleeps
    its normal hour.  The loop backs off for five minutes only when the
    rollback of the handler fails too.  The database is as before in
    both cases. *)
Theorem commit_fault_absorbed env w :
  commit_ok env (commits w) = false →
  let w' := (daily_quiz_iteration env w).2 in
  (daily_quiz_iteration env w).1 = Returned ()
  ∧ committed (session w') = committed (session w)
  ∧ slept w'
    = slept w ++ [if rollback_ok env (rollbacks w) then 3600 else 300]
  ∧ phase_after_turn env w
    = Some (if rollback_ok env (rollbacks w) then Idle else BackingOff).
Proof.
  intros Hfault.
  pose (w0 := with_session (λ s, open_session (committed s)) w).
  destruct (create_absorbs_commit_fault env w0 Hfault)
    as (w1 & Hdb & Hsl & Hrun).
  assert (Hiter :
    daily_quiz_iteration env w
    = (Returned (),
       mkWorld (open_session (committed (session w1)))
         (ticks w1) (commits w1) (rollbacks w1)
         (if rollback_ok env (rollbacks w) then logged w1
          else logged w1 ++
               [(ERROR, "Error in daily quiz scheduler: rollback failed")])
         (fcm_outbox w1)
         (slept w1 ++
            [if rollback_ok env (rollbacks w) then 3600 else 300]))).
  { unfold daily_quiz_iteration, try_except, bind, async_with_session.
    fold w0. rewrite Hrun.
    change (rollbacks w0) with (rollbacks w).
    destruct (rollback_ok env (rollbacks w)); reflexivity. }
  unfold phase_after_turn. rewrite Hiter. simpl.
  split_and!; [done|done|by rewrite Hsl|].
  rewrite last_snoc. simpl.
  by destruct (rollback_ok env (rollbacks w)).
Qed.

(** *** Days *)

Lemma select_schedule_between_entries_on uid d db :
  select_schedule_between uid d (d + 1) db = entries_on uid d db.
Proof.
  unfold select_schedule_between, entries_on.
  apply list_filter_iff. intros q. rewrite date_of_bounds. tauto.
Qed.

(** *** The session under the operations of the loop *)

Lemma extends_flush db ids s : extends db ids s → extends db ids (flush s).
Proof.
  intros [Hu Ht Hut (fl & Hq & Hall)]. split; simpl; try done.
  exists (fl ++ new_quiz s). split.
  - rewrite Hq. by rewrite app_assoc.
  - by rewrite app_nil_r.
Qed.

Lemma extends_autoflush env db ids w :
  extends db ids (session w) →
  extends db ids
    (session (if autoflush env then with_session flush w else w)).
Proof. destruct (autoflush env); [apply extends_flush|done]. Qed.

Lemma extends_open_session db ids : extends db ids (open_session db).
Proof.
  split; try done. exists []. split; [by rewrite app_nil_r|].
  simpl. constructor.
Qed.

Lemma extends_between db uid ids s today tomorrow :
  extends db (uid :: ids) s →
  select_schedule_between uid today tomorrow (txn s)
  = select_schedule_between uid today tomorrow db.
Proof.
  intros [_ _ _ (fl & Hq & Hall)]. unfold select_schedule_between.
  rewrite Hq, filter_app.
  rewrite (filter_none _ fl); [by rewrite app_nil_r|].
  apply Forall_app in Hall as [Hfl _].
  eapply Forall_impl; [exact Hfl|]. simpl.
  intros q Hq' [Heq _]. apply Hq'. rewrite Heq. set_solver.
Qed.

Lemma extends_user_topics db uid ids s :
  extends db ids s → select_user_topics uid (txn s) = select_user_topics uid db.
Proof.
  intros [_ Ht Hut _].
  unfold select_user_topics, active_associations, join_topic.
  by rewrite Ht, Hut.
Qed.

Lemma extends_add db uid ids s q :
  extends db (uid :: ids) s → uid ∉ ids → dq_user_id q = uid →
  extends db ids
    (mkSession (committed s) (txn s) (new_quiz s ++ [q])
       (new_notifications s)).
Proof.
  intros [Hu Ht Hut (fl & Hq & Hall)] Hnew Hid. split; simpl; try done.
  exists fl. split; [done|]. rewrite app_assoc.
  apply Forall_app. split.
  - eapply Forall_impl; [exact Hall|]. simpl. set_solver.
  - apply Forall_singleton. by rewrite Hid.
Qed.

Lemma extends_weaken db uid ids s :
  extends db (uid :: ids) s → extends db ids s.
Proof.
  intros [Hu Ht Hut (fl & Hq & Hall)]. split; try done.
  exists fl. split; [done|].
  eapply Forall_impl; [exact Hall|]. simpl. set_solver.
Qed.

#[global] Instance quiet_refl : Reflexive quiet.
Proof. intros w. by split. Qed.

#[global] Instance quiet_trans : Transitive quiet.
Proof.
  intros w1 w2 w3 [] []. split; [by etrans|congruence..].
Qed.

(** One turn of [for user in users]. *)
Lemma schedule_user_spec env db today u ids w :
  u.1 ∉ ids →
  extends db (u.1 :: ids) (session w) →
  (length (select_schedule_between u.1 today (today + 1)%Z db) ≤ 1)%nat →
  ∃ w', schedule_user env today (today + 1) u w = (Returned (), w')
        ∧ extends db ids (session w')
        ∧ view (session w')
          = with_quiz (λ l, l ++ plan_user env db today (ticks w) u.1)
              (view (session w))
        ∧ ticks w'
          = (ticks w + length (plan_user env db today (ticks w) u.1))%nat
        ∧ quiet w w'.
Proof.
  intros Hnew Hext Hone. unfold schedule_user, plan_user, wants_entry.
  unfold bind at 1. rewrite execute_run. cbv zeta.
  set (w1 := if autoflush env then with_session flush w else w).
  assert (Hext1 : extends db (u.1 :: ids) (session w1))
    by by apply extends_autoflush.
  assert (Hview1 : view (session w1) = view (session w)).
  { unfold w1. destruct (autoflush env); [apply view_flush|done]. }
  assert (Hticks1 : ticks w1 = ticks w).
  { unfold w1. by destruct (autoflush env). }
  assert (Hquiet1 : quiet w w1).
  { unfold w1. destruct (autoflush env); by repeat split. }
  rewrite (extends_between _ _ _ _ _ _ Hext1).
  destruct (select_schedule_between u.1 today (today + 1) db)
    as [|q [|q' qs]] eqn:Hsel; simpl in Hone; [| |lia].
  2:{ (* an entry exists: continue *)
      exists w1. simpl.
      split_and!; [done|by apply (extends_weaken _ u.1)| |lia|done].
      rewrite Hview1. by rewrite with_quiz_nil. }
  unfold bind at 1. simpl scalar_one_or_none. unfold ret at 1.
  unfold bind at 1. rewrite execute_run. cbv zeta.
  set (w2 := if autoflush env then with_session flush w1 else w1).
  assert (Hext2 : extends db (u.1 :: ids) (session w2))
    by by apply extends_autoflush.
  assert (Hview2 : view (session w2) = view (session w)).
  { rewrite <- Hview1. unfold w2.
    destruct (autoflush env); [apply view_flush|done]. }
  assert (Hticks2 : ticks w2 = ticks w).
  { rewrite <- Hticks1. unfold w2. by destruct (autoflush env). }
  assert (Hquiet2 : quiet w w2).
  { etrans; [exact Hquiet1|]. unfold w2.
    destruct (autoflush env); by repeat split. }
  rewrite (extends_user_topics _ u.1 _ _ Hext2).
  destruct (select_user_topics u.1 db) as [|r rs] eqn:Htop.
  { (* no active topic: continue *)
    exists w2. simpl.
    split_and!; [done|by apply (extends_weaken _ u.1)| |lia|done].
    rewrite Hview2. by rewrite with_quiz_nil. }
  eexists. split; [reflexivity|]. simpl.
  split_and!.
  - apply (extends_add _ u.1); [exact Hext2|exact Hnew|done].
  - rewrite view_add_quiz, Hview2. unfold entry_for, local_clock.
    rewrite Htop, Hticks2. done.
  - lia.
  - destruct Hquiet2 as [[] ? ?]. by repeat split.
Qed.

(** The loop over the users. *)
Lemma schedule_loop_spec env db today us : ∀ w,
  NoDup us.*1 →
  Forall (λ u : Z * User,
    (length (select_schedule_between u.1 today (today + 1)%Z db) ≤ 1)%nat)
    us →
  extends db us.*1 (session w) →
  ∃ w', for_each us (schedule_user env today (today + 1)) w
        = (Returned (), w')
        ∧ view (session w')
          = with_quiz (λ l, l ++ planned env db today (ticks w) us)
              (view (session w))
        ∧ (ticks w ≤ ticks w')%nat
        ∧ quiet w w'.
Proof.
  induction us as [|u us IH]; intros w Hnd Hone Hext.
  - exists w. split_and!; [done| |done|done].
    simpl. by rewrite with_quiz_nil.
  - rewrite fmap_cons in Hnd, Hext.
    apply NoDup_cons in Hnd as [Hnew Hnd].
    apply Forall_cons in Hone as [Hu Hone].
    destruct (schedule_user_spec env db today u us.*1 w Hnew Hext Hu)
      as (w1 & Hrun1 & Hext1 & Hview1 & Hticks1 & Hquiet1).
    destruct (IH w1 Hnd Hone Hext1)
      as (w2 & Hrun2 & Hview2 & Hticks2 & Hquiet2).
    exists w2. rewrite for_each_cons. unfold bind. rewrite Hrun1, Hrun2.
    split_and!; [done| |lia|by etrans].
    rewrite Hview2, Hview1, with_quiz_app. simpl.
    by rewrite Hticks1.
Qed.

Lemma NoDup_select_active_users db : NoDup (select_active_users db).*1.
Proof.
  unfold select_active_users.
  eapply sublist_NoDup; [apply (NoDup_fst_map_to_list (users db))|].
  apply fmap_sublist, sublist_filter.
Qed.

Lemma elem_of_select_active_users db uid u :
  (uid, u) ∈ select_active_users db
  ↔ users db !! uid = Some u ∧ u_is_active u = true.
Proof.
  unfold select_active_users.
  rewrite list_elem_of_filter, elem_of_map_to_list. simpl. tauto.
Qed.

(** A run of the job whose commit succeeds, on a database where no
    active user has two entries for today. *)
Lemma run_generator_spec env w :
  let db := committed (session w) in
  let today := date_of (local_clock env (ticks w)) in
  commit_ok env (commits w) = true →
  Forall (λ u : Z * User,
    (length (select_schedule_between u.1 today (today + 1)%Z db) ≤ 1)%nat)
    (select_active_users db) →
  ∃ w', async_with_session (_create_daily_quiz_schedules env) w
        = (Returned (), w')
        ∧ session w'
          = open_session
              (with_quiz
                 (λ l, l ++ planned env db today (S (ticks w))
                              (select_active_users db)) db)
        ∧ commits w' = S (commits w)
        ∧ rollbacks w' = rollbacks w
        ∧ (ticks w < ticks w')%nat
        ∧ slept w' = slept w
        ∧ logged w'
          = logged w ++
              [(INFO, "Created daily quiz schedules for "
                        +:+ pretty (length (select_active_users db))
                        +:+ " users")].
Proof.
  intros db today Hcommit Hone.
  pose (w0 := mkWorld (open_session db) (S (ticks w)) (commits w)
                (rollbacks w) (logged w) (fcm_outbox w) (slept w)).
  destruct (schedule_loop_spec env db today (select_active_users db) w0
              (NoDup_select_active_users db) Hone
              (extends_open_session db _))
    as (w1 & Hloop & Hview & Hticks & [[Hdb Hcm Hrb Hsl] Hlog Hout]).
  simpl in *.
  assert (Hblock :
    create_schedules_block env
      (with_session (λ s, open_session (committed s)) w)
    = (Returned (),
       mkWorld (open_session (view (session w1))) (ticks w1)
         (S (commits w1)) (rollbacks w1)
         (logged w1 ++
            [(INFO, "Created daily quiz schedules for "
                      +:+ pretty (length (select_active_users db))
                      +:+ " users")])
         (fcm_outbox w1) (slept w1))).
  { unfold create_schedules_block.
    unfold bind at 1. unfold now, bind at 1, utcnow, ret. simpl.
    unfold bind at 1. rewrite execute_run. cbv zeta.
    fold db. replace (if autoflush env then _ else _) with w0.
    2:{ unfold w0, with_session. simpl.
        destruct (autoflush env); [|done]. simpl.
        by rewrite flush_open_session. }
    change (txn (session w0)) with db.
    unfold bind at 1. fold (local_clock env (ticks w)). fold today.
    rewrite Hloop. unfold bind at 1, commit. rewrite Hcm, Hcommit.
    done. }
  eexists. unfold async_with_session, _create_daily_quiz_schedules,
    try_except. rewrite Hblock. split; [reflexivity|]. simpl.
  rewrite Hview, view_open_session.
  split_and!; [done|congruence|congruence|lia|congruence|congruence].
Qed.

(** *** What the loop adds *)

Lemma planned_filter env db today uid : ∀ us k,
  NoDup us.*1 →
  ∃ k', (k ≤ k')%nat
        ∧ filter (λ q, dq_user_id q = uid) (planned env db today k us)
          = if bool_decide (uid ∈ us.*1) && wants_entry db today uid
            then [entry_for env db uid k'] else [].
Proof.
  induction us as [|u us IH]; intros k Hnd.
  { exists k. split; [done|]. simpl. done. }
  rewrite fmap_cons in Hnd. apply NoDup_cons in Hnd as [Hnew Hnd].
  simpl planned. rewrite filter_app.
  destruct (IH (k + length (plan_user env db today k u.1))%nat Hnd)
    as (k' & Hk' & Hrest).
  rewrite Hrest. unfold plan_user. rewrite fmap_cons.
  destruct (decide (u.1 = uid)) as [<-|Hne].
  - rewrite (bool_decide_eq_false_2 (u.1 ∈ us.*1)) by done.
    rewrite bool_decide_eq_true_2 by apply list_elem_of_here. simpl.
    exists k. split; [done|].
    destruct (wants_entry db today u.1); [|done].
    by rewrite filter_cons_True.
  - exists k'. split; [lia|].
    rewrite (filter_none _ (if wants_entry _ _ _ then _ else _)).
    2:{ destruct (wants_entry db today u.1); repeat constructor.
        simpl. done. }
    simpl.
    rewrite (bool_decide_ext (uid ∈ u.1 :: us.*1) (uid ∈ us.*1)); [done|].
    rewrite elem_of_cons. split; [|by right].
    intros [Heq|Hin]; [by destruct Hne|done].
Qed.

Lemma planned_dates env db today : ∀ us k,
  Forall (λ q, ∃ k', (k ≤ k')%nat ∧ dq_scheduled_date q = local_clock env k')
    (planned env db today k us).
Proof.
  induction us as [|u us IH]; intros k; simpl; [constructor|].
  apply Forall_app. split.
  - unfold plan_user. destruct (wants_entry db today u.1);
      repeat constructor. by exists k.
  - eapply Forall_impl; [apply IH|]. simpl.
    intros q (k' & Hk' & Hq). exists k'. split; [lia|done].
Qed.

Lemma planned_nil env db today : ∀ us k,
  Forall (λ u : Z * User, wants_entry db today u.1 = false) us →
  planned env db today k us = [].
Proof.
  induction us as [|u us IH]; intros k Hall; [done|].
  apply Forall_cons in Hall as [Hu Hall]. simpl.
  unfold plan_user. rewrite Hu. simpl. by apply IH.
Qed.

(** *** The ordering of the topics *)

#[global] Instance priority_desc_trans : Transitive priority_desc.
Proof. intros a b c. unfold priority_desc. lia. Qed.

#[global] Instance priority_desc_total : Total priority_desc.
Proof. intros a b. unfold priority_desc. lia. Qed.

Lemma select_user_topics_sorted uid db :
  StronglySorted priority_desc (select_user_topics uid db).
Proof. apply StronglySorted_merge_sort; apply _. Qed.

Lemma select_user_topics_perm uid db :
  select_user_topics uid db ≡ₚ active_associations uid db.
Proof. apply merge_sort_Permutation. Qed.

(** The rows the query gives are the active associations of the user
    whose topic exists. *)
Lemma elem_of_active_associations uid db r :
  r ∈ active_associations uid db
  ↔ r.1 ∈ user_topics db
    ∧ topics db !! ut_topic_id r.1 = Some r.2
    ∧ ut_user_id r.1 = uid
    ∧ ut_is_active r.1 = true.
Proof.
  unfold active_associations.
  rewrite list_elem_of_filter, list_elem_of_In, in_flat_map.
  setoid_rewrite <- list_elem_of_In. unfold join_topic. split.
  - intros [[Hu Ha] (ut & Hut & Hr)].
    destruct (topics db !! ut_topic_id ut) as [t|] eqn:Ht;
      [|by apply elem_of_nil in Hr].
    apply list_elem_of_singleton in Hr as ->. simpl in *. done.
  - intros (Hin & Ht & Hu & Ha). split; [done|].
    exists r.1. split; [done|]. rewrite Ht.
    apply list_elem_of_singleton. by destruct r.
Qed.

(** Three associations of priorities 5, 3 and 1 come out in that
    order. *)
Lemma three_topics_in_order uid db a b c :
  active_associations uid db ≡ₚ [a; b; c] →
  ut_priority a.1 = 5 → ut_priority b.1 = 3 → ut_priority c.1 = 1 →
  select_user_topics uid db = [a; b; c].
Proof.
  intros Hperm Ha Hb Hc.
  apply (StronglySorted_unique_strong priority_desc).
  - intros x y Hx Hy Hxy Hyx. unfold priority_desc in *.
    rewrite select_user_topics_perm, Hperm in Hx.
    rewrite !elem_of_cons, elem_of_nil in Hx, Hy.
    destruct Hx as [->|[->|[->|[]]]]; destruct Hy as [->|[->|[->|[]]]];
      (done || lia).
  - apply select_user_topics_sorted.
  - unfold priority_desc. repeat constructor; simpl; lia.
  - by rewrite select_user_topics_perm.
Qed.

(** C8: for an active user without an entry for today, a run of the
    generator whose commit succeeds returns without an error and adds
    exactly one entry for the user when the user has an active topic,
    none when the user has not.  The entry carries the ids of the
    user's active topics by descending priority, five at most, with
    [questions_per_topic = 1]; three topics of priorities 5, 3 and 1
    come in that order. *)
Theorem generator_selects_top_topics env w uid u :
  let db := committed (session w) in
  let today := date_of (local_clock env (ticks w)) in
  let rows := select_user_topics uid db in
  let topic_ids := (λ r : UserTopic * Topic, ut_topic_id r.1) <$> take 5 rows in
  users db !! uid = Some u →
  u_is_active u = true →
  select_schedule_between uid today (today + 1) db = [] →
  no_double_today db today →
  commit_ok env (commits w) = true →
  (async_with_session (_create_daily_quiz_schedules env) w).1 = Returned ()
  ∧ Forall (λ r, r.1 = INFO) (drop (length (logged w))
                                (logged (run_generator env w)))
  ∧ (∃ created k,
       daily_quiz_schedules (committed (session (run_generator env w)))
       = daily_quiz_schedules db ++ created
       ∧ filter (λ q, dq_user_id q = uid) created
         = match rows with
           | [] => []
           | _ :: _ =>
               [mkDailyQuizSchedule uid (local_clock env k) topic_ids 1
                  false]
           end)
  ∧ StronglySorted priority_desc rows
  ∧ rows ≡ₚ active_associations uid db
  ∧ (length topic_ids ≤ 5)%nat
  ∧ (∀ a b c,
       active_associations uid db ≡ₚ [a; b; c] →
       ut_priority a.1 = 5 → ut_priority b.1 = 3 → ut_priority c.1 = 1 →
       topic_ids = [ut_topic_id a.1; ut_topic_id b.1; ut_topic_id c.1]).
Proof.
  intros db today rows topic_ids Hu Hactive Hnone Hdouble Hcommit.
  destruct (run_generator_spec env w Hcommit Hdouble)
    as (w' & Hrun & Hsess & _ & _ & _ & _ & Hlog).
  unfold run_generator. rewrite Hrun. simpl.
  split_and!.
  - done.
  - rewrite Hlog, drop_app_length. repeat constructor.
  - destruct (planned_filter env db today uid (select_active_users db)
                (S (ticks w)) (NoDup_select_active_users db))
      as (k & _ & Hfilter).
    eexists _, k. rewrite Hsess. simpl. split; [reflexivity|].
    fold db today. rewrite Hfilter.
    rewrite bool_decide_eq_true_2.
    2:{ apply list_elem_of_fmap. exists (uid, u). split; [done|].
        by apply elem_of_select_active_users. }
    unfold wants_entry. rewrite Hnone.
    subst topic_ids rows. unfold entry_for.
    by destruct (select_user_topics uid db).
  - apply select_user_topics_sorted.
  - apply select_user_topics_perm.
  - unfold topic_ids. rewrite length_fmap, length_take. lia.
  - intros a b c Hperm Ha Hb Hc. unfold topic_ids, rows.
    by rewrite (three_topics_in_order uid db a b c).
Qed.

Lemma no_double_today_campus :
  no_double_today campus (date_of (local_clock calm 0)).
Proof. unfold no_double_today. vm_compute. repeat constructor. Defined.

(** The scenario of the specification: Alice's topics of priorities
    1, 5 and 3 give the entry [[20; 30; 10]]. *)
Lemma generator_selects_top_topics_witness :
  (users campus !! 1 = Some alice
   ∧ u_is_active alice = true
   ∧ commit_ok calm 0 = true)
  ∧ ∃ created k,
      daily_quiz_schedules
        (committed (session (run_generator calm (world_on campus))))
      = created
      ∧ filter (λ q, dq_user_id q = 1) created
        = [mkDailyQuizSchedule 1 (local_clock calm k) [20; 30; 10] 1
             false].
Proof.
  split; [by vm_compute|].
  destruct (generator_selects_top_topics calm (world_on campus) 1 alice)
    as (_ & _ & (created & k & Hdb & Hfilter) & _).
  - reflexivity.
  - reflexivity.
  - reflexivity.
  - exact no_double_today_campus.
  - reflexivity.
  - exists created, k. split; [exact Hdb|exact Hfilter].
Defined.

Lemma wants_entry_true db today uid :
  wants_entry db today uid = true →
  entries_on uid today db = [] ∧ select_user_topics uid db ≠ [].
Proof.
  unfold wants_entry. rewrite select_schedule_between_entries_on.
  destruct (entries_on uid today db); [|done].
  by destruct (select_user_topics uid db).
Qed.

Lemma unique_no_double db today :
  unique_per_day db → no_double_today db today.
Proof.
  intros Huniq. apply Forall_forall. intros u _.
  rewrite select_schedule_between_entries_on. apply Huniq.
Qed.

(** The entries of a user on a day after the loop has added [planned]:
    those of before, and the one of the plan when the day is today. *)
Section AfterRun.
Variables (env : Env) (db : Db) (today : date) (k0 : nat).
Hypothesis same_day :
  ∀ k, (k0 ≤ k)%nat → date_of (local_clock env k) = today.

Let plan := planned env db today k0 (select_active_users db).
Let db1 := with_quiz (λ l, l ++ plan) db.

Lemma plan_today : Forall (λ q, date_of (dq_scheduled_date q) = today) plan.
Proof.
  eapply Forall_impl; [apply planned_dates|]. simpl.
  intros q (k' & Hk' & ->). by apply same_day.
Qed.

Lemma plan_on_day uid d :
  filter (λ q, dq_user_id q = uid ∧ date_of (dq_scheduled_date q) = d)
    plan
  = if decide (d = today)
    then filter (λ q, dq_user_id q = uid) plan
    else [].
Proof.
  pose proof plan_today as Hall. revert Hall.
  generalize plan as l. intros l Hall.
  destruct (decide (d = today)) as [->|Hne].
  - induction Hall as [|q l Hq _ IH]; [done|].
    rewrite !filter_cons, IH.
    destruct (decide (dq_user_id q = uid)) as [Hid|Hid].
    + by rewrite decide_True.
    + rewrite decide_False; [done|]. by intros [? _].
  - apply filter_none. eapply Forall_impl; [exact Hall|]. simpl.
    intros q Hq [_ Hd]. congruence.
Qed.

Lemma plan_of_user uid :
  ∃ k, filter (λ q, dq_user_id q = uid) plan
       = if bool_decide (uid ∈ (select_active_users db).*1)
            && wants_entry db today uid
         then [entry_for env db uid k] else [].
Proof.
  destruct (planned_filter env db today uid (select_active_users db) k0
              (NoDup_select_active_users db)) as (k & _ & Hk).
  by exists k.
Qed.

Lemma entries_on_after uid d :
  entries_on uid d db1
  = entries_on uid d db
    ++ (if decide (d = today)
        then filter (λ q, dq_user_id q = uid) plan else []).
Proof.
  unfold entries_on, db1. simpl.
  by rewrite filter_app, plan_on_day.
Qed.

Lemma length_entries_on_after uid :
  length (entries_on uid today db1)
  = if bool_decide (uid ∈ (select_active_users db).*1)
       && wants_entry db today uid
    then 1%nat else length (entries_on uid today db).
Proof.
  rewrite entries_on_after, decide_True by done.
  destruct (plan_of_user uid) as [k ->].
  destruct (bool_decide _); simpl; [|by rewrite app_nil_r].
  destruct (wants_entry db today uid) eqn:Hw; [|by rewrite app_nil_r].
  apply wants_entry_true in Hw as [-> _]. done.
Qed.

Lemma unique_after : unique_per_day db → unique_per_day db1.
Proof.
  intros Huniq uid d.
  destruct (decide (d = today)) as [->|Hne].
  - rewrite length_entries_on_after.
    destruct (_ && _); [done|apply Huniq].
  - rewrite entries_on_after, decide_False, app_nil_r by done.
    apply Huniq.
Qed.

(** A second look at the users finds nothing to add. *)
Lemma nothing_left k :
  planned env db1 today k (select_active_users db1) = [].
Proof.
  apply planned_nil, Forall_forall. intros [uid u] Hin. simpl.
  change (select_active_users db1) with (select_active_users db) in Hin.
  unfold wants_entry.
  rewrite select_schedule_between_entries_on, entries_on_after.
  rewrite decide_True by done.
  change (select_user_topics uid db1) with (select_user_topics uid db).
  destruct (plan_of_user uid) as [k' ->].
  rewrite bool_decide_eq_true_2.
  2:{ apply list_elem_of_fmap. by exists (uid, u). }
  simpl. destruct (wants_entry db today uid) eqn:Hw.
  - by destruct (entries_on uid today db).
  - rewrite app_nil_r. revert Hw. unfold wants_entry.
    by rewrite select_schedule_between_entries_on.
Qed.

End AfterRun.

(** C5, as the code has it: two runs of the generator in a row on one
    day, both committing, on a database with at most one entry per
    user and day.  The second run adds nothing; at most one entry per
    user and day still holds; and an active user ends with exactly one
    entry of today when the user had none and has an active topic, and
    with what the user had otherwise (none for a user without
    topics). *)
Theorem generator_idempotent env w :
  let db := committed (session w) in
  let today := date_of (local_clock env (ticks w)) in
  let w1 := run_generator env w in
  let w2 := run_generator env w1 in
  (∀ k, (ticks w ≤ k)%nat → date_of (local_clock env k) = today) →
  unique_per_day db →
  commit_ok env (commits w) = true →
  commit_ok env (S (commits w)) = true →
  committed (session w2) = committed (session w1)
  ∧ unique_per_day (committed (session w2))
  ∧ ∀ uid u,
      users db !! uid = Some u → u_is_active u = true →
      length (entries_on uid today (committed (session w2)))
      = if wants_entry db today uid then 1%nat
        else length (entries_on uid today db).
Proof.
  intros db today w1 w2 Hday Huniq Hc1 Hc2.
  destruct (run_generator_spec env w Hc1 (unique_no_double _ _ Huniq))
    as (w1' & Hrun1 & Hsess1 & Hcm1 & _ & Hticks1 & _).
  assert (Hw1 : w1 = w1') by (unfold w1, run_generator; by rewrite Hrun1).
  fold db today in Hsess1.
  set (db1 := with_quiz _ db) in Hsess1.
  assert (Hday1 : ∀ k, (S (ticks w) ≤ k)%nat →
                       date_of (local_clock env k) = today)
    by (intros k Hk; apply Hday; lia).
  assert (Huniq1 : unique_per_day db1)
    by by apply (unique_after env db today (S (ticks w))).
  assert (Hdb1 : committed (session w1) = db1)
    by (by rewrite Hw1, Hsess1).
  assert (Htoday1 : date_of (local_clock env (ticks w1)) = today)
    by (apply Hday; rewrite Hw1; lia).
  destruct (run_generator_spec env w1) as (w2' & Hrun2 & Hsess2 & _).
  { rewrite Hw1, Hcm1. exact Hc2. }
  { rewrite Hdb1, Htoday1. by apply unique_no_double. }
  assert (Hdb2 : committed (session w2) = db1).
  { unfold w2, run_generator. rewrite Hrun2. simpl. rewrite Hsess2.
    rewrite Hdb1, Htoday1. simpl.
    unfold db1 at 2 3.
    rewrite (nothing_left env db today (S (ticks w)) Hday1).
    by rewrite with_quiz_nil. }
  rewrite Hdb2, Hdb1. split_and!; [done|done|].
  intros uid u Hu Hactive. unfold db1.
  rewrite (length_entries_on_after env db today (S (ticks w)) Hday1).
  rewrite bool_decide_eq_true_2; [done|].
  apply list_elem_of_fmap. exists (uid, u). split; [done|].
  by apply elem_of_select_active_users.
Qed.

(** A run on the campus: one entry, Alice's, with her topics by
    descending priority; a second run adds nothing; Bob and Carol get
    none. *)
Example campus_first_run :
  daily_quiz_schedules
    (committed (session (run_generator calm (world_on campus))))
  = [mkDailyQuizSchedule 1 (local_clock calm 1) [20; 30; 10] 1 false].
Proof. reflexivity. Qed.

Example campus_second_run :
  daily_quiz_schedules
    (committed
       (session (run_generator calm (run_generator calm (world_on campus)))))
  = [mkDailyQuizSchedule 1 (local_clock calm 1) [20; 30; 10] 1 false].
Proof. reflexivity. Qed.

(** A turn of the loop whose commit fails: an error is logged, nothing
    is written, the sleep is the hour. *)
Example campus_failed_commit :
  let w := (daily_quiz_iteration commits_fail (world_on campus)).2 in
  slept w = [3600]
  ∧ logged w
    = [(ERROR, "Error creating daily quiz schedules: commit failed")]
  ∧ daily_quiz_schedules (committed (session w)) = [].
Proof. by split_and!. Qed.

Lemma campus_unique : unique_per_day campus.
Proof. intros uid d. unfold entries_on. simpl. lia. Defined.

Lemma generator_idempotent_witness :
  (unique_per_day campus ∧ commit_ok calm 0 = true ∧ commit_ok calm 1 = true)
  ∧ let w1 := run_generator calm (world_on campus) in
    let w2 := run_generator calm w1 in
    committed (session w2) = committed (session w1)
    ∧ length (entries_on 1 a_day (committed (session w2))) = 1%nat
    ∧ length (entries_on 2 a_day (committed (session w2))) = 0%nat.
Proof.
  split; [split_and!; [exact campus_unique|done|done]|].
  destruct (generator_idempotent calm (world_on campus))
    as (Hsame & _ & Hcount).
  - intros k _. by rewrite !clock_stays_on_a_day.
  - exact campus_unique.
  - reflexivity.
  - reflexivity.
  - split_and!.
    + exact Hsame.
    + exact (Hcount 1 alice eq_refl eq_refl).
    + exact (Hcount 2 bob eq_refl eq_refl).
Defined.

(** C5 as worded fails for Bob, who is active and follows no topic: two
    runs leave him without an entry. *)
Lemma every_active_user_counterexample :
  ¬ one_entry_for_every_active_user calm (world_on campus).
Proof.
  intros Hclaim. specialize (Hclaim 2 bob eq_refl eq_refl).
  vm_compute in Hclaim. discriminate Hclaim.
Qed.

Lemma commit_fault_absorbed_witness :
  commit_ok commits_fail 0 = false
  ∧ slept (daily_quiz_iteration commits_fail (world_on campus)).2 = [3600]
  ∧ committed
      (session (daily_quiz_iteration commits_fail (world_on campus)).2)
    = campus.
Proof.
  split; [reflexivity|].
  destruct (commit_fault_absorbed commits_fail (world_on campus))
    as (_ & Hdb & Hslept & _).
  - reflexivity.
  - split; [exact Hslept|exact Hdb].
Defined.

(** C2 as worded fails: the commit of the batch for Alice fails, the
    handler rolls back, and the turn ends in the normal sleep. *)
Lemma commit_fault_counterexample :
  ¬ commit_fault_backs_off commits_fail (world_on campus).
Proof.
  intros Hclaim. specialize (Hclaim eq_refl).
  vm_compute in Hclaim. discriminate Hclaim.
Qed.

End SchedulerFacts.

(** ** notification.py *)

Module NotifierFacts.
Import Orm Notifier Spec Examples OrmFacts ExampleFacts.

(** [send_notification] without a token: no Firebase app, no send; a
    commit that fails, no send; else the record is committed and the
    answer is [True].  Nothing is handed to [messaging.send]. *)
Lemma send_notification_no_token env uid title message ty data w :
  send_notification env uid title message ty None data true w
  = if firebase_app env then
      let n := mkNotification uid title message ty None data false None
                 None in
      if commit_ok env (commits w) then
        (Returned true,
         mkWorld (commit_session (added n (session w))) (ticks w)
           (S (commits w)) (rollbacks w) (logged w) (fcm_outbox w)
           (slept w))
      else
        (Returned false,
         mkWorld (added n (session w)) (ticks w) (S (commits w))
           (rollbacks w)
           (logged w ++
              [(ERROR, "Error sending notification: commit failed")])
           (fcm_outbox w) (slept w))
    else
      (Returned false,
       mkWorld (session w) (ticks w) (commits w) (rollbacks w)
         (logged w ++ [(ERROR, "Firebase not initialized")])
         (fcm_outbox w) (slept w)).
Proof.
  unfold send_notification, try_except.
  destruct (firebase_app env); simpl; [|done].
  unfold bind, add_notification, commit. simpl.
  destruct (commit_ok env (commits w)); done.
Qed.

(** Without a session there is not even a commit to fail. *)
Lemma send_notification_no_token_no_session env uid title message ty
    data w :
  firebase_app env = true →
  send_notification env uid title message ty None data false w
  = (Returned true, w).
Proof.
  intros Hfb. unfold send_notification, try_except. rewrite Hfb. done.
Qed.

Lemma send_quiz_reminder_run env user w :
  send_quiz_reminder env user None true w
  = if firebase_app env then
      if commit_ok env (commits w) then
        (Returned true,
         mkWorld (commit_session (added (reminder_record user) (session w)))
           (ticks w) (S (commits w)) (rollbacks w) (logged w)
           (fcm_outbox w) (slept w))
      else
        (Returned false,
         mkWorld (added (reminder_record user) (session w)) (ticks w)
           (S (commits w)) (rollbacks w)
           (logged w ++
              [(ERROR, "Error sending notification: commit failed")])
           (fcm_outbox w) (slept w))
    else
      (Returned false,
       mkWorld (session w) (ticks w) (commits w) (rollbacks w)
         (logged w ++ [(ERROR, "Firebase not initialized")])
         (fcm_outbox w) (slept w)).
Proof.
  unfold send_quiz_reminder. by rewrite send_notification_no_token.
Qed.

(** *** One turn of [for notification_data in pending] *)

Lemma dispatch_run env it w :
  dispatch env it w
  = if firebase_app env then
      if commit_ok env (commits w) then
        let s1 :=
          commit_session (added (reminder_record (p_user it)) (session w)) in
        let s2 :=
          mkSession (committed s1)
            (with_schedules
               (alter (after_send (utc_clock env (ticks w)))
                  (p_schedule it)) (txn s1))
            (new_quiz s1) (new_notifications s1) in
        if commit_ok env (S (commits w)) then
          (Returned (),
           mkWorld (commit_session s2) (S (ticks w)) (S (S (commits w)))
             (rollbacks w) (logged w) (fcm_outbox w) (slept w))
        else
          (Raised (DBAPIError "commit failed"),
           mkWorld s2 (S (ticks w)) (S (S (commits w))) (rollbacks w)
             (logged w) (fcm_outbox w) (slept w))
      else
        (Returned (),
         mkWorld (added (reminder_record (p_user it)) (session w))
           (ticks w) (S (commits w)) (rollbacks w)
           (logged w ++
              [(ERROR, "Error sending notification: commit failed")])
           (fcm_outbox w) (slept w))
    else
      (Returned (),
       mkWorld (session w) (ticks w) (commits w) (rollbacks w)
         (logged w ++ [(ERROR, "Firebase not initialized")])
         (fcm_outbox w) (slept w)).
Proof.
  unfold dispatch. unfold bind at 1. rewrite send_quiz_reminder_run.
  destruct (firebase_app env); [|done].
  destruct (commit_ok env (commits w)); [|done].
  unfold bind, utcnow, update_schedule, commit. simpl.
  destruct (commit_ok env (S (commits w))); done.
Qed.

(** *** Databases the loop can make *)

Lemma evolves_refl env k0 o : evolves env k0 o o.
Proof. by left. Qed.

Lemma derived_refl env k0 items db0 : derived env k0 items db0 db0.
Proof.
  split; try done.
  - intros id. apply evolves_refl.
  - exists []. split; [by rewrite app_nil_r|constructor].
Qed.

Lemma derived_record env k0 items db0 db it :
  derived env k0 items db0 db → it ∈ items →
  derived env k0 items db0
    (with_notifications (λ l, l ++ [reminder_record (p_user it)]) db).
Proof.
  intros [Hu Ht Hut Hq Hs Hun (extra & Hn & Hall)] Hin.
  split; simpl; try done.
  exists (extra ++ [reminder_record (p_user it)]). split.
  - rewrite Hn. by rewrite app_assoc.
  - apply Forall_app. split; [done|].
    apply Forall_singleton. by exists it.
Qed.

Lemma derived_update env k0 items db0 db id k :
  derived env k0 items db0 db →
  notification_schedules db !! id = notification_schedules db0 !! id →
  id ∈ p_schedule <$> items →
  (k0 ≤ k)%nat → firebase_app env = true →
  derived env k0 items db0
    (with_schedules (alter (after_send (utc_clock env k)) id) db).
Proof.
  intros [Hu Ht Hut Hq Hs Hun Hn] Hid Hin Hk Hfb.
  split; simpl; try done.
  - intros id'. destruct (decide (id = id')) as [<-|Hne].
    + rewrite lookup_alter_eq, Hid.
      destruct (notification_schedules db0 !! id) as [s|]; simpl;
        [|by left].
      right. by exists s, k.
    + rewrite lookup_alter_ne by done. apply Hs.
  - intros id' Hout. rewrite lookup_alter_ne; [by apply Hun|].
    by intros <-.
Qed.

Lemma view_added n s :
  view (added n s) = with_notifications (λ l, l ++ [n]) (view s).
Proof.
  unfold view, added, flush, with_notifications, with_quiz. simpl.
  by rewrite app_assoc.
Qed.

Lemma view_update_committed s f :
  let s1 := commit_session s in
  view (mkSession (committed s1) (with_schedules f (txn s1)) (new_quiz s1)
          (new_notifications s1))
  = with_schedules f (view s).
Proof.
  unfold view at 1. unfold flush. cbn [txn new_quiz new_notifications commit_session].
  by rewrite with_quiz_nil, with_notifications_nil.
Qed.

(** One turn keeps the invariant of the loop, whichever way it goes. *)
Lemma dispatch_preserves env k0 items db0 rest it w :
  dispatching env k0 items db0 (p_schedule it :: rest) w →
  it ∈ items →
  p_schedule it ∉ rest →
  dispatching env k0 items db0 rest (dispatch env it w).2
  ∧ calm_step w (dispatch env it w).2.
Proof.
  intros [Hdb Hview Hrest Hticks] Hin Hnew.
  assert (Hrest' : ∀ id, id ∈ rest →
            notification_schedules (txn (session w)) !! id
            = notification_schedules db0 !! id).
  { intros id Hid. apply Hrest. by right. }
  rewrite dispatch_run.
  destruct (firebase_app env) eqn:Hfb; [|by split; split].
  destruct (commit_ok env (commits w)).
  2:{ split; [|by split]. split; simpl; [done| |done|done].
      rewrite view_added. by apply derived_record. }
  pose proof (derived_record _ _ _ _ _ it Hview Hin) as Hview1.
  rewrite <- view_added in Hview1.
  set (n := reminder_record (p_user it)) in *.
  set (f := alter (after_send (utc_clock env (ticks w))) (p_schedule it)).
  assert (Hview2 :
    derived env k0 items db0 (with_schedules f (view (added n (session w))))).
  { apply derived_update; [done| | |done|done].
    - apply Hrest. by left.
    - apply list_elem_of_fmap. by exists it. }
  cbv zeta.
  set (s1 := commit_session (added n (session w))).
  set (s2 := mkSession (committed s1) (with_schedules f (txn s1))
               (new_quiz s1) (new_notifications s1)).
  assert (Hs2 : view s2 = with_schedules f (view (added n (session w))))
    by apply view_update_committed.
  assert (Hother : ∀ id, id ∈ rest →
            f (notification_schedules (txn (session w))) !! id
            = notification_schedules db0 !! id).
  { intros id Hid. unfold f. rewrite lookup_alter_ne; [by apply Hrest'|].
    by intros <-. }
  destruct (commit_ok env (S (commits w))).
  - split; [|by split]. split; cbn [snd session ticks].
    + rewrite commit_session_view. cbn [committed open_session].
      by rewrite Hs2.
    + rewrite commit_session_view, view_open_session. by rewrite Hs2.
    + rewrite commit_session_view. cbn [txn open_session].
      rewrite Hs2. exact Hother.
    + lia.
  - split; [|by split]. split; cbn [snd session ticks].
    + exact Hview1.
    + by rewrite Hs2.
    + exact Hother.
    + lia.
Qed.

(** The whole loop. *)
Lemma dispatch_loop env k0 items db0 : ∀ its w,
  NoDup (p_schedule <$> its) →
  its ⊆ items →
  dispatching env k0 items db0 (p_schedule <$> its) w →
  dispatching env k0 items db0 [] (for_each its (dispatch env) w).2
  ∧ calm_step w (for_each its (dispatch env) w).2.
Proof.
  induction its as [|it its IH]; intros w Hnd Hsub Hinv.
  { split; [exact Hinv|by split]. }
  rewrite fmap_cons in Hnd, Hinv. apply NoDup_cons in Hnd as [Hnew Hnd].
  destruct (dispatch_preserves env k0 items db0 _ it w Hinv)
    as [Hinv1 Hcalm1]; [apply Hsub; by left|done|].
  rewrite for_each_cons. unfold bind.
  destruct (dispatch env it w) as [[[]|e] w1]; simpl in *.
  - destruct (IH w1 Hnd) as [Hinv2 Hcalm2];
      [intros x Hx; apply Hsub; by right|done|].
    split; [done|]. destruct Hcalm1, Hcalm2. split; congruence.
  - split; [|done]. destruct Hinv1. split; try done.
    intros id Hid. by apply elem_of_nil in Hid.
Qed.

(** *** The due query *)

Lemma join_user_keys db l :
  ((flat_map (join_user db) l).*1).*1 `sublist_of` l.*1.
Proof.
  induction l as [|r l IH]; [done|]. simpl. unfold join_user at 1.
  destruct (users db !! ns_user_id r.2); simpl.
  - by apply sublist_skip.
  - by apply sublist_cons.
Qed.

Lemma NoDup_select_due now db : NoDup ((select_due now db).*1).*1.
Proof.
  unfold select_due.
  eapply sublist_NoDup;
    [apply (NoDup_fst_map_to_list (notification_schedules db))|].
  etrans; [|apply join_user_keys].
  do 2 apply fmap_sublist. apply sublist_filter.
Qed.

Lemma elem_of_select_due now db id s uid u :
  (id, s, (uid, u)) ∈ select_due now db
  ↔ notification_schedules db !! id = Some s
    ∧ uid = ns_user_id s
    ∧ users db !! uid = Some u
    ∧ is_due now (id, s, (uid, u)).
Proof.
  unfold select_due.
  rewrite list_elem_of_filter, list_elem_of_In, in_flat_map.
  setoid_rewrite <- list_elem_of_In. unfold join_user. split.
  - intros [Hdue ([id' s'] & Hin & Hrow)]. simpl in Hrow.
    apply elem_of_map_to_list in Hin.
    destruct (users db !! ns_user_id s') as [u'|] eqn:Hu;
      [|by apply elem_of_nil in Hrow].
    apply list_elem_of_singleton in Hrow. by simplify_eq.
  - intros (Hs & -> & Hu & Hdue). split; [done|].
    exists (id, s). split; [by apply elem_of_map_to_list|].
    simpl. rewrite Hu. by apply list_elem_of_singleton.
Qed.

(** *** [get_pending_notifications] on a session just opened *)

Lemma execute_open_session {A} env db0 (q : Db → A) w :
  session w = open_session db0 →
  execute env q w = (Returned (q db0), w).
Proof.
  intros Hs. rewrite execute_run. cbv zeta.
  assert (Hw : (if autoflush env then with_session flush w else w) = w).
  { destruct (autoflush env); [|done]. destruct w as [s ? ? ? ? ? ?].
    simpl in *. subst s. unfold with_session. simpl.
    by rewrite flush_open_session. }
  rewrite Hw, Hs. done.
Qed.

Lemma consider_run env db0 acc row w :
  session w = open_session db0 →
  ∃ r w', consider env acc row w = (r, w')
          ∧ reading db0 w w'
          ∧ logged w' = logged w
          ∧ match r with
            | Returned acc' =>
                acc' = acc
                ∨ (acc' = acc ++ [item_of row]
                   ∧ select_completed row.2.1
                       (date_of (local_clock env (ticks w))) db0 = [])
            | Raised e => e = MultipleResultsFound
            end.
Proof.
  intros Hs. destruct row as [[id s] user]. unfold consider.
  unfold bind at 1. unfold now, bind at 1, utcnow, ret.
  cbn [fst snd]. unfold bind at 1.
  rewrite (execute_open_session env db0) by done.
  fold (local_clock env (ticks w)).
  destruct (select_completed user.1 _ db0) as [|q [|q' qs]] eqn:Hsel.
  - eexists _, _. split; [reflexivity|].
    split_and!; [by split; simpl; try lia|done|].
    right. by split.
  - eexists _, _. split; [reflexivity|].
    split_and!; [by split; simpl; try lia|done|]. by left.
  - eexists _, _. split; [reflexivity|].
    split_and!; [by split; simpl; try lia|done|done].
Qed.

Lemma consider_loop env db0 : ∀ rows acc w,
  session w = open_session db0 →
  ∃ r w', for_acc rows acc (consider env) w = (r, w')
          ∧ reading db0 w w'
          ∧ logged w' = logged w
          ∧ match r with
            | Returned acc' =>
                ∃ items, acc' = acc ++ items
                         ∧ picked env db0 (ticks w) rows items
            | Raised e => e = MultipleResultsFound
            end.
Proof.
  induction rows as [|row rows IH]; intros acc w Hs.
  { exists (Returned acc), w.
    split_and!; [done|by split|done|].
    exists []. split; [by rewrite app_nil_r|]. by split. }
  destruct (consider_run env db0 acc row w Hs)
    as (r1 & w1 & Hrun1 & Hrd1 & Hlog1 & Hr1).
  simpl for_acc. unfold bind. rewrite Hrun1.
  destruct r1 as [acc1|e]; [|by exists (Raised e), w1].
  destruct (IH acc1 w1 (rd_session _ _ _ Hrd1))
    as (r2 & w2 & Hrun2 & Hrd2 & Hlog2 & Hr2).
  exists r2, w2. rewrite Hrun2.
  split_and!; [done| |congruence|].
  { destruct Hrd1, Hrd2. split; [done|lia|congruence..]. }
  destruct r2 as [acc2|e]; [|done].
  destruct Hr2 as (items & -> & Hsub & Hall).
  assert (Hall' :
    Forall (λ it, ∃ row' k,
              row' ∈ row :: rows ∧ it = item_of row' ∧ (ticks w ≤ k)%nat
              ∧ select_completed row'.2.1
                  (date_of (local_clock env k)) db0 = [])
      items).
  { eapply Forall_impl; [exact Hall|]. simpl.
    intros it (row' & k & Hin & Hit & Hk & Hc).
    exists row', k. split_and!; [by right|done| |done].
    destruct Hrd1. lia. }
  destruct Hr1 as [->|[-> Hnone]].
  - exists items. split; [done|]. split; [|done].
    rewrite !fmap_cons. by apply sublist_cons.
  - exists (item_of row :: items). split; [by rewrite <- app_assoc|].
    split.
    + rewrite !fmap_cons. by apply sublist_skip.
    + apply Forall_cons. split; [|done].
      exists row, (ticks w). split_and!; [by left|done|done|done].
Qed.

Lemma get_pending_spec env db0 w :
  session w = open_session db0 →
  ∃ items w',
    get_pending_notifications env w = (Returned items, w')
    ∧ reading db0 w w'
    ∧ (ticks w < ticks w')%nat
    ∧ NoDup (p_schedule <$> items)
    ∧ picked env db0 (ticks w)
        (select_due (utc_clock env (ticks w)) db0) items.
Proof.
  intros Hs. unfold get_pending_notifications, try_except.
  unfold bind at 1, utcnow. cbn [fst snd]. unfold bind at 1.
  set (w1 := mkWorld (session w) (S (ticks w)) (commits w) (rollbacks w)
               (logged w) (fcm_outbox w) (slept w)).
  rewrite (execute_open_session env db0 _ w1) by done.
  destruct (consider_loop env db0
              (select_due (utc_clock env (ticks w)) db0) [] w1 Hs)
    as (r & w2 & Hrun & Hrd & Hlog & Hr).
  rewrite Hrun. destruct r as [items|e].
  - destruct Hr as (items' & -> & Hsub & Hall). simpl.
    exists items', w2. split_and!; [done| | | |].
    + destruct Hrd. split; simpl in *; [done|lia|done..].
    + destruct Hrd. simpl in *. lia.
    + eapply sublist_NoDup; [apply NoDup_select_due|exact Hsub].
    + split; [done|].
      eapply Forall_impl; [exact Hall|]. simpl.
      intros it (row & k & ? & ? & ? & ?). exists row, k.
      split_and!; [done|done|lia|done].
  - subst e. simpl.
    eexists [], _. split; [reflexivity|]. split_and!.
    + destruct Hrd. split; simpl in *; [done|lia|done..].
    + destruct Hrd. simpl in *. lia.
    + constructor.
    + split; [apply sublist_nil_l|constructor].
Qed.

(** *** A run of the dispatcher, whatever fails *)

Lemma run_dispatcher_spec env w :
  let db0 := committed (session w) in
  let w0 := with_session (λ s, open_session (committed s)) w in
  let w' := run_dispatcher env w in
  ∃ items w1,
    get_pending_notifications env w0 = (Returned items, w1)
    ∧ NoDup (p_schedule <$> items)
    ∧ picked env db0 (ticks w)
        (select_due (utc_clock env (ticks w)) db0) items
    ∧ derived env (ticks w) items db0 (committed (session w'))
    ∧ calm_step w w'.
Proof.
  intros db0 w0 w'.
  destruct (get_pending_spec env db0 w0 eq_refl)
    as (items & w1 & Hget & Hrd & _ & Hnd & Hpicked).
  exists items, w1. split_and!; [done|done|done|..].
  all: assert (Hinv : dispatching env (ticks w) items db0
                        (p_schedule <$> items) w1)
    by (destruct Hrd as [Hs ? ? ? ? ?]; split;
        [rewrite Hs; apply derived_refl
        |rewrite Hs, view_open_session; apply derived_refl
        |intros id _; by rewrite Hs
        |done]).
  all: destruct (dispatch_loop env (ticks w) items db0 items w1 Hnd
                   (reflexivity _) Hinv) as [[Hdb _ _ _] Hcalm].
  all: unfold w', run_dispatcher, async_with_session,
         process_pending_notifications, try_except, bind.
  all: fold w0; rewrite Hget.
  all: destruct Hrd as [_ _ _ Hrb Hsl Hout], Hcalm as [Hrb' Hsl' Hout'].
  all: change (rollbacks w0) with (rollbacks w) in Hrb.
  all: change (slept w0) with (slept w) in Hsl.
  all: change (fcm_outbox w0) with (fcm_outbox w) in Hout.
  all: destruct (for_each items (dispatch env) w1) as [[[]|e] w2];
         simpl in *.
  - done.
  - by destruct (is_Exception e).
  - split; simpl; congruence.
  - destruct (is_Exception e); simpl; split; simpl; congruence.
Qed.

(** *** A run in which every send and every commit succeeds *)

Lemma dispatch_sends env db it w :
  firebase_app env = true →
  (∀ k, commit_ok env k = true) →
  session w = open_session db →
  dispatch env it w
  = (Returned (),
     mkWorld (open_session (sent_db env (ticks w) it db)) (S (ticks w))
       (S (S (commits w))) (rollbacks w) (logged w) (fcm_outbox w)
       (slept w)).
Proof.
  intros Hfb Hok Hs. rewrite dispatch_run, Hfb, !Hok. cbv zeta.
  rewrite Hs. f_equal. f_equal.
  rewrite commit_session_view. f_equal.
  rewrite view_update_committed, view_added, view_open_session. done.
Qed.

Lemma dispatch_loop_sends env :
  firebase_app env = true →
  (∀ k, commit_ok env k = true) →
  ∀ its db w,
    session w = open_session db →
    ∃ w', for_each its (dispatch env) w = (Returned (), w')
          ∧ session w' = open_session (sent_all env (ticks w) its db)
          ∧ fcm_outbox w' = fcm_outbox w
          ∧ logged w' = logged w.
Proof.
  intros Hfb Hok. induction its as [|it its IH]; intros db w Hs.
  { by exists w. }
  rewrite for_each_cons. unfold bind.
  rewrite (dispatch_sends env db) by done.
  destruct (IH (sent_db env (ticks w) it db)
              (mkWorld (open_session (sent_db env (ticks w) it db))
                 (S (ticks w)) (S (S (commits w))) (rollbacks w)
                 (logged w) (fcm_outbox w) (slept w)) eq_refl)
    as (w' & Hrun & Hs' & Hout & Hlog).
  exists w'. by rewrite Hrun.
Qed.

(** What [sent_all] does to the schedules and to the records. *)
Lemma sent_all_schedules env : ∀ its k db id,
  NoDup (p_schedule <$> its) →
  (id ∈ p_schedule <$> its →
   ∃ k', (k ≤ k')%nat
         ∧ notification_schedules (sent_all env k its db) !! id
           = after_send (utc_clock env k')
             <$> notification_schedules db !! id)
  ∧ (id ∉ p_schedule <$> its →
     notification_schedules (sent_all env k its db) !! id
     = notification_schedules db !! id).
Proof.
  induction its as [|it its IH]; intros k db id Hnd.
  { split; [by intros ?%elem_of_nil|done]. }
  rewrite fmap_cons in Hnd |- *. apply NoDup_cons in Hnd as [Hnew Hnd].
  simpl sent_all.
  destruct (IH (S k) (sent_db env k it db) id Hnd) as [Hin Hout].
  destruct (decide (id = p_schedule it)) as [->|Hne].
  - split; [intros _|by intros []; left].
    exists k. split; [done|]. rewrite (Hout Hnew). simpl.
    by rewrite lookup_alter_eq.
  - assert (Hsame :
      notification_schedules (sent_db env k it db) !! id
      = notification_schedules db !! id).
    { simpl. by rewrite lookup_alter_ne. }
    split.
    + intros [?|Hin']%elem_of_cons; [done|].
      destruct (Hin Hin') as (k' & Hk' & Hlook).
      exists k'. split; [lia|]. by rewrite Hlook, Hsame.
    + intros Hnot. rewrite Hout, Hsame; [done|].
      intros Hin'. apply Hnot. by right.
Qed.

Lemma sent_all_notifications env : ∀ its k db,
  notifications (sent_all env k its db)
  = notifications db ++ ((λ it, reminder_record (p_user it)) <$> its).
Proof.
  induction its as [|it its IH]; intros k db; simpl.
  - by rewrite app_nil_r.
  - rewrite IH. simpl. by rewrite <- app_assoc.
Qed.

Lemma run_dispatcher_sends env w :
  firebase_app env = true →
  (∀ k, commit_ok env k = true) →
  let db0 := committed (session w) in
  let w0 := with_session (λ s, open_session (committed s)) w in
  ∃ items w1,
    get_pending_notifications env w0 = (Returned items, w1)
    ∧ NoDup (p_schedule <$> items)
    ∧ committed (session (run_dispatcher env w))
      = sent_all env (ticks w1) items db0
    ∧ (ticks w < ticks w1)%nat
    ∧ fcm_outbox (run_dispatcher env w) = fcm_outbox w.
Proof.
  intros Hfb Hok db0 w0.
  destruct (get_pending_spec env db0 w0 eq_refl)
    as (items & w1 & Hget & [Hs _ _ _ _ Hout] & Hticks & Hnd & Hpicked).
  destruct (dispatch_loop_sends env Hfb Hok items db0 w1 Hs)
    as (w2 & Hloop & Hs2 & Hout2 & _).
  exists items, w1.
  unfold run_dispatcher, async_with_session,
    process_pending_notifications, try_except, bind.
  fold w0. rewrite Hget, Hloop. simpl. rewrite Hs2. simpl.
  split_and!; [done|done|done|done|].
  rewrite Hout2, Hout. done.
Qed.

(** *** [after_send] *)

Lemma after_send_fields now s :
  ns_last_sent (after_send now s) = Some now
  ∧ ns_scheduled_time (after_send now s) = ns_scheduled_time s
  ∧ ns_frequency (after_send now s) = ns_frequency s
  ∧ ns_user_id (after_send now s) = ns_user_id s
  ∧ ns_is_active (after_send now s) = ns_is_active s
  ∧ ns_next_send (after_send now s)
    = match period (ns_frequency s) with
      | Some d => Some (ns_scheduled_time s + d)
      | None => ns_next_send s
      end.
Proof. done. Qed.

Lemma send_succeeds_inv env user w :
  (send_quiz_reminder env user None true w).1 = Returned true →
  firebase_app env = true ∧ commit_ok env (commits w) = true.
Proof.
  rewrite send_quiz_reminder_run.
  by destruct (firebase_app env), (commit_ok env (commits w)).
Qed.

Lemma send_fails_inv env user w :
  (send_quiz_reminder env user None true w).1 = Returned false →
  firebase_app env = false ∨ commit_ok env (commits w) = false.
Proof.
  rewrite send_quiz_reminder_run.
  destruct (firebase_app env), (commit_ok env (commits w)); simpl; auto.
  discriminate.
Qed.

(** C4: when the send of a turn of the dispatch loop succeeds, the turn
    sets [last_sent] of the schedule to the clock's reading taken
    after the send, and [next_send] to [scheduled_time] plus 24 hours
    for daily, plus 7 days for weekly, plus 30 days for monthly; the
    commit that follows, when it succeeds, writes this to the
    database. *)
Theorem dispatch_reschedules env w it s :
  let sent := send_quiz_reminder env (p_user it) None true w in
  let now := utc_clock env (ticks sent.2) in
  let w' := (dispatch env it w).2 in
  let hours := 3600 * 1000000 in
  notification_schedules (txn (session w)) !! p_schedule it = Some s →
  sent.1 = Returned true →
  ∃ s',
    notification_schedules (txn (session w')) !! p_schedule it = Some s'
    ∧ ns_last_sent s' = Some now
    ∧ (ns_frequency s = "daily" →
       ns_next_send s' = Some (ns_scheduled_time s + 24 * hours))
    ∧ (ns_frequency s = "weekly" →
       ns_next_send s' = Some (ns_scheduled_time s + 7 * 24 * hours))
    ∧ (ns_frequency s = "monthly" →
       ns_next_send s' = Some (ns_scheduled_time s + 30 * 24 * hours))
    ∧ (commit_ok env (commits sent.2) = true →
       notification_schedules (committed (session w')) !! p_schedule it
       = Some s').
Proof.
  intros sent now w' hours Hs Hsent.
  destruct (send_succeeds_inv _ _ _ Hsent) as [Hfb Hok].
  exists (after_send now s).
  assert (Hnow : now = utc_clock env (ticks w)).
  { unfold now, sent. rewrite send_quiz_reminder_run, Hfb, Hok. done. }
  assert (Hcommits : commits sent.2 = S (commits w)).
  { unfold sent. rewrite send_quiz_reminder_run, Hfb, Hok. done. }
  assert (Hlook :
    alter (after_send now) (p_schedule it)
      (notification_schedules (txn (session w))) !! p_schedule it
    = Some (after_send now s)).
  { by rewrite lookup_alter_eq, Hs. }
  split_and!.
  - unfold w'. rewrite dispatch_run, Hfb, Hok. cbv zeta.
    rewrite <- Hnow.
    by destruct (commit_ok env (S (commits w))).
  - done.
  - intros Hf. simpl. unfold period. by rewrite Hf.
  - intros Hf. simpl. unfold period. by rewrite Hf.
  - intros Hf. simpl. unfold period. by rewrite Hf.
  - rewrite Hcommits. intros Hok2.
    unfold w'. rewrite dispatch_run, Hfb, Hok, Hok2. cbv zeta.
    by rewrite <- Hnow.
Qed.

Lemma dispatch_reschedules_witness :
  let it := mkPendingItem 7 (1, alice) "Daily Quiz Reminder"
              "Time to complete your daily quiz!" in
  let w' := (dispatch calm it (world_on campus)).2 in
  ∃ s',
    notification_schedules (txn (session w')) !! 7 = Some s'
    ∧ ns_last_sent s' = Some (midnight a_day + 4 * hour)
    ∧ ns_next_send s' = Some (midnight a_day + 3 * hour + 24 * hour).
Proof.
  intros it w'.
  destruct (dispatch_reschedules calm (world_on campus) it reminder)
    as (s' & Hlook & Hlast & Hdaily & _).
  - reflexivity.
  - reflexivity.
  - exists s'. split_and!; [exact Hlook|exact Hlast|].
    exact (Hdaily eq_refl).
Defined.

Lemma picked_row env db0 k0 now items it :
  picked env db0 k0 (select_due now db0) items → it ∈ items →
  ∃ s u k,
    notification_schedules db0 !! p_schedule it = Some s
    ∧ users db0 !! ns_user_id s = Some u
    ∧ p_user it = (ns_user_id s, u)
    ∧ is_due now (p_schedule it, s, (ns_user_id s, u))
    ∧ (k0 ≤ k)%nat
    ∧ select_completed (ns_user_id s) (date_of (local_clock env k)) db0
      = [].
Proof.
  intros [_ Hall] Hin. rewrite Forall_forall in Hall.
  destruct (Hall it Hin) as ([[id s] [uid u]] & k & Hrow & -> & Hk & Hc).
  apply elem_of_select_due in Hrow as (Hs & -> & Hu & Hdue).
  by exists s, u, k.
Qed.

(** C9: [send_notification] without a token returns [True] and hands
    nothing to [messaging.send] when the Firebase app exists and the
    commit of the record succeeds; so in a run whose commits succeed
    every pair the dispatcher selected counts as sent: its schedule
    gets [last_sent] and the recomputed [next_send], a record without
    token and with [is_sent = False] is written for it, and nothing is
    transmitted. *)
Theorem tokenless_send_counts_as_sent env w :
  let db0 := committed (session w) in
  let w0 := with_session (λ s, open_session (committed s)) w in
  let w' := run_dispatcher env w in
  let db' := committed (session w') in
  firebase_app env = true →
  (∀ k, commit_ok env k = true) →
  (∀ uid title message ty data wx,
     let r := send_notification env uid title message ty None data true
                wx in
     r.1 = Returned true ∧ fcm_outbox r.2 = fcm_outbox wx)
  ∧ ∃ items w1,
      get_pending_notifications env w0 = (Returned items, w1)
      ∧ Forall
          (λ it, ∃ s k,
             notification_schedules db0 !! p_schedule it = Some s
             ∧ notification_schedules db' !! p_schedule it
               = Some (after_send (utc_clock env k) s)
             ∧ ns_last_sent (after_send (utc_clock env k) s)
               = Some (utc_clock env k)
             ∧ ns_next_send (after_send (utc_clock env k) s)
               = match period (ns_frequency s) with
                 | Some d => Some (ns_scheduled_time s + d)
                 | None => ns_next_send s
                 end)
          items
      ∧ notifications db'
        = notifications db0
          ++ ((λ it, reminder_record (p_user it)) <$> items)
      ∧ Forall (λ n, n_fcm_token n = None ∧ n_is_sent n = false)
          ((λ it, reminder_record (p_user it)) <$> items)
      ∧ fcm_outbox w' = fcm_outbox w.
Proof.
  intros db0 w0 w' db' Hfb Hok. subst db' w' w0 db0. split.
  { intros uid title message ty data wx. simpl.
    rewrite send_notification_no_token, Hfb, Hok. done. }
  destruct (run_dispatcher_spec env w)
    as (items & w1 & Hget & Hnd & Hpicked & _).
  destruct (run_dispatcher_sends env w Hfb Hok)
    as (items' & w1' & Hget' & _ & Hdb & _ & Hout).
  rewrite Hget in Hget'. injection Hget' as <- <-.
  exists items, w1. split_and!; [done| | | |done].
  - apply Forall_forall. intros it Hin.
    destruct (picked_row _ _ _ _ _ _ Hpicked Hin)
      as (s & u & _ & Hs & _).
    destruct (sent_all_schedules env items (ticks w1)
                (committed (session w)) (p_schedule it) Hnd)
      as [Hsent _].
    destruct Hsent as (k & _ & Hlook).
    { apply list_elem_of_fmap. by exists it. }
    exists s, k. rewrite Hdb, Hlook, Hs. done.
  - rewrite Hdb. apply sent_all_notifications.
  - apply Forall_fmap, Forall_forall. by intros it _.
Qed.

Lemma tokenless_send_counts_as_sent_witness :
  (firebase_app calm = true ∧ ∀ k, commit_ok calm k = true)
  ∧ fcm_outbox (run_dispatcher calm (world_on campus)) = []
  ∧ length (notifications
              (committed (session (run_dispatcher calm (world_on campus)))))
    = 2%nat.
Proof.
  split; [by split|].
  destruct (tokenless_send_counts_as_sent calm (world_on campus))
    as (_ & items & w1 & Hget & _ & Hrecords & _ & Hout).
  - reflexivity.
  - intros k. reflexivity.
  - split; [exact Hout|].
    rewrite Hrecords. injection Hget as <- _. reflexivity.
Defined.

(** A user with a completed entry of today is in no item. *)
Lemma completed_not_picked env db0 k0 now items it q today :
  picked env db0 k0 (select_due now db0) items → it ∈ items →
  q ∈ daily_quiz_schedules db0 →
  dq_is_completed q = true →
  (∀ k, (k0 ≤ k)%nat → date_of (local_clock env k) = today) →
  midnight today <= dq_scheduled_date q →
  (p_user it).1 ≠ dq_user_id q.
Proof.
  intros Hpicked Hin Hq Hdone Hday Hdate Huser.
  destruct (picked_row _ _ _ _ _ _ Hpicked Hin)
    as (s & u & k & _ & _ & Hpu & _ & Hk & Hnone).
  rewrite Hpu in Huser. simpl in Huser.
  unfold select_completed in Hnone.
  apply (filter_nil_not_elem_of _ _ q Hnone); [|done].
  rewrite (Hday k Hk). by rewrite Huser.
Qed.

Lemma is_due_later now now' row :
  now <= now' → is_due now row → is_due now' row.
Proof.
  intros Hle (Ha & Hn & He & Hu). split_and!; try done.
  destruct (ns_next_send row.1.2); simpl in *; [lia|done].
Qed.

(** C7: a schedule whose user has a completed entry of today is in no
    selected pair, is the same after the run, and no record is written
    for the user; a turn whose send fails leaves the schedules as they
    are, in the session and in the database, and without a Firebase
    app so does the whole run; and a schedule the run left as it was
    that was due at [now] is selected again at any later time. *)
Theorem skipped_schedule_is_kept env w id s u :
  let db := committed (session w) in
  let w0 := with_session (λ s, open_session (committed s)) w in
  let w' := run_dispatcher env w in
  let db' := committed (session w') in
  notification_schedules db !! id = Some s →
  users db !! ns_user_id s = Some u →
  (∀ q today,
     q ∈ daily_quiz_schedules db →
     dq_user_id q = ns_user_id s →
     dq_is_completed q = true →
     (∀ k, (ticks w ≤ k)%nat → date_of (local_clock env k) = today) →
     midnight today <= dq_scheduled_date q →
     notification_schedules db' !! id = Some s
     ∧ (∃ items,
          (get_pending_notifications env w0).1 = Returned items
          ∧ Forall (λ it, p_schedule it ≠ id
                          ∧ (p_user it).1 ≠ ns_user_id s) items)
     ∧ filter (λ n, n_user_id n = ns_user_id s) (notifications db')
       = filter (λ n, n_user_id n = ns_user_id s) (notifications db)
     ∧ fcm_outbox w' = fcm_outbox w)
  ∧ (∀ wx it,
       (send_quiz_reminder env (p_user it) None true wx).1
       = Returned false →
       notification_schedules (txn (session (dispatch env it wx).2))
       = notification_schedules (txn (session wx))
       ∧ notification_schedules
           (committed (session (dispatch env it wx).2))
         = notification_schedules (committed (session wx)))
  ∧ (firebase_app env = false →
     notification_schedules db' = notification_schedules db)
  ∧ (∀ now now',
       now <= now' →
       notification_schedules db' !! id = Some s →
       (id, s, (ns_user_id s, u)) ∈ select_due now db →
       (id, s, (ns_user_id s, u)) ∈ select_due now' db').
Proof.
  intros db w0 w' db' Hs Hu. subst db' w' w0 db.
  destruct (run_dispatcher_spec env w)
    as (items & w1 & Hget & Hnd & Hpicked & Hder & Hcalm).
  destruct Hder as [Husers _ _ _ Hev Hun (extra & Hnotif & Hextra)].
  split_and!.
  - intros q today Hq Hquser Hdone Hday Hdate.
    assert (Hnot : ∀ it, it ∈ items → (p_user it).1 ≠ ns_user_id s).
    { intros it Hin. rewrite <- Hquser.
      by eapply completed_not_picked. }
    assert (Hkeys : ∀ it, it ∈ items → p_schedule it ≠ id).
    { intros it Hin Hid.
      destruct (picked_row _ _ _ _ _ _ Hpicked Hin)
        as (s' & u' & _ & Hs' & _ & Hpu & _).
      rewrite Hid, Hs in Hs'. injection Hs' as <-.
      apply (Hnot it Hin). by rewrite Hpu. }
    split_and!.
    + rewrite Hun; [done|].
      intros (it & Hid & Hin)%list_elem_of_fmap.
      by apply (Hkeys it).
    + exists items. rewrite Hget. split; [done|].
      apply Forall_forall. intros it Hin. split; auto.
    + rewrite Hnotif, filter_app.
      rewrite (filter_none _ extra); [by rewrite app_nil_r|].
      eapply Forall_impl; [exact Hextra|]. simpl.
      intros n (it & Hin & ->). simpl. by apply Hnot.
    + by destruct Hcalm.
  - intros wx it Hfail. rewrite dispatch_run.
    destruct (send_fails_inv _ _ _ Hfail) as [->| ->]; [done|].
    by destruct (firebase_app env).
  - intros Hfb. apply map_eq. intros id'.
    destruct (Hev id') as [->|(s' & k & _ & _ & _ & Hfb')]; [done|].
    congruence.
  - intros now now' Hle Hs' Hdue.
    apply elem_of_select_due in Hdue as (_ & _ & _ & Hdue).
    apply elem_of_select_due. rewrite Husers.
    split_and!; [done|done|done|by eapply is_due_later].
Qed.

Lemma skipped_schedule_is_kept_witness :
  notification_schedules campus_done !! 7 = Some reminder
  ∧ notification_schedules
      (committed (session (run_dispatcher calm (world_on campus_done))))
    !! 7 = Some reminder
  ∧ notification_schedules
      (committed
         (session (run_dispatcher no_firebase (world_on campus))))
    = notification_schedules campus.
Proof.
  split; [reflexivity|]. split.
  - destruct (skipped_schedule_is_kept calm (world_on campus_done) 7
                reminder alice eq_refl eq_refl) as (Hdone & _).
    destruct (Hdone
                (mkDailyQuizSchedule 1 (midnight a_day + 8 * hour)
                   [20; 30; 10] 1 true) a_day) as (Hkept & _).
    + apply list_elem_of_here.
    + reflexivity.
    + reflexivity.
    + intros k _. apply clock_stays_on_a_day.
    + by vm_compute.
    + exact Hkept.
  - destruct (skipped_schedule_is_kept no_firebase (world_on campus) 7
                reminder alice eq_refl eq_refl) as (_ & _ & Hoff & _).
    exact (Hoff eq_refl).
Defined.

(** A run leaves a schedule as it was or as the [if success] block
    makes it. *)
Lemma run_schedule env w id s :
  notification_schedules (committed (session w)) !! id = Some s →
  let after :=
    notification_schedules (committed (session (run_dispatcher env w)))
      !! id in
  after = Some s
  ∨ (firebase_app env = true
     ∧ ∃ k, after = Some (after_send (utc_clock env k) s)).
Proof.
  intros Hs after.
  destruct (run_dispatcher_spec env w)
    as (items & w1 & _ & _ & _ & Hder & _).
  destruct (der_schedules _ _ _ _ _ Hder id)
    as [Hsame|(s' & k & Hs' & Hafter & _ & Hfb)].
  - left. unfold after. by rewrite Hsame.
  - right. split; [done|]. exists k. unfold after. rewrite Hafter.
    congruence.
Qed.

(** What a history of runs keeps of a schedule. *)
Lemma runs_schedule w w' id s :
  dispatcher_runs w w' →
  notification_schedules (committed (session w)) !! id = Some s →
  ∃ s',
    notification_schedules (committed (session w')) !! id = Some s'
    ∧ ns_scheduled_time s' = ns_scheduled_time s
    ∧ ns_frequency s' = ns_frequency s
    ∧ (ns_next_send s' = ns_next_send s
       ∨ ∃ d, period (ns_frequency s) = Some d
              ∧ ns_next_send s' = Some (ns_scheduled_time s + d)).
Proof.
  intros Hruns Hs. induction Hruns as [w|env w w' _ IH|w w' w'' _ IH Heq].
  - exists s. split_and!; [done|done|done|by left].
  - destruct (IH Hs) as (s' & Hs' & Ht & Hf & Hn).
    destruct (run_schedule env w' id s' Hs')
      as [Hsame|(_ & k & Hafter)].
    + exists s'. by split_and!.
    + exists (after_send (utc_clock env k) s').
      split_and!; [done|done|done|]. simpl. rewrite Hf, Ht.
      destruct (period (ns_frequency s)) as [d|]; [|done].
      right. by exists d.
  - destruct (IH Hs) as (s' & Hs' & Hrest).
    exists s'. split; [by rewrite Heq|done].
Qed.

(** C3, as the code has it: over any history of dispatcher runs (and of
    anything else that leaves the schedules alone) a schedule keeps
    its [scheduled_time] and [frequency], and its [next_send] is what
    it was or [scheduled_time] plus the period.  So [next_send] never
    goes back for a schedule whose [next_send] was at most
    [scheduled_time] plus the period, and this bound is kept; and one
    more run changes the schedule only with a Firebase app, by the
    assignments that follow a successful send. *)
Theorem next_send_over_runs w w' id s :
  dispatcher_runs w w' →
  notification_schedules (committed (session w)) !! id = Some s →
  ∃ s',
    notification_schedules (committed (session w')) !! id = Some s'
    ∧ ns_scheduled_time s' = ns_scheduled_time s
    ∧ ns_frequency s' = ns_frequency s
    ∧ (ns_next_send s' = ns_next_send s
       ∨ ∃ d, period (ns_frequency s) = Some d
              ∧ ns_next_send s' = Some (ns_scheduled_time s + d))
    ∧ (within_period s →
       within_period s'
       ∧ next_send_le (ns_next_send s) (ns_next_send s'))
    ∧ ∀ env,
        let after :=
          notification_schedules
            (committed (session (run_dispatcher env w'))) !! id in
        after = Some s'
        ∨ (firebase_app env = true
           ∧ ∃ k, after = Some (after_send (utc_clock env k) s')).
Proof.
  intros Hruns Hs.
  destruct (runs_schedule w w' id s Hruns Hs)
    as (s' & Hs' & Ht & Hf & Hn).
  exists s'. split_and!; [done|done|done|done| |].
  - unfold within_period. rewrite Hf, Ht. intros Hbound.
    destruct Hn as [->|(d & Hd & ->)].
    + split; [done|]. destruct (ns_next_send s); simpl; [lia|done].
    + rewrite Hd in *. split; [lia|].
      destruct (ns_next_send s); simpl; [lia|done].
  - intros env. by apply run_schedule.
Qed.

Lemma next_send_over_runs_witness :
  (notification_schedules campus !! 7 = Some reminder
   ∧ within_period reminder)
  ∧ ∃ s',
      notification_schedules
        (committed
           (session
              (run_dispatcher calm
                 (run_dispatcher calm (world_on campus))))) !! 7
      = Some s'
      ∧ next_send_le (ns_next_send reminder) (ns_next_send s').
Proof.
  split; [split; [reflexivity|by vm_compute]|].
  destruct (next_send_over_runs (world_on campus)
              (run_dispatcher calm (run_dispatcher calm (world_on campus)))
              7 reminder)
    as (s' & Hs' & _ & _ & _ & Hmono & _).
  - apply runs_dispatch, runs_dispatch, runs_none.
  - reflexivity.
  - exists s'. split; [exact Hs'|].
    apply Hmono. by vm_compute.
Defined.

(** A run on the campus: both reminders are due and nobody completed a
    quiz, so both are sent: two records, nothing in the outbox, and
    each reminder one period after its anchor. *)
Example campus_dispatch :
  let w := run_dispatcher calm (world_on campus) in
  (ns_next_send <$> notification_schedules (committed (session w)) !! 7)
  = Some (Some (midnight a_day + 3 * hour + 24 * hour))
  ∧ (ns_next_send <$> notification_schedules (committed (session w)) !! 8)
    = Some (Some (midnight (a_day - 9) + 3 * hour))
  ∧ length (notifications (committed (session w))) = 2%nat
  ∧ fcm_outbox w = [].
Proof. by split_and!. Qed.

(** After Alice completed her quiz only Bob's reminder is sent. *)
Example campus_done_dispatch :
  let w := run_dispatcher calm (world_on campus_done) in
  notification_schedules (committed (session w)) !! 7 = Some reminder
  ∧ n_user_id <$> notifications (committed (session w)) = [2].
Proof. by split_and!. Qed.

(** C3 as worded fails for Bob's reminder: it is anchored ten days ago
    and due since three o'clock today; the run sends and sets
    [next_send] to nine days ago. *)
Lemma never_earlier_counterexample :
  ¬ never_earlier calm (world_on campus) 8.
Proof.
  intros Hclaim.
  specialize (Hclaim late_reminder
                (after_send (clock 4) late_reminder) eq_refl eq_refl).
  vm_compute in Hclaim. by apply Hclaim.
Qed.

End NotifierFacts.

(** ** scheduler.py: every run of the generator *)

Module BatchFacts.
Import Orm Scheduler Spec Examples MoreExamples OrmFacts ExampleFacts
  SchedulerFacts.

Lemma for_each_app {A} (l1 l2 : list A) body w :
  for_each (l1 ++ l2) body w
  = bind (for_each l1 body) (λ _, for_each l2 body) w.
Proof.
  revert w. induction l1 as [|x l1 IH]; intros w.
  - done.
  - rewrite <- app_comm_cons. unfold bind. rewrite !for_each_cons.
    unfold bind. destruct (body x w) as [[[]|e] w1]; [|done].
    rewrite IH. done.
Qed.

(** A user with two entries of today makes the turn of the loop raise. *)
Lemma schedule_user_raises env db today u ids w :
  extends db (u.1 :: ids) (session w) →
  (1 < length (select_schedule_between u.1 today (today + 1)%Z db))%nat →
  ∃ w', schedule_user env today (today + 1) u w
        = (Raised MultipleResultsFound, w').
Proof.
  intros Hext Htwo. unfold schedule_user.
  unfold bind at 1. rewrite execute_run. cbv zeta.
  set (w1 := if autoflush env then with_session flush w else w).
  assert (Hext1 : extends db (u.1 :: ids) (session w1))
    by by apply extends_autoflush.
  rewrite (extends_between _ _ _ _ _ _ Hext1).
  destruct (select_schedule_between u.1 today (today + 1) db)
    as [|q [|q' qs]]; simpl in Htwo; [lia|lia|].
  by eexists.
Qed.

(** The loop over the users raises as soon as one of them has two
    entries of today. *)
Lemma schedule_loop_raises env db today : ∀ us w,
  NoDup us.*1 →
  extends db us.*1 (session w) →
  ¬ Forall (λ u : Z * User,
      (length (select_schedule_between u.1 today (today + 1)%Z db) ≤ 1)%nat)
      us →
  (for_each us (schedule_user env today (today + 1)) w).1
  = Raised MultipleResultsFound.
Proof.
  induction us as [|u us IH]; intros w Hnd Hext Hbad.
  { destruct Hbad. constructor. }
  rewrite fmap_cons in Hnd, Hext. apply NoDup_cons in Hnd as [Hnew Hnd].
  rewrite for_each_cons. unfold bind.
  destruct (decide (length (select_schedule_between u.1 today
                              (today + 1)%Z db) ≤ 1)%nat) as [Hone|Htwo].
  - destruct (schedule_user_spec env db today u us.*1 w Hnew Hext Hone)
      as (w1 & -> & Hext1 & _).
    apply IH; [done|done|]. intros Hall. apply Hbad. by constructor.
  - destruct (schedule_user_raises env db today u us.*1 w Hext) as [w1 ->];
      [lia|done].
Qed.

(** The [try] block neither sleeps nor rolls back; when it raises, the
    database is as it was and the handler takes the exception. *)
Lemma block_keeps_or_returns env w r w' :
  create_schedules_block env w = (r, w') →
  slept w' = slept w
  ∧ rollbacks w' = rollbacks w
  ∧ match r with
    | Returned _ => True
    | Raised e =>
        committed (session w') = committed (session w)
        ∧ is_Exception e = true
    end.
Proof.
  unfold create_schedules_block.
  unfold bind at 1.
  destruct (steady_now env never w) as [[] Hno1].
  destruct (now env w) as [[t|e] w1]; simpl in *;
    [|by destruct (Hno1 e)].
  unfold bind at 1.
  destruct (steady_execute env never select_active_users w1) as [[] Hno2].
  destruct (execute env select_active_users w1) as [[us|e] w2]; simpl in *;
    [|by destruct (Hno2 e)].
  unfold bind at 1.
  destruct (respects_for_each steady only_multiple us
              (schedule_user env (date_of t) (date_of t + 1))
              (schedule_user_steady env _ _) w2) as [[] Hmul].
  destruct (for_each us _ w2) as [[[]|e] w3]; simpl in *.
  - unfold bind at 1, commit.
    destruct (commit_ok env (commits w3)); simpl; intros [= <- <-]; simpl;
      split_and!; try done; congruence.
  - intros [= <- <-]. rewrite (Hmul e eq_refl).
    split_and!; try done; congruence.
Qed.

(** When the block returns on a session just opened, no active user had
    two entries of today and the commit succeeded. *)
Lemma block_returns_inv env db w w' :
  session w = open_session db →
  create_schedules_block env w = (Returned (), w') →
  no_double_today db (date_of (local_clock env (ticks w)))
  ∧ commit_ok env (commits w) = true.
Proof.
  intros Hs Hrun.
  set (today := date_of (local_clock env (ticks w))).
  assert (Hcommit : commit_ok env (commits w) = true).
  { destruct (commit_ok env (commits w)) eqn:Hc; [done|].
    destruct (block_raises_on_commit_fault env w Hc) as (e & w1 & Hr & _).
    congruence. }
  split; [|done].
  destruct (decide (no_double_today db today)) as [|Hbad]; [done|].
  exfalso. revert Hrun. unfold create_schedules_block.
  unfold bind at 1. unfold now, bind at 1, utcnow, ret. simpl.
  unfold bind at 1. rewrite execute_run. cbv zeta.
  set (w0 := if autoflush env then _ else _).
  assert (Hs0 : session w0 = open_session db).
  { unfold w0. destruct (autoflush env); simpl; rewrite Hs; [|done].
    apply flush_open_session. }
  rewrite Hs0. change (txn (open_session db)) with db.
  unfold bind at 1. fold (local_clock env (ticks w)). fold today.
  pose proof (schedule_loop_raises env db today (select_active_users db) w0
                (NoDup_select_active_users db)) as Hraise.
  destruct (for_each _ _ w0) as [[[]|e] w1]; [|done].
  simpl in Hraise. intros _. discriminate Hraise; [|done].
  rewrite Hs0. apply extends_open_session.
Qed.

(** A turn of the loop over the users logs nothing and sends nothing. *)
Lemma schedule_user_quiet env today tomorrow user :
  respects quiet only_multiple (schedule_user env today tomorrow user).
Proof.
  intros w.
  unfold schedule_user, bind, execute, scalar_one_or_none, now, utcnow,
    add_quiz, ret, raise, bind.
  destruct (autoflush env); simpl; repeat case_match; simplify_eq/=;
    (split; [by repeat split|by intros e' [= <-]]).
Qed.

(** With an active user who has two entries of today the block raises
    [MultipleResultsFound] before it reaches its commit. *)
Lemma block_raises_on_double env db w :
  session w = open_session db →
  ¬ no_double_today db (date_of (local_clock env (ticks w))) →
  ∃ w', create_schedules_block env w = (Raised MultipleResultsFound, w')
        ∧ commits w' = commits w.
Proof.
  intros Hs Hbad.
  set (today := date_of (local_clock env (ticks w))) in *.
  unfold create_schedules_block.
  unfold bind at 1. unfold now, bind at 1, utcnow, ret. simpl.
  unfold bind at 1. rewrite execute_run. cbv zeta.
  set (w0 := if autoflush env then _ else _).
  assert (Hs0 : session w0 = open_session db).
  { unfold w0. destruct (autoflush env); simpl; rewrite Hs; [|done].
    apply flush_open_session. }
  assert (Hc0 : commits w0 = commits w).
  { unfold w0. by destruct (autoflush env). }
  rewrite Hs0. change (txn (open_session db)) with db.
  unfold bind at 1. fold (local_clock env (ticks w)). fold today.
  pose proof (schedule_loop_raises env db today (select_active_users db) w0
                (NoDup_select_active_users db)) as Hraise.
  destruct (respects_for_each steady only_multiple (select_active_users db)
              (schedule_user env today (today + 1))
              (schedule_user_steady env _ _) w0) as [[] _].
  destruct (for_each _ _ w0) as [[[]|e] w1]; simpl in *.
  - discriminate Hraise; [|done]. rewrite Hs0. apply extends_open_session.
  - exists w1. split; [|congruence].
    assert (@Raised unit e = Raised MultipleResultsFound) as [= ->];
      [|done].
    apply Hraise; [|done]. rewrite Hs0. apply extends_open_session.
Qed.

(** [_create_daily_quiz_schedules] never sleeps; it returns, or raises
    the error of a rollback that failed after the block raised; the
    database is as it was whenever the block raised. *)
Lemma create_outcome env w :
  let r := _create_daily_quiz_schedules env w in
  slept r.2 = slept w
  ∧ ((r.1 = Returned ()
      ∧ ((create_schedules_block env w).1 = Returned ()
         ∨ committed (session r.2) = committed (session w)))
     ∨ (r.1 = Raised (DBAPIError "rollback failed")
        ∧ rollback_ok env (rollbacks w) = false
        ∧ committed (session r.2) = committed (session w))).
Proof.
  unfold _create_daily_quiz_schedules, try_except. cbv zeta.
  destruct (create_schedules_block env w) as [r w1] eqn:Hrun.
  destruct (block_keeps_or_returns env w r w1 Hrun) as (Hsl & Hrb & Hr).
  destruct r as [[]|e]; simpl in *.
  { split; [done|]. left. split; [done|by left]. }
  destruct Hr as [Hdb ->].
  unfold bind, log, rollback. simpl. rewrite Hrb.
  destruct (rollback_ok env (rollbacks w)); simpl.
  - split; [done|]. left. split; [done|by right].
  - split; [done|]. by right.
Qed.

(** Every run of the generator, whatever fails: the entries the loop
    plans are written when no active user has two entries of today and
    the commit succeeds, and nothing is written otherwise. *)
Lemma generator_cases env w :
  let db := committed (session w) in
  let today := date_of (local_clock env (ticks w)) in
  let db' := committed (session (run_generator env w)) in
  (commit_ok env (commits w) = true
   ∧ no_double_today db today
   ∧ db' = with_quiz
             (λ l, l ++ planned env db today (S (ticks w))
                          (select_active_users db)) db)
  ∨ ((commit_ok env (commits w) = false ∨ ¬ no_double_today db today)
     ∧ db' = db).
Proof.
  intros db today db'.
  destruct (decide (no_double_today db today)) as [Hone|Hbad].
  - destruct (commit_ok env (commits w)) eqn:Hc.
    + left. split_and!; [done..|].
      destruct (run_generator_spec env w Hc Hone) as (w1 & Hrun & Hs & _).
      unfold db', run_generator. rewrite Hrun. cbn [snd]. by rewrite Hs.
    + right. split; [by left|].
      pose (w0 := with_session (λ s, open_session (committed s)) w).
      destruct (create_absorbs_commit_fault env w0 Hc)
        as (w1 & Hdb & _ & Hrun).
      unfold db', run_generator, async_with_session. fold w0.
      by rewrite Hrun.
  - right. split; [by right|].
    pose (w0 := with_session (λ s, open_session (committed s)) w).
    assert (Hcase :
      (create_schedules_block env w0).1 = Returned ()
      ∨ committed (session (_create_daily_quiz_schedules env w0).2)
        = committed (session w0)).
    { pose proof (create_outcome env w0) as (_ & [[_ H]|(_ & _ & H)]);
        [done|by right]. }
    destruct Hcase as [Hret|Hdb].
    + destruct (block_raises_on_double env db w0 eq_refl Hbad)
        as (w1 & Hrun & _).
      rewrite Hrun in Hret. done.
    + unfold db', run_generator, async_with_session. fold w0.
      destruct (_create_daily_quiz_schedules env w0) as [r w1].
      simpl in *. done.
Qed.

(** What the loop plans: one entry at most for a user, each for an
    active user without an entry of today who follows a topic. *)
Lemma planned_users env db today : ∀ us k,
  NoDup us.*1 →
  NoDup (dq_user_id <$> planned env db today k us)
  ∧ Forall (λ q, ∃ u k', u ∈ us ∧ (k ≤ k')%nat
                         ∧ wants_entry db today u.1 = true
                         ∧ q = entry_for env db u.1 k')
      (planned env db today k us).
Proof.
  induction us as [|u us IH]; intros k Hnd; simpl.
  { split; constructor. }
  rewrite fmap_cons in Hnd. apply NoDup_cons in Hnd as [Hnew Hnd].
  destruct (IH (k + length (plan_user env db today k u.1))%nat Hnd)
    as [IHnd IHall].
  assert (Hrest :
    Forall (λ q, ∃ u0 k', u0 ∈ u :: us ∧ (k ≤ k')%nat
                          ∧ wants_entry db today u0.1 = true
                          ∧ q = entry_for env db u0.1 k')
      (planned env db today (k + length (plan_user env db today k u.1)) us)).
  { eapply Forall_impl; [exact IHall|]. simpl.
    intros q (u0 & k' & Hin & Hk & Hw & ->).
    exists u0, k'. split_and!; [by right|lia|done|done]. }
  unfold plan_user in *.
  destruct (wants_entry db today u.1) eqn:Hw; simpl.
  - split.
    + apply NoDup_cons. split; [|done].
      intros (q & Hid & Hin)%list_elem_of_fmap.
      rewrite Forall_forall in IHall.
      destruct (IHall q Hin) as (u0 & k' & Hu0 & _ & _ & ->).
      simpl in Hid. apply Hnew. rewrite Hid.
      apply list_elem_of_fmap. by exists u0.
    + constructor; [|done].
      exists u, k. split_and!; [by left|lia|done|done].
  - split; [done|done].
Qed.

(** The topics of a planned entry: at most five, not none, and each the
    topic of an active association of the user with a topic that exists. *)
Lemma entry_topics env db today uid k :
  wants_entry db today uid = true →
  let q := entry_for env db uid k in
  dq_topics q ≠ []
  ∧ (length (dq_topics q) ≤ 5)%nat
  ∧ Forall (λ tid, is_Some (topics db !! tid)
                   ∧ ∃ ut, ut ∈ user_topics db
                           ∧ ut_user_id ut = uid
                           ∧ ut_is_active ut = true
                           ∧ ut_topic_id ut = tid)
      (dq_topics q).
Proof.
  intros [_ Hne]%wants_entry_true q. unfold q, entry_for. simpl.
  split_and!.
  - destruct (select_user_topics uid db); [done|]. done.
  - rewrite length_fmap, length_take. lia.
  - apply Forall_fmap, Forall_forall. intros r Hin. simpl.
    apply (λ H, elem_of_sublist _ _ _ H (sublist_take _ 5)) in Hin.
    rewrite select_user_topics_perm in Hin.
    apply elem_of_active_associations in Hin as (Hut & Ht & Hu & Ha).
    split; [by eexists|]. by exists r.1.
Qed.

(** X1.  Every run of the quiz generator is all or nothing: when the
    commit succeeds and no active user has two entries of today, the
    database gains exactly the entries the loop over the active users
    plans; when the commit fails or some active user has two entries of
    today, the database is left as it was. *)
Theorem generator_all_or_nothing env w :
  let db := committed (session w) in
  let today := date_of (local_clock env (ticks w)) in
  let db' := committed (session (run_generator env w)) in
  (commit_ok env (commits w) = true
   ∧ no_double_today db today
   ∧ db' = with_quiz
             (λ l, l ++ planned env db today (S (ticks w))
                          (select_active_users db)) db)
  ∨ ((commit_ok env (commits w) = false
      ∨ Exists (λ u : Z * User,
          (1 < length (select_schedule_between u.1 today (today + 1)%Z db))%nat)
          (select_active_users db))
     ∧ db' = db).
Proof.
  intros db today db'.
  destruct (generator_cases env w) as [H|[[Hc|Hbad] Hdb]].
  - by left.
  - right. split; [by left|done].
  - right. split; [right|done].
    apply not_Forall_Exists in Hbad; [|apply _].
    eapply Exists_impl; [exact Hbad|]. intros u Hu.
    unfold compose in Hu. fold db today in Hu. lia.
Qed.

(** X2.  Whatever fails, a run of the quiz generator touches nothing but
    the table of quiz entries, and that table only grows: by at most one
    entry per user, each for an active user who had no entry of today,
    dated at a reading of the clock of this run, not completed, with one
    question per topic and with one to five topics, each the topic of an
    active association of that user with a topic that exists. *)
Theorem generator_only_adds_entries env w :
  let db := committed (session w) in
  let today := date_of (local_clock env (ticks w)) in
  let db' := committed (session (run_generator env w)) in
  users db' = users db
  ∧ topics db' = topics db
  ∧ user_topics db' = user_topics db
  ∧ notification_schedules db' = notification_schedules db
  ∧ notifications db' = notifications db
  ∧ ∃ created,
      daily_quiz_schedules db' = daily_quiz_schedules db ++ created
      ∧ NoDup (dq_user_id <$> created)
      ∧ Forall
          (λ q, (∃ u, users db !! dq_user_id q = Some u
                      ∧ u_is_active u = true)
                ∧ entries_on (dq_user_id q) today db = []
                ∧ (∃ k, (ticks w < k)%nat
                        ∧ dq_scheduled_date q = local_clock env k)
                ∧ dq_is_completed q = false
                ∧ dq_questions_per_topic q = 1
                ∧ dq_topics q ≠ []
                ∧ (length (dq_topics q) ≤ 5)%nat
                ∧ Forall (λ tid,
                    is_Some (topics db !! tid)
                    ∧ ∃ ut, ut ∈ user_topics db
                            ∧ ut_user_id ut = dq_user_id q
                            ∧ ut_is_active ut = true
                            ∧ ut_topic_id ut = tid)
                    (dq_topics q))
          created.
Proof.
  intros db today db'.
  destruct (generator_cases env w) as [(_ & _ & Hdb)|[_ Hdb]];
    fold db db' today in Hdb; rewrite Hdb.
  2:{ split_and!; try done. exists []. rewrite app_nil_r.
      split_and!; [done|constructor|constructor]. }
  split_and!; try done.
  eexists. split; [reflexivity|].
  destruct (planned_users env db today (select_active_users db)
              (S (ticks w)) (NoDup_select_active_users db)) as [Hnd Hall].
  split; [done|].
  eapply Forall_impl; [exact Hall|]. simpl.
  intros q ([uid u] & k & Hin & Hk & Hw & ->).
  apply elem_of_select_active_users in Hin as [Hu Hact]. simpl in *.
  destruct (entry_topics env db today uid k Hw) as (Hne & Hlen & Htop).
  destruct (wants_entry_true _ _ _ Hw) as [Hnone _].
  split_and!; try done.
  - by exists u.
  - exists k. split; [lia|done].
Qed.

(** X3.  One active user with two entries of today stops the batch for
    everybody: the lookup of that user raises, the handler logs the
    error and rolls back, and no user gets an entry in this run, the
    commit being never reached. *)
Theorem double_entry_blocks_batch env w uid u :
  let db := committed (session w) in
  let today := date_of (local_clock env (ticks w)) in
  let w' := run_generator env w in
  users db !! uid = Some u →
  u_is_active u = true →
  (1 < length (entries_on uid today db))%nat →
  committed (session w') = db
  ∧ commits w' = commits w
  ∧ logged w'
    = logged w ++
        [(ERROR, "Error creating daily quiz schedules: "
                   +:+ "Multiple rows were found when one or none was required")].
Proof.
  intros db today w' Hu Hact Htwo.
  assert (Hbad : ¬ no_double_today db today).
  { unfold no_double_today. rewrite Forall_forall. intros Hall.
    specialize (Hall (uid, u)). simpl in Hall.
    rewrite select_schedule_between_entries_on in Hall.
    assert ((uid, u) ∈ select_active_users db)
      by by apply elem_of_select_active_users.
    specialize (Hall H). lia. }
  pose (w0 := with_session (λ s, open_session (committed s)) w).
  destruct (block_raises_on_double env db w0 eq_refl Hbad)
    as (w1 & Hrun & Hcm).
  pose proof (block_keeps_or_returns env w0 _ _ Hrun) as (_ & Hrb & Hr).
  assert (Hlog : logged w1 = logged w).
  { revert Hrun. unfold create_schedules_block.
    unfold bind at 1. unfold now, bind at 1, utcnow, ret. simpl.
    unfold bind at 1. rewrite execute_run. cbv zeta.
    set (w2 := if autoflush env then _ else _).
    assert (Hl2 : logged w2 = logged w).
    { unfold w2. by destruct (autoflush env). }
    unfold bind at 1.
    match goal with
    | |- context [for_each ?us ?body w2] =>
        destruct (respects_for_each quiet only_multiple us body
                    (schedule_user_quiet env _ _) w2) as [[_ Hl _] _];
        destruct (for_each us body w2) as [[[]|e] w3]; simpl in *
    end.
    - unfold bind at 1, commit.
      destruct (commit_ok env (commits w3)); simpl; intros [=]; done.
    - intros [= -> <-]. congruence. }
  simpl in Hrb, Hr. destruct Hr as [Hdb _].
  unfold w', run_generator, async_with_session. fold w0.
  unfold _create_daily_quiz_schedules, try_except. rewrite Hrun. simpl.
  unfold bind, log, rollback. simpl.
  destruct (rollback_ok env (rollbacks w1)); simpl;
    split_and!; try done; congruence.
Qed.

Lemma double_entry_blocks_batch_witness :
  (users campus_double !! 1 = Some alice ∧ u_is_active alice = true)
  ∧ committed (session (run_generator calm (world_on campus_double)))
    = campus_double
  ∧ commits (run_generator calm (world_on campus_double)) = 0%nat.
Proof.
  split; [by split|].
  destruct (double_entry_blocks_batch calm (world_on campus_double) 1 alice)
    as (Hdb & Hc & _).
  - reflexivity.
  - reflexivity.
  - vm_compute. lia.
  - split; [exact Hdb|exact Hc].
Defined.

End BatchFacts.

(** ** scheduler.py: the two loops *)

Module LoopFacts.
Import Orm Scheduler Notifier SchedulerRest Spec Examples OrmFacts
  SchedulerFacts NotifierFacts BatchFacts.

(** One turn of the quiz loop, whatever fails. *)
Lemma quiz_turn env w :
  ∃ w', daily_quiz_iteration env w = (Returned (), w')
        ∧ committed (session w') = committed (session (run_generator env w))
        ∧ (slept w' = slept w ++ [3600]
           ∨ (slept w' = slept w ++ [300]
              ∧ rollback_ok env (rollbacks w) = false
              ∧ committed (session w') = committed (session w))).
Proof.
  unfold daily_quiz_iteration, run_generator, try_except, bind,
    async_with_session.
  set (w0 := with_session (λ s, open_session (committed s)) w).
  pose proof (create_outcome env w0) as (Hsl & Hr).
  destruct (_create_daily_quiz_schedules env w0) as [r w1]. simpl in *.
  destruct Hr as [[-> _]|(-> & Hrb & Hdb)]; simpl.
  - eexists. split; [reflexivity|]. simpl. split; [done|].
    left. by rewrite Hsl.
  - eexists. split; [reflexivity|]. simpl. split; [done|].
    right. by rewrite Hsl.
Qed.

(** A dispatch raises nothing but the error of its own commit. *)
Lemma dispatch_outcome env it w :
  (dispatch env it w).1 = Returned ()
  ∨ (dispatch env it w).1 = Raised (DBAPIError "commit failed").
Proof.
  rewrite dispatch_run.
  destruct (firebase_app env); [|by left].
  destruct (commit_ok env (commits w)); [|by left].
  cbv zeta. destruct (commit_ok env (S (commits w))); [by left|by right].
Qed.

Lemma dispatch_loop_outcome env : ∀ its w,
  (for_each its (dispatch env) w).1 = Returned ()
  ∨ (for_each its (dispatch env) w).1 = Raised (DBAPIError "commit failed").
Proof.
  induction its as [|it its IH]; intros w; [by left|].
  rewrite for_each_cons. unfold bind.
  destruct (dispatch_outcome env it w) as [H|H];
    destruct (dispatch env it w) as [[[]|e] w1]; simpl in *; try done.
  - by right.
Qed.

(** [process_pending_notifications] in a session of its own returns. *)
Lemma process_pending_returns env w :
  (async_with_session (process_pending_notifications env) w).1
  = Returned ().
Proof.
  unfold async_with_session.
  set (w0 := with_session (λ s, open_session (committed s)) w).
  destruct (get_pending_spec env (committed (session w)) w0 eq_refl)
    as (items & w1 & Hget & _).
  unfold process_pending_notifications, try_except, bind. rewrite Hget.
  destruct (dispatch_loop_outcome env items w1) as [H|H];
    destruct (for_each items (dispatch env) w1) as [[[]|e] w2];
    simpl in *; try done.
  by injection H as ->.
Qed.

(** One turn of the notification loop. *)
Lemma notification_turn env w :
  notification_iteration env w = sleep 900 (run_dispatcher env w).
Proof.
  unfold notification_iteration, run_dispatcher, try_except, bind.
  pose proof (process_pending_returns env w) as Hret.
  destruct (async_with_session (process_pending_notifications env) w)
    as [r w1]. simpl in Hret. by subst r.
Qed.

(** X4.  A turn of the quiz loop always comes back and ends with exactly
    one sleep.  The sleep is the hour of the normal path unless the
    rollback of the error handler failed; only then the loop backs off
    for five minutes, and the database is then as it was before the
    turn. *)
Theorem quiz_turn_always_sleeps env w :
  let w' := (daily_quiz_iteration env w).2 in
  (daily_quiz_iteration env w).1 = Returned ()
  ∧ committed (session w') = committed (session (run_generator env w))
  ∧ ((slept w' = slept w ++ [3600]
      ∧ phase_after_turn env w = Some Idle)
     ∨ (slept w' = slept w ++ [300]
        ∧ phase_after_turn env w = Some BackingOff
        ∧ rollback_ok env (rollbacks w) = false
        ∧ committed (session w') = committed (session w))).
Proof.
  destruct (quiz_turn env w) as (w1 & Hrun & Hdb & Hsl).
  unfold phase_after_turn. rewrite Hrun. simpl.
  split_and!; [done|done|].
  destruct Hsl as [Hsl|(Hsl & Hrb & Hsame)]; rewrite Hsl, last_snoc.
  - by left.
  - by right.
Qed.

(** X5.  The quiz loop returns as soon as [is_running] is read false,
    whatever failed in the turns before; it has slept once per turn
    made, an hour or five minutes each time, and has not slept
    otherwise. *)
Theorem quiz_loop_sleeps_once_per_turn env script : ∀ w,
  let w' := (_daily_quiz_scheduler env script w).2 in
  (_daily_quiz_scheduler env script w).1 = Returned ()
  ∧ ∃ naps, slept w' = slept w ++ naps
            ∧ length naps = turns script
            ∧ Forall (λ s, s = 3600 ∨ s = 300) naps.
Proof.
  induction script as [|[] script IH]; intros w; simpl.
  - split; [done|]. exists []. by rewrite app_nil_r.
  - unfold bind.
    destruct (quiz_turn env w) as (w1 & Hrun & _ & Hsl). rewrite Hrun.
    destruct (IH w1) as (Hret & naps & Hnaps & Hlen & Hall).
    split; [done|].
    destruct Hsl as [Hsl|(Hsl & _)].
    + exists (3600 :: naps). rewrite Hnaps, Hsl, <- app_assoc. simpl.
      split_and!; [done|by rewrite Hlen|]. constructor; [by left|done].
    + exists (300 :: naps). rewrite Hnaps, Hsl, <- app_assoc. simpl.
      split_and!; [done|by rewrite Hlen|]. constructor; [by right|done].
  - split; [done|]. exists []. by rewrite app_nil_r.
Qed.

(** X6.  The notification loop never takes its five-minute back-off:
    [process_pending_notifications] catches every exception of a run, so
    each turn returns, leaves the database as the run of the dispatcher
    left it, and sleeps its fifteen minutes; the loop has slept fifteen
    minutes once per turn when [is_running] is read false. *)
Theorem notification_loop_never_backs_off env script : ∀ w,
  notification_iteration env w = sleep 900 (run_dispatcher env w)
  ∧ (_notification_processor env script w).1 = Returned ()
  ∧ slept (_notification_processor env script w).2
    = slept w ++ replicate (turns script) 900.
Proof.
  induction script as [|[] script IH]; intros w; simpl;
    (split; [apply notification_turn|]).
  - by rewrite app_nil_r.
  - unfold bind. rewrite notification_turn. simpl.
    destruct (IH (sleep 900 (run_dispatcher env w)).2) as (_ & Hret & Hsl).
    split; [done|]. simpl in Hsl. rewrite Hsl.
    destruct (run_dispatcher_spec env w) as (_ & _ & _ & _ & _ & _ & [_ Hs _]).
    rewrite Hs, <- app_assoc. done.
  - by rewrite app_nil_r.
Qed.

End LoopFacts.

(** ** notification.py: sending with a token *)

Module SendFacts.
Import Orm Notifier NotifierRest Spec Examples OrmFacts NotifierFacts.

(** The record as the assignments after a send leave it. *)
Lemma mark_sent_snoc now response l n :
  mark_sent now response (l ++ [n])
  = l ++ [mkNotification (n_user_id n) (n_title n) (n_message n)
            (n_notification_type n) (n_fcm_token n) (n_data n)
            true (Some now) (Some response)].
Proof.
  unfold mark_sent. rewrite reverse_snoc. by rewrite reverse_involutive.
Qed.

Lemma truthy_str_Some tok : truthy_str (Some tok) = true ↔ tok ≠ "".
Proof.
  simpl. destruct (String.eqb_spec tok ""); simpl; split; done.
Qed.

(** [send_notification] with a session and a token, case by case. *)
Lemma send_notification_token env uid title message ty tok data w :
  tok ≠ "" →
  send_notification env uid title message ty (Some tok) data true w
  = if firebase_app env then
      let n := mkNotification uid title message ty (Some tok) data false
                 None None in
      let msg := mkFcmMessage title message (default [] data) tok in
      if commit_ok env (commits w) then
        let s1 := commit_session (added n (session w)) in
        match fcm_send env (length (fcm_outbox w)) with
        | Some id =>
            let s2 :=
              mkSession (committed s1)
                (with_notifications
                   (mark_sent (utc_clock env (ticks w)) id) (txn s1))
                [] [] in
            if commit_ok env (S (commits w)) then
              (Returned true,
               mkWorld (commit_session s2) (S (ticks w))
                 (S (S (commits w))) (rollbacks w)
                 (logged w ++
                    [(INFO, "Successfully sent message: " +:+ id)])
                 (fcm_outbox w ++ [msg]) (slept w))
            else
              (Returned false,
               mkWorld s2 (S (ticks w)) (S (S (commits w))) (rollbacks w)
                 ((logged w ++
                     [(INFO, "Successfully sent message: " +:+ id)]) ++
                    [(ERROR, "Failed to send FCM message: commit failed")])
                 (fcm_outbox w ++ [msg]) (slept w))
        | None =>
            (Returned false,
             mkWorld s1 (ticks w) (S (commits w)) (rollbacks w)
               (logged w ++
                  [(ERROR, "Failed to send FCM message: send failed")])
               (fcm_outbox w ++ [msg]) (slept w))
        end
      else
        (Returned false,
         mkWorld (added n (session w)) (ticks w) (S (commits w))
           (rollbacks w)
           (logged w ++
              [(ERROR, "Error sending notification: commit failed")])
           (fcm_outbox w) (slept w))
    else
      (Returned false,
       mkWorld (session w) (ticks w) (commits w) (rollbacks w)
         (logged w ++ [(ERROR, "Firebase not initialized")])
         (fcm_outbox w) (slept w)).
Proof.
  intros Htok%truthy_str_Some.
  unfold send_notification. rewrite Htok. unfold try_except at 1.
  destruct (firebase_app env); simpl; [|done].
  unfold bind at 1. unfold bind at 1, add_notification, commit. simpl.
  destruct (commit_ok env (commits w)); [|done]. simpl.
  unfold try_except, bind, messaging_send. simpl.
  destruct (fcm_send env (length (fcm_outbox w))); [|done]. simpl.
  destruct (commit_ok env (S (commits w))); done.
Qed.

(** [send_notification] without a session but with a token. *)
Lemma send_notification_token_no_session env uid title message ty tok
    data w :
  tok ≠ "" →
  send_notification env uid title message ty (Some tok) data false w
  = if firebase_app env then
      let msg := mkFcmMessage title message (default [] data) tok in
      match fcm_send env (length (fcm_outbox w)) with
      | Some id =>
          (Returned true,
           mkWorld (session w) (ticks w) (commits w) (rollbacks w)
             (logged w ++ [(INFO, "Successfully sent message: " +:+ id)])
             (fcm_outbox w ++ [msg]) (slept w))
      | None =>
          (Returned false,
           mkWorld (session w) (ticks w) (commits w) (rollbacks w)
             (logged w ++
                [(ERROR, "Failed to send FCM message: send failed")])
             (fcm_outbox w ++ [msg]) (slept w))
      end
    else
      (Returned false,
       mkWorld (session w) (ticks w) (commits w) (rollbacks w)
         (logged w ++ [(ERROR, "Firebase not initialized")])
         (fcm_outbox w) (slept w)).
Proof.
  intros Htok%truthy_str_Some.
  unfold send_notification. rewrite Htok. unfold try_except at 1.
  destruct (firebase_app env); simpl; [|done].
  unfold try_except, bind, messaging_send. simpl.
  destruct (fcm_send env (length (fcm_outbox w))); done.
Qed.

(** An empty token is no token. *)
Lemma send_notification_empty_token env uid title message ty data db w :
  (send_notification env uid title message ty (Some "") data db w).1
  = (send_notification env uid title message ty None data db w).1
  ∧ fcm_outbox
      (send_notification env uid title message ty (Some "") data db w).2
    = fcm_outbox w
  ∧ rollbacks
      (send_notification env uid title message ty (Some "") data db w).2
    = rollbacks w
  ∧ slept
      (send_notification env uid title message ty (Some "") data db w).2
    = slept w
  ∧ (db = true
     ∨ session
         (send_notification env uid title message ty (Some "") data db w).2
       = session w).
Proof.
  unfold send_notification, try_except. simpl.
  destruct (firebase_app env), db; simpl;
    unfold bind, add_notification, commit; simpl;
    try destruct (commit_ok env (commits w)); simpl;
    split_and!; auto.
Qed.

(** [send_notification], whatever its arguments and whatever fails. *)
Lemma send_notification_total env uid title message ty tok data db w :
  let r := send_notification env uid title message ty tok data db w in
  (∃ b, r.1 = Returned b ∧ (b = false ∨ firebase_app env = true))
  ∧ rollbacks r.2 = rollbacks w
  ∧ slept r.2 = slept w
  ∧ (db = true ∨ session r.2 = session w)
  ∧ (fcm_outbox r.2 = fcm_outbox w
     ∨ ∃ t, tok = Some t
            ∧ t ≠ ""
            ∧ firebase_app env = true
            ∧ fcm_outbox r.2
              = fcm_outbox w
                  ++ [mkFcmMessage title message (default [] data) t]).
Proof.
  intros r. unfold r. clear r.
  destruct tok as [t|].
  - destruct (decide (t = "")) as [->|Hne].
    + destruct (send_notification_empty_token env uid title message ty
                  data db w) as (Hr & Hout & Hrb & Hsl & Hdb).
      split_and!; [|done|done|done|by left].
      rewrite Hr. destruct db.
      * rewrite send_notification_no_token.
        destruct (firebase_app env); [|by eexists; split; [|left]].
        cbv zeta. destruct (commit_ok env (commits w)); eexists; eauto.
      * unfold send_notification, try_except. simpl.
        destruct (firebase_app env); simpl; eexists; eauto.
    + destruct db.
      * rewrite send_notification_token by done.
        destruct (firebase_app env); cbv zeta.
        2:{ split_and!; eauto. }
        destruct (commit_ok env (commits w)).
        2:{ split_and!; eauto. }
        destruct (fcm_send env (length (fcm_outbox w))).
        2:{ split_and!; eauto. right. by exists t. }
        destruct (commit_ok env (S (commits w)));
          (split_and!; eauto; right; by exists t).
      * rewrite send_notification_token_no_session by done.
        destruct (firebase_app env); cbv zeta.
        2:{ split_and!; eauto. }
        destruct (fcm_send env (length (fcm_outbox w)));
          (split_and!; eauto; right; by exists t).
  - destruct db.
    + rewrite send_notification_no_token.
      destruct (firebase_app env); cbv zeta.
      2:{ split_and!; eauto. }
      destruct (commit_ok env (commits w)); split_and!; eauto.
    + unfold send_notification, try_except. simpl.
      destruct (firebase_app env); simpl; split_and!; eauto.
Qed.

(** X7.  [send_notification] never raises, never rolls back and never
    sleeps, whatever its arguments and whatever fails.  It answers
    [True] only with a Firebase app.  It hands at most one message to
    FCM, and only for a token that is not empty: the message carries the
    title, the text, the data and the token of the call.  Without a
    session it leaves the session alone. *)
Theorem send_notification_never_raises env uid title message ty tok data
    db w :
  let r := send_notification env uid title message ty tok data db w in
  (∃ b, r.1 = Returned b ∧ (b = false ∨ firebase_app env = true))
  ∧ rollbacks r.2 = rollbacks w
  ∧ slept r.2 = slept w
  ∧ (db = true ∨ session r.2 = session w)
  ∧ (fcm_outbox r.2 = fcm_outbox w
     ∨ ∃ t, tok = Some t
            ∧ t ≠ ""
            ∧ firebase_app env = true
            ∧ fcm_outbox r.2
              = fcm_outbox w
                  ++ [mkFcmMessage title message (default [] data) t]).
Proof. apply send_notification_total. Qed.

(** X30.  The two wrappers never raise either.  What
    [send_achievement_notification] hands to FCM, if anything, is one
    message for the token with the title of an achievement, the text
    that names the achievement, and the data [type], [achievement] and
    [user_id], the id as its decimal text; [send_quiz_reminder] with a
    token hands over the reminder with [type], [action] and [user_id]. *)
Theorem wrappers_never_raise env user achievement tok db w :
  let r1 := send_quiz_reminder env user tok db w in
  let r2 := send_achievement_notification env user achievement tok db w in
  (∃ b, r1.1 = Returned b)
  ∧ (∃ b, r2.1 = Returned b)
  ∧ (fcm_outbox r1.2 = fcm_outbox w
     ∨ ∃ t, tok = Some t
            ∧ fcm_outbox r1.2
              = fcm_outbox w
                  ++ [mkFcmMessage (books +:+ " Time for your daily quiz!")
                        ("Complete your quiz to stay on track with your "
                           +:+ pretty (u_quiz_completion_goal user.2)
                           +:+ " daily goal.")
                        [("type", "quiz_reminder"); ("action", "open_quiz");
                         ("user_id", pretty user.1)] t])
  ∧ (fcm_outbox r2.2 = fcm_outbox w
     ∨ ∃ t, tok = Some t
            ∧ fcm_outbox r2.2
              = fcm_outbox w
                  ++ [mkFcmMessage (party +:+ " Achievement Unlocked!")
                        ("Congratulations! You've " +:+ achievement)
                        [("type", "achievement");
                         ("achievement", achievement);
                         ("user_id", pretty user.1)] t]).
Proof.
  intros r1 r2. unfold r1, r2, send_quiz_reminder,
    send_achievement_notification.
  split_and!.
  - match goal with
    | |- context [send_notification ?e ?u ?t ?m ?ty ?k ?d ?b ?w0] =>
        destruct (send_notification_total e u t m ty k d b w0)
          as ((x & Hx & _) & _)
    end.
    by exists x.
  - match goal with
    | |- context [send_notification ?e ?u ?t ?m ?ty ?k ?d ?b ?w0] =>
        destruct (send_notification_total e u t m ty k d b w0)
          as ((x & Hx & _) & _)
    end.
    by exists x.
  - match goal with
    | |- context [send_notification ?e ?u ?t ?m ?ty ?k ?d ?b ?w0] =>
        destruct (send_notification_total e u t m ty k d b w0)
          as (_ & _ & _ & _ & [Ho|(t0 & Ht & _ & _ & Ho)])
    end; [by left|right]. by exists t0.
  - match goal with
    | |- context [send_notification ?e ?u ?t ?m ?ty ?k ?d ?b ?w0] =>
        destruct (send_notification_total e u t m ty k d b w0)
          as (_ & _ & _ & _ & [Ho|(t0 & Ht & _ & _ & Ho)])
    end; [by left|right]. by exists t0.
Qed.

(** X8.  With a Firebase app, a token and a first commit that succeeds,
    the record of the notification is in the database and the message is
    handed to FCM.  The answer is [True], and the record is marked as
    sent with the time and the message id, exactly when FCM takes the
    message and the second commit succeeds too.  When FCM takes the
    message and the second commit fails, the answer is [False] and the
    database keeps the record as not sent, although the message is out. *)
Theorem send_with_token_outcome env uid title message ty tok data w :
  let r := send_notification env uid title message ty (Some tok) data true
             w in
  let n := mkNotification uid title message ty (Some tok) data false None
             None in
  let before := notifications (view (session w)) in
  let after := notifications (committed (session r.2)) in
  firebase_app env = true →
  tok ≠ "" →
  commit_ok env (commits w) = true →
  fcm_outbox r.2
  = fcm_outbox w ++ [mkFcmMessage title message (default [] data) tok]
  ∧ match fcm_send env (length (fcm_outbox w)) with
    | Some id =>
        if commit_ok env (S (commits w))
        then r.1 = Returned true
             ∧ after
               = before ++
                   [mkNotification uid title message ty (Some tok) data
                      true (Some (utc_clock env (ticks w))) (Some id)]
        else r.1 = Returned false ∧ after = before ++ [n]
    | None => r.1 = Returned false ∧ after = before ++ [n]
    end.
Proof.
  intros r n before after Hfb Htok Hc1. unfold after, r.
  rewrite send_notification_token by done. rewrite Hfb, Hc1. cbv zeta.
  assert (Hview :
    notifications (txn (commit_session (added n (session w))))
    = before ++ [n]).
  { change (txn (commit_session (added n (session w))))
      with (view (added n (session w))).
    by rewrite view_added. }
  destruct (fcm_send env (length (fcm_outbox w))) as [id|]; simpl.
  2:{ split; [done|]. split; [done|]. exact Hview. }
  destruct (commit_ok env (S (commits w))); simpl.
  - split; [done|]. split; [done|].
    unfold with_notifications, flush. simpl. rewrite !app_nil_r.
    rewrite app_assoc. rewrite mark_sent_snoc. done.
  - split; [done|]. split; [done|]. exact Hview.
Qed.

Lemma send_with_token_outcome_witness :
  (firebase_app calm = true ∧ commit_ok calm 0 = true)
  ∧ let r := send_notification calm 1 "Hello" "A message" "achievement"
               (Some "device-token") None true (world_on campus) in
    r.1 = Returned true
    ∧ n_is_sent <$> notifications (committed (session r.2)) = [true]
    ∧ fcm_token <$> fcm_outbox r.2 = ["device-token"].
Proof.
  split; [by split|].
  destruct (send_with_token_outcome calm 1 "Hello" "A message" "achievement"
              "device-token" None (world_on campus))
    as (Hout & Hr & Hn).
  - reflexivity.
  - discriminate.
  - reflexivity.
  - split_and!; [exact Hr|by rewrite Hn|by rewrite Hout].
Defined.

End SendFacts.

(** ** notification.py: which reminders a run sends *)

Module PendingFacts.
Import Orm Scheduler Notifier NotifierRest Spec SpecRest Examples
  MoreExamples OrmFacts ExampleFacts NotifierFacts.

(** The world after one more reading of the clock. *)
Lemma consider_exact env db0 acc row w :
  session w = open_session db0 →
  consider env acc row w
  = (match select_completed row.2.1 (date_of (local_clock env (ticks w)))
             db0 with
     | [] => Returned (acc ++ [item_of row])
     | [_] => Returned acc
     | _ :: _ :: _ => Raised MultipleResultsFound
     end,
     mkWorld (session w) (S (ticks w)) (commits w) (rollbacks w) (logged w)
       (fcm_outbox w) (slept w)).
Proof.
  intros Hs. destruct row as [[id s] user]. unfold consider.
  unfold bind at 1. unfold now, bind at 1, utcnow, ret. cbn [fst snd].
  unfold bind at 1.
  rewrite (execute_open_session env db0) by done.
  fold (local_clock env (ticks w)).
  destruct (select_completed user.1 _ db0) as [|q [|q' qs]]; done.
Qed.

Lemma consider_loop_exact env db0 : ∀ rows acc w,
  session w = open_session db0 →
  ∃ w', for_acc rows acc (consider env) w
        = (match pending_of env db0 (ticks w) rows with
           | Some items => Returned (acc ++ items)
           | None => Raised MultipleResultsFound
           end, w')
        ∧ reading db0 w w'
        ∧ logged w' = logged w.
Proof.
  induction rows as [|row rows IH]; intros acc w Hs; simpl.
  { exists w. rewrite app_nil_r. split_and!; [done| |done].
    by split. }
  unfold bind. rewrite (consider_exact env db0) by done.
  set (w1 := mkWorld (session w) (S (ticks w)) (commits w) (rollbacks w)
               (logged w) (fcm_outbox w) (slept w)).
  assert (Hstep : reading db0 w w1) by (split; simpl; [done|lia|done..]).
  destruct (select_completed row.2.1 _ db0) as [|q [|q' qs]].
  - destruct (IH (acc ++ [item_of row]) w1 Hs) as (w2 & -> & Hrd & Hlog).
    exists w2. split_and!; [|destruct Hrd; split; simpl in *; [done|lia|done..]|done].
    change (ticks w1) with (S (ticks w)).
    destruct (pending_of env db0 (S (ticks w)) rows); simpl; [|done].
    by rewrite <- app_assoc.
  - destruct (IH acc w1 Hs) as (w2 & -> & Hrd & Hlog).
    exists w2. split_and!; [done| |done].
    destruct Hrd; split; simpl in *; [done|lia|done..].
  - exists w1. done.
Qed.

(** [get_pending_notifications] on a session just opened, exactly. *)
Lemma get_pending_exact env db0 w :
  session w = open_session db0 →
  let rows := select_due (utc_clock env (ticks w)) db0 in
  ∃ w', get_pending_notifications env w
        = (Returned (default [] (pending_of env db0 (S (ticks w)) rows)), w')
        ∧ reading db0 w w'
        ∧ logged w'
          = logged w ++
              match pending_of env db0 (S (ticks w)) rows with
              | Some _ => []
              | None =>
                  [(ERROR,
                    "Error getting pending notifications: "
                      +:+ str_exn MultipleResultsFound)]
              end.
Proof.
  intros Hs rows. unfold get_pending_notifications, try_except.
  unfold bind at 1, utcnow. cbn [fst snd]. unfold bind at 1.
  set (w1 := mkWorld (session w) (S (ticks w)) (commits w) (rollbacks w)
               (logged w) (fcm_outbox w) (slept w)).
  rewrite (execute_open_session env db0 _ w1) by done.
  destruct (consider_loop_exact env db0 rows [] w1 Hs)
    as (w2 & Hrun & Hrd & Hlog).
  fold rows. rewrite Hrun. change (ticks w1) with (S (ticks w)).
  destruct Hrd as [Hs2 Ht Hc Hr Hsl Hout]. simpl in *.
  destruct (pending_of env db0 (S (ticks w)) rows) as [items|]; simpl.
  - exists w2. split_and!; [done| |by rewrite app_nil_r].
    split; simpl; [done|lia|done..].
  - eexists. split_and!; [done| |simpl; by rewrite Hlog].
    split; simpl; [done|lia|done..].
Qed.

(** What [pending_of] keeps: rows of the query, in the order of the
    query. *)
Lemma pending_of_sublist env db0 : ∀ rows k items,
  pending_of env db0 k rows = Some items →
  items `sublist_of` (item_of <$> rows).
Proof.
  induction rows as [|row rows IH]; intros k items; simpl.
  { by intros [= <-]. }
  destruct (select_completed row.2.1 _ db0) as [|q [|q' qs]]; [| |done].
  - destruct (pending_of env db0 (S k) rows) as [items'|] eqn:Hrest;
      simpl; [|done].
    intros [= <-]. apply sublist_skip. by eapply IH.
  - intros Hrest. apply sublist_cons. by eapply IH.
Qed.

(** A row whose user has two completed entries of today or later
    empties the list. *)
Lemma pending_of_double env db0 row : ∀ rows k,
  row ∈ rows →
  (∀ k', (1 < length (select_completed row.2.1
                        (date_of (local_clock env k')) db0))%nat) →
  pending_of env db0 k rows = None.
Proof.
  induction rows as [|row' rows IH]; intros k Hin Htwo.
  { by apply elem_of_nil in Hin. }
  simpl. apply elem_of_cons in Hin as [<-|Hin].
  - specialize (Htwo k).
    destruct (select_completed row.2.1 _ db0) as [|q [|q' qs]];
      simpl in Htwo; [lia|lia|done].
  - destruct (select_completed row'.2.1 _ db0) as [|q [|q' qs]]; [| |done].
    + by rewrite (IH (S k)).
    + by apply IH.
Qed.

(** With no user who has two completed entries, every row whose user
    has none is in the list. *)
Lemma pending_of_complete env db0 : ∀ rows k,
  (∀ row k', row ∈ rows →
     (length (select_completed row.2.1 (date_of (local_clock env k')) db0)
      ≤ 1)%nat) →
  ∃ items,
    pending_of env db0 k rows = Some items
    ∧ ∀ row, row ∈ rows →
        (∀ k', select_completed row.2.1 (date_of (local_clock env k')) db0
               = []) →
        item_of row ∈ items.
Proof.
  induction rows as [|row rows IH]; intros k Hone; simpl.
  { exists []. split; [done|]. intros row Hin. by apply elem_of_nil in Hin. }
  destruct (IH (S k)) as (items & Hrest & Hall).
  { intros row' k' Hin. apply Hone. by right. }
  rewrite Hrest.
  assert (Hrow := Hone row k ltac:(by left)).
  destruct (select_completed row.2.1 _ db0) as [|q [|q' qs]] eqn:Hsel;
    simpl in Hrow; [| |lia].
  - eexists. split; [done|]. intros row' [->|Hin]%elem_of_cons Hnone.
    + by left.
    + right. by apply Hall.
  - exists items. split; [done|].
    intros row' [->|Hin]%elem_of_cons Hnone.
    + by rewrite Hnone in Hsel.
    + by apply Hall.
Qed.

(** The dispatcher never reads the clock backwards: the readings of a
    run come after those before it. *)
Lemma dispatch_ticks env it w : (ticks w ≤ ticks (dispatch env it w).2)%nat.
Proof.
  rewrite dispatch_run.
  destruct (firebase_app env); [|done].
  destruct (commit_ok env (commits w)); [|done].
  cbv zeta. destruct (commit_ok env (S (commits w))); simpl; lia.
Qed.

Lemma dispatch_loop_ticks env : ∀ its w,
  (ticks w ≤ ticks (for_each its (dispatch env) w).2)%nat.
Proof.
  induction its as [|it its IH]; intros w; [done|].
  rewrite for_each_cons. unfold bind.
  pose proof (dispatch_ticks env it w) as H1.
  destruct (dispatch env it w) as [[[]|e] w1]; simpl in *; [|done].
  specialize (IH w1). lia.
Qed.

(** A run of the dispatcher as the list [pending] and the dispatch loop
    over it. *)
Lemma run_dispatcher_unfold env w :
  let db0 := committed (session w) in
  let w0 := with_session (λ s, open_session (committed s)) w in
  let rows := select_due (utc_clock env (ticks w)) db0 in
  let items := default [] (pending_of env db0 (S (ticks w)) rows) in
  ∃ w1, get_pending_notifications env w0 = (Returned items, w1)
        ∧ reading db0 w0 w1
        ∧ logged w1
          = logged w ++
              match pending_of env db0 (S (ticks w)) rows with
              | Some _ => []
              | None =>
                  [(ERROR,
                    "Error getting pending notifications: "
                      +:+ str_exn MultipleResultsFound)]
              end
        ∧ committed (session (run_dispatcher env w))
          = committed (session (for_each items (dispatch env) w1).2)
        ∧ (ticks w < ticks (run_dispatcher env w))%nat.
Proof.
  intros db0 w0 rows items.
  destruct (get_pending_exact env db0 w0 eq_refl) as (w1 & Hget & Hrd & Hlog).
  assert (ticks w < ticks w1)%nat as Ht0.
  { destruct (get_pending_spec env db0 w0 eq_refl)
      as (items' & w1' & Hget' & _ & Hlt & _).
    rewrite Hget in Hget'. by injection Hget' as _ <-. }
  pose proof (dispatch_loop_ticks env items w1) as Ht.
  exists w1. split_and!; [done|done|done|..].
  all: unfold run_dispatcher, async_with_session,
         process_pending_notifications, try_except, bind.
  all: fold w0; rewrite Hget; subst items rows.
  all: destruct (for_each _ (dispatch env) w1) as [[[]|e] w2];
         simpl in *.
  - done.
  - by destruct (is_Exception e).
  - lia.
  - destruct (is_Exception e); simpl; lia.
Qed.

(** Without a Firebase app the dispatch loop leaves the session alone. *)
Lemma dispatch_loop_no_firebase env : ∀ its w,
  firebase_app env = false →
  session (for_each its (dispatch env) w).2 = session w.
Proof.
  induction its as [|it its IH]; intros w Hfb; [done|].
  rewrite for_each_cons. unfold bind. rewrite dispatch_run, Hfb.
  by rewrite IH.
Qed.

(** What [select_completed] reads. *)
Lemma select_completed_quiz uid d db db' :
  daily_quiz_schedules db' = daily_quiz_schedules db →
  select_completed uid d db' = select_completed uid d db.
Proof. unfold select_completed. by intros ->. Qed.

(** A due row of a user without a completed entry is sent by a run in
    which nothing fails. *)
Lemma due_row_sent env w id s u :
  let db := committed (session w) in
  let db' := committed (session (run_dispatcher env w)) in
  firebase_app env = true →
  (∀ k, commit_ok env k = true) →
  notification_schedules db !! id = Some s →
  users db !! ns_user_id s = Some u →
  is_due (utc_clock env (ticks w)) (id, s, (ns_user_id s, u)) →
  (∀ k, select_completed (ns_user_id s) (date_of (local_clock env k)) db
        = []) →
  (∀ uid k,
     (length (select_completed uid (date_of (local_clock env k)) db) ≤ 1)%nat) →
  (∃ k, (ticks w < k)%nat
        ∧ notification_schedules db' !! id
          = Some (after_send (utc_clock env k) s))
  ∧ (∃ sent, notifications db' = notifications db ++ sent
             ∧ reminder_record (ns_user_id s, u) ∈ sent)
  ∧ users db' = users db
  ∧ daily_quiz_schedules db' = daily_quiz_schedules db.
Proof.
  intros db db' Hfb Hcommit Hs Hu Hdue Hnone Hone.
  set (rows := select_due (utc_clock env (ticks w)) db).
  assert (Hrow : (id, s, (ns_user_id s, u)) ∈ rows)
    by by apply elem_of_select_due.
  destruct (pending_of_complete env db rows (S (ticks w)))
    as (items & Hitems & Hall).
  { intros row k _. apply Hone. }
  specialize (Hall _ Hrow Hnone).
  destruct (run_dispatcher_sends env w Hfb Hcommit)
    as (items' & w1 & Hget & Hnd & Hdb & Hlt & _).
  destruct (get_pending_exact env db
              (with_session (λ s, open_session (committed s)) w) eq_refl)
    as (w1' & Hget' & _).
  rewrite Hget in Hget'. injection Hget' as Heq _.
  change (ticks (with_session _ w)) with (ticks w) in Heq.
  fold rows in Heq. rewrite Hitems in Heq. simpl in Heq. subst items'.
  fold db db' in Hdb.
  destruct (run_dispatcher_spec env w)
    as (_ & _ & _ & _ & _ & [Husers _ _ Hquiz _ _ _] & _).
  fold db db' in Husers, Hquiz.
  split_and!; [| |done|done].
  - destruct (sent_all_schedules env items (ticks w1) db id Hnd)
      as [Hin _].
    destruct Hin as (k & Hk & Hlook).
    { apply list_elem_of_fmap. by exists (item_of (id, s, (ns_user_id s, u))). }
    exists k. split; [lia|]. by rewrite Hdb, Hlook, Hs.
  - eexists. split; [by rewrite Hdb, sent_all_notifications|].
    apply list_elem_of_fmap.
    by exists (item_of (id, s, (ns_user_id s, u))).
Qed.

(** X9.  On a session just opened, [get_pending_notifications] returns
    exactly the list the pure function [pending_of] makes of the rows of
    the due query: the rows whose user has no completed entry of today
    or later, in the order of the query.  It only reads: the session,
    the commits, the rollbacks and the FCM outbox are as before.  When
    some lookup finds two completed entries the list is empty and the
    error is logged. *)
Theorem pending_list_exact env db0 w :
  let rows := select_due (utc_clock env (ticks w)) db0 in
  let r := get_pending_notifications env w in
  session w = open_session db0 →
  r.1 = Returned (default [] (pending_of env db0 (S (ticks w)) rows))
  ∧ default [] (pending_of env db0 (S (ticks w)) rows)
      `sublist_of` (item_of <$> rows)
  ∧ session r.2 = session w
  ∧ commits r.2 = commits w
  ∧ rollbacks r.2 = rollbacks w
  ∧ fcm_outbox r.2 = fcm_outbox w
  ∧ logged r.2
    = logged w ++
        match pending_of env db0 (S (ticks w)) rows with
        | Some _ => []
        | None =>
            [(ERROR,
              "Error getting pending notifications: "
                +:+ "Multiple rows were found when one or none was required")]
        end.
Proof.
  intros rows r Hs. unfold r.
  destruct (get_pending_exact env db0 w Hs) as (w1 & -> & Hrd & Hlog).
  destruct Hrd as [Hs1 _ Hc Hr _ Hout]. fold rows in Hlog |- *. simpl.
  split_and!; [done| |congruence|done..].
  destruct (pending_of env db0 (S (ticks w)) rows) as [items|] eqn:Hp;
    simpl; [by eapply pending_of_sublist|apply sublist_nil_l].
Qed.

(** X10.  One due reminder whose user has two completed entries of today
    or later stops the run for everybody: the lookup raises, the list of
    pending notifications is empty, and the run leaves the database as
    it was, with the error in the log. *)
Theorem double_completed_suppresses_all env w id s u :
  let db := committed (session w) in
  let w' := run_dispatcher env w in
  notification_schedules db !! id = Some s →
  users db !! ns_user_id s = Some u →
  is_due (utc_clock env (ticks w)) (id, s, (ns_user_id s, u)) →
  (∀ k, (1 < length (select_completed (ns_user_id s)
                       (date_of (local_clock env k)) db))%nat) →
  committed (session w') = db
  ∧ fcm_outbox w' = fcm_outbox w
  ∧ (ERROR,
     "Error getting pending notifications: "
       +:+ "Multiple rows were found when one or none was required")
    ∈ logged w'.
Proof.
  intros db w' Hs Hu Hdue Htwo.
  set (rows := select_due (utc_clock env (ticks w)) db).
  assert (Hrow : (id, s, (ns_user_id s, u)) ∈ rows)
    by by apply elem_of_select_due.
  assert (Hnone : pending_of env db (S (ticks w)) rows = None).
  { by apply (pending_of_double env db (id, s, (ns_user_id s, u))). }
  destruct (run_dispatcher_spec env w) as (_ & _ & _ & _ & _ & _ & [_ _ Hout]).
  split_and!; [|done|].
  - destruct (run_dispatcher_unfold env w) as (w1 & _ & Hrd & _ & Hdb & _).
    fold db rows in Hdb. rewrite Hnone in Hdb. simpl in Hdb.
    unfold w'. rewrite Hdb. by destruct Hrd as [-> _ _ _ _ _].
  - unfold w', run_dispatcher, async_with_session,
      process_pending_notifications, try_except, bind.
    destruct (run_dispatcher_unfold env w) as (w1 & Hget & _ & Hlog & _).
    fold db rows in Hget, Hlog. rewrite Hnone in Hget, Hlog.
    rewrite Hget. simpl. rewrite Hlog. apply elem_of_app. right. by left.
Qed.

(** X11.  When nothing fails, a run of the dispatcher sends every due
    reminder whose user has no completed entry, provided no user has two
    completed entries: the schedule gets the assignments of a send at a
    reading of the clock of this run, and the record of the reminder is
    among the notifications the run adds. *)
Theorem due_reminder_is_sent env w id s u :
  let db := committed (session w) in
  let db' := committed (session (run_dispatcher env w)) in
  firebase_app env = true →
  (∀ k, commit_ok env k = true) →
  notification_schedules db !! id = Some s →
  users db !! ns_user_id s = Some u →
  is_due (utc_clock env (ticks w)) (id, s, (ns_user_id s, u)) →
  (∀ k, select_completed (ns_user_id s) (date_of (local_clock env k)) db
        = []) →
  (∀ uid k,
     (length (select_completed uid (date_of (local_clock env k)) db) ≤ 1)%nat) →
  (∃ k, (ticks w < k)%nat
        ∧ notification_schedules db' !! id
          = Some (after_send (utc_clock env k) s))
  ∧ ∃ sent, notifications db' = notifications db ++ sent
            ∧ reminder_record (ns_user_id s, u) ∈ sent.
Proof.
  intros db db' Hfb Hcommit Hs Hu Hdue Hnone Hone.
  destruct (due_row_sent env w id s u Hfb Hcommit Hs Hu Hdue Hnone Hone)
    as (H1 & H2 & _).
  by split.
Qed.

(** X12.  A send never moves [scheduled_time], so the [next_send] it
    assigns is the same after every send.  When that time is already
    past, as it is for a schedule whose [scheduled_time] is older than
    the period of its frequency, the next run finds the schedule due
    again: two runs in a row both send the reminder. *)
Theorem stale_schedule_fires_again env w id s u :
  let db := committed (session w) in
  let w1 := run_dispatcher env w in
  let db2 := committed (session (run_dispatcher env w1)) in
  firebase_app env = true →
  (∀ k, commit_ok env k = true) →
  notification_schedules db !! id = Some s →
  users db !! ns_user_id s = Some u →
  is_due (utc_clock env (ticks w)) (id, s, (ns_user_id s, u)) →
  (∀ k, match period (ns_frequency s) with
        | Some d => ns_scheduled_time s + d <= utc_clock env k
        | None => not_after (ns_next_send s) (utc_clock env k)
        end) →
  (∀ k, select_completed (ns_user_id s) (date_of (local_clock env k)) db
        = []) →
  (∀ uid k,
     (length (select_completed uid (date_of (local_clock env k)) db) ≤ 1)%nat) →
  (∃ k1 k2, (ticks w < k1)%nat ∧ (ticks w < k2)%nat
            ∧ notification_schedules db2 !! id
              = Some (after_send (utc_clock env k2)
                        (after_send (utc_clock env k1) s)))
  ∧ ∃ first second,
      notifications db2 = notifications db ++ first ++ second
      ∧ reminder_record (ns_user_id s, u) ∈ first
      ∧ reminder_record (ns_user_id s, u) ∈ second.
Proof.
  intros db w1 db2 Hfb Hcommit Hs Hu Hdue Hstale Hnone Hone.
  destruct (due_row_sent env w id s u Hfb Hcommit Hs Hu Hdue Hnone Hone)
    as ((k1 & Hk1 & Hs1) & (first & Hn1 & Hin1) & Husers & Hquiz).
  fold db w1 in Hs1, Hn1, Husers, Hquiz.
  destruct (run_dispatcher_unfold env w) as (_ & _ & _ & _ & _ & Hticks).
  fold w1 in Hticks.
  set (s1 := after_send (utc_clock env k1) s) in *.
  destruct (due_row_sent env w1 id s1 u Hfb Hcommit Hs1)
    as ((k2 & Hk2 & Hs2) & (second & Hn2 & Hin2) & _).
  - simpl. by rewrite Husers.
  - destruct Hdue as (Hact & _ & Hen & Huact).
    split_and!; simpl in *; [done| |done|done].
    specialize (Hstale (ticks w1)).
    destruct (period (ns_frequency s)); done.
  - intros k. simpl. rewrite (select_completed_quiz _ _ db); [|done].
    apply Hnone.
  - intros uid k. rewrite (select_completed_quiz _ _ db); [|done].
    apply Hone.
  - fold db2 in Hs2, Hn2. split.
    + exists k1, k2. split_and!; [done|lia|done].
    + exists first, second. split_and!; [|done|done].
      by rewrite Hn2, Hn1, <- app_assoc.
Qed.

(** A schedule whose [next_send] is NULL is not selected and not
    changed by a run. *)
Lemma null_row_kept w w' id s :
  dispatcher_runs w w' →
  notification_schedules (committed (session w)) !! id = Some s →
  ns_next_send s = None →
  notification_schedules (committed (session w')) !! id = Some s.
Proof.
  intros Hruns Hs Hnull.
  induction Hruns as [w|env w w' Hruns IH|w w' w'' Hruns IH Hsame].
  - done.
  - specialize (IH Hs).
    destruct (run_dispatcher_spec env w')
      as (items & w1 & _ & _ & Hpicked & [_ _ _ _ _ Hkeep _] & _).
    rewrite Hkeep; [done|].
    intros (it & Hid & Hin)%list_elem_of_fmap.
    destruct (picked_row env _ _ _ _ it Hpicked Hin)
      as (s0 & u & k & Hs0 & _ & _ & Hdue & _).
    rewrite <- Hid, IH in Hs0. injection Hs0 as <-.
    destruct Hdue as (_ & Hna & _). simpl in Hna. by rewrite Hnull in Hna.
  - rewrite Hsame. by apply IH.
Qed.

(** X13.  A schedule whose [next_send] is NULL is never due: no run of
    the dispatcher selects it or changes it, whatever else happens to
    the database in between, so it is never sent and its [last_sent]
    never changes. *)
Theorem null_next_send_never_fires w w' id s :
  dispatcher_runs w w' →
  notification_schedules (committed (session w)) !! id = Some s →
  ns_next_send s = None →
  notification_schedules (committed (session w')) !! id = Some s.
Proof. apply null_row_kept. Qed.

(** X14.  Whatever fails, a run of the dispatcher leaves the users, the
    topics, the associations and the quiz entries as they are, hands
    nothing to FCM, never rolls back and never sleeps.  A schedule is as
    before, or it was active and due and has the assignments of a send;
    the notifications only grow, by reminder records of users of the
    database that carry no token and are not marked as sent.  Without a
    Firebase app the whole database is as before. *)
Theorem dispatcher_frame env w :
  let db := committed (session w) in
  let w' := run_dispatcher env w in
  let db' := committed (session w') in
  users db' = users db
  ∧ topics db' = topics db
  ∧ user_topics db' = user_topics db
  ∧ daily_quiz_schedules db' = daily_quiz_schedules db
  ∧ fcm_outbox w' = fcm_outbox w
  ∧ rollbacks w' = rollbacks w
  ∧ slept w' = slept w
  ∧ (∀ id,
       notification_schedules db' !! id = notification_schedules db !! id
       ∨ ∃ s k,
           notification_schedules db !! id = Some s
           ∧ notification_schedules db' !! id
             = Some (after_send (utc_clock env k) s)
           ∧ (ticks w ≤ k)%nat
           ∧ ns_is_active s = true
           ∧ not_after (ns_next_send s) (utc_clock env (ticks w)))
  ∧ (∃ extra,
       notifications db' = notifications db ++ extra
       ∧ Forall (λ n, ∃ u, users db !! n_user_id n = Some u
                           ∧ n = reminder_record (n_user_id n, u)
                           ∧ n_fcm_token n = None
                           ∧ n_is_sent n = false)
           extra)
  ∧ (firebase_app env = true ∨ db' = db).
Proof.
  intros db w' db'.
  destruct (run_dispatcher_spec env w)
    as (items & w1 & Hget & Hnd & Hpicked
        & [Husers Htopics Hut Hquiz Hev Hkeep (extra & Hextra & Hall)]
        & [Hrb Hsl Hout]).
  fold db w' db' in Husers, Htopics, Hut, Hquiz, Hev, Hkeep, Hextra, Hrb,
    Hsl, Hout.
  split_and!; try done.
  - intros id.
    destruct (decide (id ∈ p_schedule <$> items)) as [Hin|Hout'];
      [|left; by apply Hkeep].
    destruct (Hev id) as [Hsame|(s & k & Hs & Hs' & Hk & _)]; [by left|].
    right. exists s, k. split_and!; [done|done|done|..].
    all: apply list_elem_of_fmap in Hin as (it & Hid & Hin).
    all: destruct (picked_row env _ _ _ _ it Hpicked Hin)
           as (s0 & u & k' & Hs0 & _ & _ & Hdue & _).
    all: fold db in Hs0; rewrite <- Hid, Hs in Hs0; injection Hs0 as <-.
    all: by destruct Hdue as (? & ? & _).
  - exists extra. split; [done|].
    eapply Forall_impl; [exact Hall|]. simpl.
    intros n (it & Hin & ->).
    destruct (picked_row env _ _ _ _ it Hpicked Hin)
      as (s0 & u & k' & _ & Hu & Hpu & _).
    exists u. rewrite Hpu. simpl. by split_and!.
  - destruct (firebase_app env) eqn:Hfb; [by left|right].
    destruct (run_dispatcher_unfold env w) as (w2 & _ & Hrd & _ & Hdb & _).
    unfold db', w'. rewrite Hdb.
    rewrite dispatch_loop_no_firebase by done.
    by destruct Hrd as [-> _ _ _ _ _].
Qed.

(** *** The theorems on the campus *)

Lemma reminder_due :
  is_due (utc_clock calm 0) (7, reminder, (ns_user_id reminder, alice)).
Proof. unfold is_due. simpl. split_and!; [done|by vm_compute|done|done]. Defined.

Lemma late_reminder_due :
  is_due (utc_clock calm 0) (8, late_reminder, (ns_user_id late_reminder, bob)).
Proof. unfold is_due. simpl. split_and!; [done|by vm_compute|done|done]. Defined.

Lemma pending_list_exact_witness :
  session (world_on campus) = open_session campus
  ∧ p_schedule
      <$> default [] (pending_of calm campus 1 (select_due (utc_clock calm 0)
                                                  campus))
    = [7; 8]
  ∧ (get_pending_notifications calm (world_on campus)).1
    = Returned
        (default []
           (pending_of calm campus 1 (select_due (utc_clock calm 0) campus))).
Proof.
  split; [reflexivity|]. split; [reflexivity|].
  destruct (pending_list_exact calm campus (world_on campus)) as (Hr & _).
  - reflexivity.
  - exact Hr.
Defined.

Lemma double_completed_suppresses_all_witness :
  (notification_schedules campus_twice_done !! 7 = Some reminder
   ∧ users campus_twice_done !! 1 = Some alice)
  ∧ committed (session (run_dispatcher calm (world_on campus_twice_done)))
    = campus_twice_done.
Proof.
  split; [by split|].
  destruct (double_completed_suppresses_all calm
              (world_on campus_twice_done) 7 reminder alice) as (Hdb & _).
  - reflexivity.
  - reflexivity.
  - exact reminder_due.
  - intros k. rewrite clock_stays_on_a_day. vm_compute. lia.
  - exact Hdb.
Defined.

Lemma due_reminder_is_sent_witness :
  (firebase_app calm = true
   ∧ notification_schedules campus !! 7 = Some reminder
   ∧ users campus !! 1 = Some alice)
  ∧ ∃ k, notification_schedules
           (committed (session (run_dispatcher calm (world_on campus)))) !! 7
         = Some (after_send (utc_clock calm k) reminder).
Proof.
  split; [by split_and!|].
  destruct (due_reminder_is_sent calm (world_on campus) 7 reminder alice)
    as ((k & _ & Hs) & _).
  - reflexivity.
  - intros k. reflexivity.
  - reflexivity.
  - reflexivity.
  - exact reminder_due.
  - intros k. reflexivity.
  - intros uid k. simpl. lia.
  - by exists k.
Defined.

Lemma stale_schedule_fires_again_witness :
  (firebase_app calm = true
   ∧ notification_schedules campus !! 8 = Some late_reminder
   ∧ users campus !! 2 = Some bob)
  ∧ ∃ k1 k2,
      notification_schedules
        (committed
           (session
              (run_dispatcher calm (run_dispatcher calm (world_on campus)))))
        !! 8
      = Some (after_send (utc_clock calm k2)
                (after_send (utc_clock calm k1) late_reminder)).
Proof.
  split; [by split_and!|].
  destruct (stale_schedule_fires_again calm (world_on campus) 8 late_reminder
              bob)
    as ((k1 & k2 & _ & _ & Hs) & _).
  - reflexivity.
  - intros k. reflexivity.
  - reflexivity.
  - reflexivity.
  - exact late_reminder_due.
  - intros k. simpl. unfold clock, midnight, a_day, hour, second,
      timedelta, microseconds_per_day. lia.
  - intros k. reflexivity.
  - intros uid k. simpl. lia.
  - by exists k1, k2.
Defined.

Lemma null_next_send_never_fires_witness :
  (notification_schedules campus_dormant !! 9 = Some dormant
   ∧ ns_next_send dormant = None)
  ∧ notification_schedules
      (committed (session (run_dispatcher calm (world_on campus_dormant))))
      !! 9
    = Some dormant.
Proof.
  split; [by split|].
  apply (null_next_send_never_fires (world_on campus_dormant)).
  - apply runs_dispatch, runs_none.
  - reflexivity.
  - reflexivity.
Defined.

End PendingFacts.

(** ** scheduler.py: the schedule of one user *)

Module UserScheduleFacts.
Import Orm Scheduler SchedulerRest Spec Examples OrmFacts ExampleFacts
  SchedulerFacts BatchFacts.

(** The entry [create_user_quiz_schedule] adds at the k-th reading. *)
Lemma create_user_block_run env uid db w :
  session w = open_session db →
  let today := date_of (local_clock env (ticks w)) in
  let q := mkDailyQuizSchedule uid (local_clock env (S (ticks w)))
             (ut_topic_id <$> take 5 (select_own_topics uid db)) 1 false in
  ∃ w', create_user_block env uid w
        = (match select_schedule_from uid today db with
           | [] =>
               match select_own_topics uid db with
               | [] => Returned ()
               | _ :: _ =>
                   if commit_ok env (commits w) then Returned ()
                   else Raised (DBAPIError "commit failed")
               end
           | [_] => Returned ()
           | _ :: _ :: _ => Raised MultipleResultsFound
           end, w')
        ∧ rollbacks w' = rollbacks w
        ∧ slept w' = slept w
        ∧ fcm_outbox w' = fcm_outbox w
        ∧ logged w' = logged w
        ∧ committed (session w')
          = match select_schedule_from uid today db,
                  select_own_topics uid db with
            | [], _ :: _ =>
                if commit_ok env (commits w)
                then with_quiz (λ l, l ++ [q]) db else db
            | _, _ => db
            end
        ∧ match select_schedule_from uid today db,
                select_own_topics uid db with
          | [], _ :: _ =>
              if commit_ok env (commits w)
              then session w' = open_session (with_quiz (λ l, l ++ [q]) db)
              else True
          | _, _ => session w' = open_session db
          end.
Proof.
  intros Hs today q. unfold create_user_block.
  unfold bind at 1. unfold now, bind at 1, utcnow, ret. cbn [fst snd].
  set (w1 := mkWorld (session w) (S (ticks w)) (commits w) (rollbacks w)
               (logged w) (fcm_outbox w) (slept w)).
  unfold bind at 1.
  rewrite (NotifierFacts.execute_open_session env db _ w1) by done.
  fold (local_clock env (ticks w)). fold today.
  destruct (select_schedule_from uid today db) as [|e1 [|e2 es]].
  - unfold scalar_one_or_none, bind at 1, ret.
    unfold bind at 1.
    rewrite (NotifierFacts.execute_open_session env db _ w1) by done.
    destruct (select_own_topics uid db) as [|ut uts] eqn:Huts.
    { exists w1. split_and!; simpl; rewrite ?Hs; done. }
    unfold bind at 1. unfold now, bind at 1, utcnow, ret. cbn [fst snd].
    unfold bind at 1, add_quiz. cbn [fst snd].
    unfold commit, with_session. cbn [commits ticks session].
    change (commits w1) with (commits w).
    destruct (commit_ok env (commits w)).
    + eexists. split; [reflexivity|]. simpl. rewrite Hs. simpl.
      unfold commit_session, flush. simpl.
      split_and!; try done.
      * unfold with_notifications, with_quiz. simpl. by rewrite app_nil_r.
      * unfold open_session, with_notifications, with_quiz. simpl.
        by rewrite app_nil_r.
    + eexists. split; [reflexivity|]. simpl. rewrite Hs. by split_and!.
  - exists w1. split_and!; simpl; rewrite ?Hs; done.
  - exists w1. split_and!; simpl; rewrite ?Hs; done.
Qed.

(** The handler of [create_user_quiz_schedule] around the block. *)
Lemma create_user_run env uid db w :
  session w = open_session db →
  let today := date_of (local_clock env (ticks w)) in
  let q := mkDailyQuizSchedule uid (local_clock env (S (ticks w)))
             (ut_topic_id <$> take 5 (select_own_topics uid db)) 1 false in
  let r := create_user_quiz_schedule env uid w in
  (r.1 = Returned ()
   ∨ (r.1 = Raised (DBAPIError "rollback failed")
      ∧ rollback_ok env (rollbacks w) = false))
  ∧ slept r.2 = slept w
  ∧ fcm_outbox r.2 = fcm_outbox w
  ∧ committed (session r.2)
    = match select_schedule_from uid today db,
            select_own_topics uid db with
      | [], _ :: _ =>
          if commit_ok env (commits w)
          then with_quiz (λ l, l ++ [q]) db else db
      | _, _ => db
      end
  ∧ (commit_ok env (commits w) = true →
     session r.2 = open_session (committed (session r.2))).
Proof.
  intros Hs today q r. unfold r, create_user_quiz_schedule, try_except.
  destruct (create_user_block_run env uid db w Hs)
    as (w1 & Hrun & Hrb & Hsl & Hout & Hlog & Hdb & Hs1).
  fold today q in Hrun, Hdb, Hs1. rewrite Hrun.
  destruct (select_schedule_from uid today db) as [|e1 [|e2 es]].
  - destruct (select_own_topics uid db) as [|ut uts].
    { simpl. split_and!; [by left|done..| ]. intros _. by rewrite ?Hs1. }
    destruct (commit_ok env (commits w)) eqn:Hc.
    { simpl. split_and!; [by left|done..| ]. intros _.
      by rewrite ?Hs1. }
    simpl. unfold bind, log, rollback. simpl. rewrite Hrb.
    destruct (rollback_ok env (rollbacks w)); simpl;
      (split_and!; [by auto|done..]).
  - simpl. split_and!; [by left|done..| ]. intros _. by rewrite ?Hs1.
  - simpl. unfold bind, log, rollback. simpl. rewrite Hrb.
    destruct (rollback_ok env (rollbacks w)); simpl.
    + split_and!; [by left|done..| ]. intros _. by rewrite ?Hs1.
    + split_and!; [by right|done..| ]. intros _. by rewrite ?Hs1.
Qed.

(** The rows of the per-user query are the active associations of the
    user, by descending priority. *)
Lemma select_own_topics_perm uid db :
  select_own_topics uid db ≡ₚ active_user_topics uid db.
Proof. apply merge_sort_Permutation. Qed.

#[global] Instance by_priority_desc_trans : Transitive by_priority_desc.
Proof. unfold by_priority_desc. intros a b c. lia. Qed.

#[global] Instance by_priority_desc_total : Total by_priority_desc.
Proof. unfold by_priority_desc. intros a b. lia. Qed.

Lemma select_own_topics_sorted uid db :
  StronglySorted by_priority_desc (select_own_topics uid db).
Proof. apply StronglySorted_merge_sort; apply _. Qed.

(** The join of the batch query drops the associations whose topic does
    not exist; the per-user query keeps them. *)
Lemma joined_rows db : ∀ l,
  (flat_map (join_topic db) l).*1
  = filter (λ ut, is_Some (topics db !! ut_topic_id ut)) l.
Proof.
  induction l as [|ut l IH]; [done|]. simpl.
  rewrite fmap_app, IH. unfold join_topic at 1.
  destruct (topics db !! ut_topic_id ut) as [t|] eqn:Ht.
  - rewrite filter_cons_True; [done|]. by rewrite Ht.
  - rewrite filter_cons_False; [done|]. rewrite Ht. by intros [? ?].
Qed.

Lemma fmap_fst_filter {A B} (P : A → Prop) (Q : A * B → Prop)
    `{!∀ x, Decision (P x)} `{!∀ r, Decision (Q r)} (l : list (A * B)) :
  (∀ r, Q r ↔ P r.1) →
  (filter Q l).*1 = filter P l.*1.
Proof.
  intros HPQ. induction l as [|r l IH]; [done|]. rewrite fmap_cons.
  destruct (decide (P r.1)) as [Hr|Hr].
  - rewrite !filter_cons_True; [|done|by apply HPQ].
    rewrite fmap_cons. by rewrite IH.
  - rewrite !filter_cons_False; [done|done|]. by rewrite HPQ.
Qed.

Lemma filter_all {A} (P : A → Prop) `{!∀ x, Decision (P x)} (l : list A) :
  Forall P l → filter P l = l.
Proof.
  induction 1 as [|x l Hx _ IH]; [done|].
  rewrite filter_cons_True by done. by rewrite IH.
Qed.

Lemma StronglySorted_filter {A} (R : relation A) (P : A → Prop)
    `{!∀ x, Decision (P x)} (l : list A) :
  StronglySorted R l → StronglySorted R (filter P l).
Proof.
  induction 1 as [|x l Hs IH Hall]; [constructor|].
  destruct (decide (P x)).
  - rewrite filter_cons_True by done. constructor; [done|].
    rewrite Forall_forall in Hall. apply Forall_forall.
    intros y [_ Hy]%list_elem_of_filter. by apply Hall.
  - by rewrite filter_cons_False.
Qed.

Lemma NoDup_fmap_eq {A B} (f : A → B) (l : list A) x y :
  NoDup (f <$> l) → x ∈ l → y ∈ l → f x = f y → x = y.
Proof.
  induction l as [|a l IH]; intros Hnd Hx Hy Hf.
  { by apply elem_of_nil in Hx. }
  rewrite fmap_cons in Hnd. apply NoDup_cons in Hnd as [Hnew Hnd].
  apply elem_of_cons in Hx as [->|Hx]; apply elem_of_cons in Hy as [->|Hy].
  - done.
  - destruct Hnew. rewrite Hf. apply list_elem_of_fmap. by exists y.
  - destruct Hnew. rewrite <- Hf. apply list_elem_of_fmap. by exists x.
  - by apply IH.
Qed.

Lemma batch_rows_of_own_rows uid db :
  (select_user_topics uid db).*1
  ≡ₚ filter (λ ut, is_Some (topics db !! ut_topic_id ut))
       (select_own_topics uid db).
Proof.
  rewrite select_user_topics_perm, select_own_topics_perm.
  assert (Hrows :
    (active_associations uid db).*1
    = filter (λ ut, ut_user_id ut = uid ∧ ut_is_active ut = true)
        (filter (λ ut, is_Some (topics db !! ut_topic_id ut))
           (user_topics db))).
  { unfold active_associations. rewrite <- joined_rows.
    by apply fmap_fst_filter. }
  rewrite Hrows. unfold active_user_topics.
  rewrite !list_filter_filter.
  erewrite list_filter_iff; [reflexivity|]. intros ut. simpl. tauto.
Qed.

(** An entry of a user dated on a day is among the entries from that
    day on. *)
Lemma entries_on_from uid d db :
  entries_on uid d db `sublist_of` select_schedule_from uid d db.
Proof.
  unfold entries_on, select_schedule_from.
  induction (daily_quiz_schedules db) as [|q l IH]; [done|].
  rewrite !filter_cons.
  destruct (decide (dq_user_id q = uid
                    ∧ date_of (dq_scheduled_date q) = d)) as [[Hu Hd]|Hno];
    destruct (decide (dq_user_id q = uid
                      ∧ midnight d <= dq_scheduled_date q)) as [Hin|Hout].
  - by apply sublist_skip.
  - destruct Hout. split; [done|]. apply date_of_bounds in Hd. lia.
  - by apply sublist_cons.
  - done.
Qed.

(** X15.  On a session just opened [create_user_quiz_schedule] writes
    one entry when the user has no entry from today on, follows an
    active topic and the commit succeeds, and leaves the database as it
    was in every other case: with one such entry, with two of them (the
    lookup then raises and the handler rolls back), without an active
    topic, or with a commit that fails.  The entry is dated at the second
    reading of the clock and holds the first five topics by descending
    priority.  The users table is never read.  The method raises only
    when the rollback of its handler fails; it never sleeps and hands
    nothing to FCM. *)
Theorem create_user_outcome env uid db w :
  let today := date_of (local_clock env (ticks w)) in
  let q := mkDailyQuizSchedule uid (local_clock env (S (ticks w)))
             (ut_topic_id <$> take 5 (select_own_topics uid db)) 1 false in
  let r := create_user_quiz_schedule env uid w in
  session w = open_session db →
  committed (session r.2)
  = match select_schedule_from uid today db,
          select_own_topics uid db with
    | [], _ :: _ =>
        if commit_ok env (commits w)
        then with_quiz (λ l, l ++ [q]) db else db
    | _, _ => db
    end
  ∧ (r.1 = Returned ()
     ∨ (r.1 = Raised (DBAPIError "rollback failed")
        ∧ rollback_ok env (rollbacks w) = false))
  ∧ slept r.2 = slept w
  ∧ fcm_outbox r.2 = fcm_outbox w.
Proof.
  intros today q r Hs.
  destruct (create_user_run env uid db w Hs) as (Hr & Hsl & Hout & Hdb & _).
  by split_and!.
Qed.

(** X16.  The topics [create_user_quiz_schedule] reads are the active
    associations of the user by descending priority, with no join on the
    topics: the rows the batch job reads for the same user are those
    among them whose topic exists. *)
Theorem own_topics_without_join uid db :
  StronglySorted by_priority_desc (select_own_topics uid db)
  ∧ select_own_topics uid db ≡ₚ active_user_topics uid db
  ∧ (select_user_topics uid db).*1
    ≡ₚ filter (λ ut, is_Some (topics db !! ut_topic_id ut))
         (select_own_topics uid db)
  ∧ (length (ut_topic_id <$> take 5 (select_own_topics uid db)) ≤ 5)%nat.
Proof.
  split_and!.
  - apply select_own_topics_sorted.
  - apply select_own_topics_perm.
  - apply batch_rows_of_own_rows.
  - rewrite length_fmap, length_take. lia.
Qed.

(** X17.  When the topic of every active association of the user exists
    and no two of the associations have the same priority, the batch job
    and [create_user_quiz_schedule] select the same topics in the same
    order. *)
Theorem both_paths_same_topics uid db :
  Forall (λ ut, is_Some (topics db !! ut_topic_id ut))
    (active_user_topics uid db) →
  NoDup (ut_priority <$> active_user_topics uid db) →
  (λ r : UserTopic * Topic, ut_topic_id r.1)
    <$> take 5 (select_user_topics uid db)
  = ut_topic_id <$> take 5 (select_own_topics uid db).
Proof.
  intros Hall Hnd.
  assert (Heq : (select_user_topics uid db).*1 = select_own_topics uid db).
  { apply (StronglySorted_unique_strong by_priority_desc).
    - intros x1 x2 Hx1 Hx2 H12 H21.
      apply (NoDup_fmap_eq ut_priority (active_user_topics uid db));
        [done| |by rewrite <- select_own_topics_perm|].
      + rewrite batch_rows_of_own_rows in Hx1.
        apply list_elem_of_filter in Hx1 as [_ Hx1].
        by rewrite <- select_own_topics_perm.
      + unfold by_priority_desc in *. lia.
    - apply (StronglySorted_fmap fst priority_desc);
        [done|apply select_user_topics_sorted].
    - apply select_own_topics_sorted.
    - rewrite batch_rows_of_own_rows. rewrite filter_all; [done|].
      by rewrite select_own_topics_perm. }
  rewrite <- Heq, <- fmap_take, <- list_fmap_compose. done.
Qed.

(** X18.  Calling [create_user_quiz_schedule] twice on a day for a user
    is calling it once, provided the commit of the first call succeeds:
    the second call finds the entry of the first, or what stopped the
    first, and writes nothing. *)
Theorem create_user_idempotent env uid db w :
  let w1 := (create_user_quiz_schedule env uid w).2 in
  let w2 := (create_user_quiz_schedule env uid w1).2 in
  session w = open_session db →
  commit_ok env (commits w) = true →
  (∀ k, date_of (local_clock env k) = date_of (local_clock env (ticks w))) →
  committed (session w2) = committed (session w1).
Proof.
  intros w1 w2 Hs Hc Hday.
  destruct (create_user_run env uid db w Hs) as (_ & _ & _ & Hdb & Hs1).
  specialize (Hs1 Hc). fold w1 in Hdb, Hs1. rewrite Hc in Hdb.
  destruct (create_user_run env uid _ w1 Hs1) as (_ & _ & _ & Hdb2 & _).
  fold w2 in Hdb2. rewrite Hdb2. rewrite (Hday (ticks w1)).
  set (today := date_of (local_clock env (ticks w))) in *.
  destruct (select_schedule_from uid today db) as [|e1 es] eqn:Hfrom.
  - destruct (select_own_topics uid db) as [|ut uts] eqn:Htop.
    + rewrite Hdb, Hfrom, Htop. done.
    + rewrite Hdb. unfold select_schedule_from, with_quiz. simpl.
      rewrite filter_app. fold (select_schedule_from uid today db).
      rewrite Hfrom. simpl. rewrite filter_cons_True; [done|]. simpl.
      split; [done|].
      pose proof (Hday (S (ticks w))) as Hd. fold today in Hd.
      apply date_of_bounds in Hd. lia.
  - assert (Hsame : committed (session w1) = db) by by destruct es.
    rewrite Hsame, Hfrom. by destruct es.
Qed.

(** X19.  The two ways to a quiz entry do not double-book: after
    [create_user_quiz_schedule] has written the entry of a user, a run
    of the batch job on the same day adds no entry for that user,
    whatever fails in the run. *)
Theorem create_user_then_batch env uid db w :
  let today := date_of (local_clock env (ticks w)) in
  let q := mkDailyQuizSchedule uid (local_clock env (S (ticks w)))
             (ut_topic_id <$> take 5 (select_own_topics uid db)) 1 false in
  let w1 := (create_user_quiz_schedule env uid w).2 in
  let w2 := run_generator env w1 in
  session w = open_session db →
  select_schedule_from uid today db = [] →
  select_own_topics uid db ≠ [] →
  commit_ok env (commits w) = true →
  (∀ k, date_of (local_clock env k) = today) →
  committed (session w1) = with_quiz (λ l, l ++ [q]) db
  ∧ entries_on uid today (committed (session w2)) = [q].
Proof.
  intros today q w1 w2 Hs Hfrom Htop Hc Hday.
  destruct (create_user_run env uid db w Hs) as (_ & _ & _ & Hdb & _).
  fold w1 today q in Hdb. rewrite Hfrom, Hc in Hdb.
  destruct (select_own_topics uid db) as [|ut uts] eqn:Huts; [done|].
  split; [done|].
  assert (Hq : entries_on uid today (committed (session w1)) = [q]).
  { rewrite Hdb. unfold entries_on, with_quiz. simpl. rewrite filter_app.
    fold (entries_on uid today db).
    pose proof (entries_on_from uid today db) as Hsub.
    rewrite Hfrom in Hsub. apply sublist_nil_r in Hsub. rewrite Hsub.
    simpl. rewrite filter_cons_True; [done|]. simpl. split; [done|].
    apply (Hday (S (ticks w))). }
  destruct (generator_cases env w1) as [(_ & _ & Hdb2)|[_ Hdb2]];
    fold w2 in Hdb2; rewrite Hdb2; [|done].
  rewrite (Hday (ticks w1)).
  unfold entries_on, with_quiz. simpl. rewrite filter_app.
  fold (entries_on uid today (committed (session w1))). rewrite Hq.
  rewrite filter_none; [done|].
  destruct (planned_users env (committed (session w1)) today
              (select_active_users (committed (session w1)))
              (S (ticks w1)) (NoDup_select_active_users _)) as [_ Hall].
  eapply Forall_impl; [exact Hall|]. simpl.
  intros q' (u & k & _ & _ & Hw & ->) [Hu _]. simpl in Hu.
  apply wants_entry_true in Hw as [Hnone _]. rewrite Hu, Hq in Hnone.
  done.
Qed.

(** *** The theorems on the campus *)

Lemma create_user_outcome_witness :
  session (world_on campus) = open_session campus
  ∧ daily_quiz_schedules
      (committed
         (session (create_user_quiz_schedule calm 1 (world_on campus)).2))
    = [mkDailyQuizSchedule 1 (local_clock calm 1) [20; 30; 10] 1 false].
Proof.
  split; [reflexivity|].
  destruct (create_user_outcome calm 1 campus (world_on campus)) as (Hdb & _).
  - reflexivity.
  - rewrite Hdb. reflexivity.
Defined.

Lemma both_paths_same_topics_witness :
  NoDup (ut_priority <$> active_user_topics 1 campus)
  ∧ (λ r : UserTopic * Topic, ut_topic_id r.1)
      <$> take 5 (select_user_topics 1 campus)
    = ut_topic_id <$> take 5 (select_own_topics 1 campus).
Proof.
  assert (Hnd : NoDup (ut_priority <$> active_user_topics 1 campus)).
  { apply (bool_decide_unpack _). vm_compute. exact I. }
  split; [exact Hnd|].
  apply both_paths_same_topics; [|exact Hnd].
  unfold active_user_topics. simpl.
  repeat (constructor; [by eexists|]). constructor.
Defined.

Lemma create_user_idempotent_witness :
  (session (world_on campus) = open_session campus
   ∧ commit_ok calm 0 = true)
  ∧ let w1 := (create_user_quiz_schedule calm 1 (world_on campus)).2 in
    let w2 := (create_user_quiz_schedule calm 1 w1).2 in
    committed (session w2) = committed (session w1).
Proof.
  split; [by split|].
  apply (create_user_idempotent calm 1 campus (world_on campus)).
  - reflexivity.
  - reflexivity.
  - intros k. by rewrite !clock_stays_on_a_day.
Defined.

Lemma create_user_then_batch_witness :
  (select_schedule_from 1 a_day campus = []
   ∧ commit_ok calm 0 = true)
  ∧ let w1 := (create_user_quiz_schedule calm 1 (world_on campus)).2 in
    entries_on 1 a_day (committed (session (run_generator calm w1)))
    = [mkDailyQuizSchedule 1 (local_clock calm 1) [20; 30; 10] 1 false].
Proof.
  split; [by split|].
  destruct (create_user_then_batch calm 1 campus (world_on campus))
    as (_ & Hq).
  - reflexivity.
  - reflexivity.
  - discriminate.
  - reflexivity.
  - intros k. by rewrite !clock_stays_on_a_day.
  - exact Hq.
Defined.

End UserScheduleFacts.

(** ** notification.py: setting up the daily reminder *)

Module SetupFacts.
Import Orm Notifier NotifierRest Spec SpecRest Examples MoreExamples
  OrmFacts NotifierFacts PendingFacts.



(** [setup_daily_notifications] on a session just opened, case by
    case. *)
Lemma setup_run env T uid db w :
  session w = open_session db →
  let id := new_key (notification_schedules db) in
  ∃ w', setup_daily_notifications env T uid w = (Returned (), w')
  ∧ rollbacks w' = rollbacks w
  ∧ slept w' = slept w
  ∧ fcm_outbox w' = fcm_outbox w
  ∧ match scheduled_time_of T (local_clock env (ticks w)) with
    | inr t =>
        if commit_ok env (commits w)
        then session w'
             = open_session
                 (with_schedules (λ m, <[id := daily_schedule uid t]> m) db)
             ∧ logged w' = logged w
        else committed (session w') = db
             ∧ logged w'
               = logged w ++
                   [(ERROR,
                     "Error setting up daily notifications: commit failed")]
    | inl e =>
        session w' = session w
        ∧ commits w' = commits w
        ∧ logged w'
          = logged w ++
              [(ERROR,
                "Error setting up daily notifications: "
                  +:+ str_time_error e)]
    end.
Proof.
  intros Hs id. unfold setup_daily_notifications, try_except.
  unfold bind at 1. unfold now, bind at 1, utcnow, ret. cbn [fst snd].
  fold (local_clock env (ticks w)).
  destruct (scheduled_time_of T (local_clock env (ticks w))) as [e|t].
  { eexists. split; [reflexivity|]. by split_and!. }
  unfold bind, add_schedule, commit, with_session. simpl.
  destruct (commit_ok env (commits w)); simpl.
  - eexists. split; [reflexivity|]. simpl.
    split_and!; try done. rewrite Hs. unfold commit_session, flush. simpl.
    unfold open_session, with_notifications, with_quiz, with_schedules.
    simpl. by rewrite !app_nil_r.
  - eexists. split; [reflexivity|]. simpl.
    split_and!; try done. by rewrite Hs.
Qed.

(** The configured texts of the form [HH:MM]. *)
Lemma every_clock_text_round_trips :
  forallb (λ h, forallb (round_trips h) (seqZ 0 60)) (seqZ 0 24) = true.
Proof. vm_compute. reflexivity. Qed.

Lemma clock_text_parsed h m :
  0 <= h < 24 → 0 <= m < 60 →
  hour_minute_of (clock_text h m) = inr (h, m).
Proof.
  intros Hh Hm.
  pose proof every_clock_text_round_trips as Hall.
  apply Is_true_true, forallb_True in Hall.
  rewrite Forall_forall in Hall.
  assert (Hin : h ∈ seqZ 0 24) by (apply elem_of_seqZ; lia).
  apply Hall in Hin. cbv beta in Hin.
  apply forallb_True in Hin. rewrite Forall_forall in Hin.
  assert (Hin' : m ∈ seqZ 0 60) by (apply elem_of_seqZ; lia).
  apply Hin in Hin'. cbv beta in Hin'. unfold round_trips in Hin'.
  by apply bool_decide_unpack in Hin'.
Qed.


(** X21.  The schedule [setup_daily_notifications] creates has no
    [next_send], and nothing in the service ever gives it one: through
    any number of runs of the dispatcher the row stays exactly as it was
    created, with no [last_sent]: the reminder is never sent. *)
Theorem setup_schedule_never_sent env T uid db w t w' :
  let id := new_key (notification_schedules db) in
  let w1 := (setup_daily_notifications env T uid w).2 in
  session w = open_session db →
  scheduled_time_of T (local_clock env (ticks w)) = inr t →
  commit_ok env (commits w) = true →
  dispatcher_runs w1 w' →
  notification_schedules (committed (session w1)) !! id
  = Some (daily_schedule uid t)
  ∧ notification_schedules (committed (session w')) !! id
    = Some (daily_schedule uid t)
  ∧ ns_last_sent (daily_schedule uid t) = None
  ∧ ns_next_send (daily_schedule uid t) = None.
Proof.
  intros id w1 Hs Ht Hc Hruns.
  destruct (setup_run env T uid db w Hs)
    as (w1' & Hrun & _ & _ & _ & Hcase).
  fold id in Hcase. rewrite Ht, Hc in Hcase. destruct Hcase as [Hs1 _].
  assert (w1 = w1') as <- by (unfold w1; by rewrite Hrun).
  assert (Hrow : notification_schedules (committed (session w1)) !! id
                 = Some (daily_schedule uid t)).
  { rewrite Hs1. simpl. apply lookup_insert_eq. }
  split_and!; [done| |done|done].
  by apply (null_row_kept w1 w').
Qed.

(** X22.  The configured time is read as the configuration writes it:
    for every hour and minute of the day, the text of two digits, a
    colon and two digits gives back the hour and the minute, and the
    scheduled time is that time of the day of the call. *)
Theorem clock_text_round_trip h m now :
  0 <= h < 24 →
  0 <= m < 60 →
  hour_minute_of (clock_text h m) = inr (h, m)
  ∧ scheduled_time_of (clock_text h m) now
    = inr (midnight (date_of now) + h * 3600000000 + m * 60000000).
Proof.
  intros Hh Hm. split; [by apply clock_text_parsed|].
  unfold scheduled_time_of. rewrite clock_text_parsed by done.
  rewrite !bool_decide_eq_true_2 by done. simpl.
  f_equal; unfold minute; lia.
Qed.

(** *** The theorems on the campus *)


Lemma setup_schedule_never_sent_witness :
  (scheduled_time_of "09:00" (local_clock calm 0)
   = inr (midnight a_day + 9 * hour)
   ∧ commit_ok calm 0 = true)
  ∧ let w1 := (setup_daily_notifications calm "09:00" 2 (world_on campus)).2
    in
    notification_schedules
      (committed (session (run_dispatcher calm w1))) !! 9
    = Some dormant.
Proof.
  split; [by split|].
  destruct (setup_schedule_never_sent calm "09:00" 2 campus (world_on campus)
              (midnight a_day + 9 * hour)
              (run_dispatcher calm
                 (setup_daily_notifications calm "09:00" 2
                    (world_on campus)).2))
    as (_ & Hkept & _).
  - reflexivity.
  - reflexivity.
  - reflexivity.
  - apply runs_dispatch, runs_none.
  - exact Hkept.
Defined.

Lemma clock_text_round_trip_witness :
  clock_text 9 0 = "09:00"
  ∧ scheduled_time_of "09:00" (midnight a_day + 4 * hour)
    = inr (midnight a_day + 9 * hour).
Proof.
  split; [reflexivity|].
  destruct (clock_text_round_trip 9 0 (midnight a_day + 4 * hour))
    as [_ Ht]; [lia|lia|].
  exact Ht.
Defined.

End SetupFacts.

(** ** scraper.py: the page fetcher and the adapters *)

Module AdapterFacts.
Import Scraper Bs4 Json WebScraper WebSpec Spec PyFacts ScraperFacts.

(** *** The fetcher *)

Lemma scrape_page_run web url n :
  scrape_page web url n
  = (match cancelled web url with
     | Some e => Err (Known e)
     | None => Ok (fetched web url)
     end,
     mkNet (events n ++ one_request web url)
       (records n ++
          if session_open web then
            match http_get web url with
            | Returned _ => []
            | Raised e =>
                if is_Exception e
                then [(ERROR, "Error scraping " +:+ url +:+ ": " +:+ str_exn e)]
                else []
            end
          else [(ERROR,
                 "Error scraping " +:+ url +:+ ": "
                   +:+ "'NoneType' object has no attribute 'get'")])
       (questions n)).
Proof.
  unfold scrape_page, try_except, bind, emit, session_get, cancelled,
    fetched, one_request.
  destruct (session_open web); simpl.
  - unfold bind, emit. simpl.
    destruct (http_get web url) as [text|e]; simpl.
    + by rewrite app_nil_r, <- app_assoc.
    + destruct (is_Exception e); simpl;
        by rewrite ?app_nil_r, <- app_assoc.
  - done.
Qed.

(** *** The loop over the containers of a page *)

Lemma for_each_collect (question : node → option ScrapedQuestion)
    (h : fault → W unit) : ∀ (containers : list node) n,
  for_each containers
    (λ container,
       try_except
         (match question container with
          | None => ret ()
          | Some q => append q
          end) (h : fault → W unit)) n
  = (Ok (),
     mkNet (events n) (records n) (questions n ++ omap question containers)).
Proof.
  induction containers as [|c cs IH]; intros n; simpl.
  { rewrite app_nil_r. by destruct n. }
  unfold bind, try_except.
  destruct (question c) as [q|]; simpl; rewrite IH; simpl.
  - by rewrite <- app_assoc.
  - done.
Qed.

(** An adapter of a page, whatever its address, its selector and the
    record it makes of a container. *)
Lemma page_adapter_run web search_url select question
    (h1 h2 : fault → W unit) n :
  bind new_questions
    (λ _,
       bind
         (try_except
            (bind (scrape_page web search_url)
               (λ html,
                  if negb (truthy_str html) then ret ()
                  else
                    for_each (select (BeautifulSoup web (default "" html)))
                      (λ container,
                         try_except
                           (match question container with
                            | None => ret ()
                            | Some q => append q
                            end) h1)))
            h2)
         (λ _, return_questions)) n
  = match cancelled web search_url with
    | Some e =>
        (Err (Known e),
         mkNet (events n ++ one_request web search_url) (records n) [])
    | None =>
        (Ok (page_questions web search_url select question),
         mkNet (events n ++ one_request web search_url)
           (records (scrape_page web search_url n).2)
           (page_questions web search_url select question))
    end.
Proof.
  unfold bind at 1, new_questions. unfold bind at 1, try_except at 1.
  unfold bind at 1. rewrite !scrape_page_run.
  unfold cancelled, fetched, page_questions, one_request.
  destruct (session_open web); simpl.
  - destruct (http_get web search_url) as [text|e]; simpl.
    + destruct (String.eqb text ""); simpl; [done|].
      by rewrite for_each_collect.
    + destruct (is_Exception e) eqn:He; simpl; rewrite ?He; simpl;
        by rewrite ?app_nil_r.
  - done.
Qed.

Lemma scrape_tcyonline_run web topic n :
  let search_url := "https://www.tcyonline.com/search?q=" +:+ topic in
  let select := find_all "div" (Some "question-container") in
  let question := tcyonline_question search_url topic in
  scrape_tcyonline web topic n
  = match cancelled web search_url with
    | Some e =>
        (Err (Known e),
         mkNet (events n ++ one_request web search_url) (records n) [])
    | None =>
        (Ok (page_questions web search_url select question),
         mkNet (events n ++ one_request web search_url)
           (records (scrape_page web search_url n).2)
           (page_questions web search_url select question))
    end.
Proof. intros. apply page_adapter_run. Qed.

Lemma scrape_prepinsta_run web topic n :
  let search_url :=
    "https://prepinsta.com/" +:+ topic_slug topic +:+ "-questions" in
  let select := find_all "div" (Some "mcq-question") in
  let question := prepinsta_question search_url topic in
  scrape_prepinsta web topic n
  = match cancelled web search_url with
    | Some e =>
        (Err (Known e),
         mkNet (events n ++ one_request web search_url) (records n) [])
    | None =>
        (Ok (page_questions web search_url select question),
         mkNet (events n ++ one_request web search_url)
           (records (scrape_page web search_url n).2)
           (page_questions web search_url select question))
    end.
Proof. intros. apply page_adapter_run. Qed.

Lemma scrape_indiabix_run web topic n :
  let search_url :=
    "https://www.indiabix.com/" +:+ topic_slug topic
      +:+ "/questions-and-answers" in
  let select := find_all "div" (Some "bix-div-container") in
  let question := indiabix_question search_url topic in
  scrape_indiabix web topic n
  = match cancelled web search_url with
    | Some e =>
        (Err (Known e),
         mkNet (events n ++ one_request web search_url) (records n) [])
    | None =>
        (Ok (page_questions web search_url select question),
         mkNet (events n ++ one_request web search_url)
           (records (scrape_page web search_url n).2)
           (page_questions web search_url select question))
    end.
Proof. intros. apply page_adapter_run. Qed.

(** *** The records of a page *)

Lemma options_or_None_not_empty l : options_or_None l ≠ Some [].
Proof. by destruct l. Qed.

Lemma tcyonline_question_record search_url topic_ c q :
  tcyonline_question search_url topic_ c = Some q →
  page_record "TCYOnline" search_url topic_ q.
Proof.
  unfold tcyonline_question.
  destruct (find "div" (Some "question-text") c); [|done].
  intros [= <-]. split_and!; try done. apply options_or_None_not_empty.
Qed.

Lemma prepinsta_question_record search_url topic_ c q :
  prepinsta_question search_url topic_ c = Some q →
  page_record "PrepInsta" search_url topic_ q.
Proof.
  unfold prepinsta_question.
  destruct (find "p" (Some "question") c); [|done].
  intros [= <-]. split_and!; try done. apply options_or_None_not_empty.
Qed.

Lemma is_A_to_D_letter c :
  is_A_to_D c = true → String c EmptyString ∈ answer_letters.
Proof.
  unfold is_A_to_D. intros H.
  apply andb_true_iff in H as [Hlo Hhi].
  apply Nat.leb_le in Hlo, Hhi.
  rewrite <- (ascii_nat_embedding c).
  assert (nat_of_ascii c = 65 ∨ nat_of_ascii c = 66
          ∨ nat_of_ascii c = 67 ∨ nat_of_ascii c = 68)%nat
    as [-> | [-> | [-> | ->]]] by lia; unfold answer_letters; simpl.
  - by left.
  - right. by left.
  - do 2 right. by left.
  - do 3 right. by left.
Qed.

Lemma search_answer_letter : ∀ s a,
  search_answer s = Some a → a ∈ answer_letters.
Proof.
  assert (Hhere : ∀ s a, answer_here s = Some a → a ∈ answer_letters).
  { intros s a. unfold answer_here.
    destruct (skip_exact _ s) as [rest|]; [|done].
    destruct (lstrip_chars rest) as [|c ?]; [done|].
    destruct (is_A_to_D c) eqn:Hc; [|done].
    intros [= <-]. by apply is_A_to_D_letter. }
  induction s as [|c s IH]; intros a; [done|].
  change (search_answer (c :: s))
    with (match answer_here (c :: s) with
          | Some a => Some a
          | None => search_answer s
          end).
  destruct (answer_here (c :: s)) as [a'|] eqn:Ha.
  - intros [= <-]. by eapply Hhere.
  - apply IH.
Qed.

Lemma indiabix_question_record search_url topic_ c q :
  indiabix_question search_url topic_ c = Some q →
  page_record "IndiaBIX" search_url topic_ q ∧ indiabix_record q.
Proof.
  unfold indiabix_question.
  destruct (find "td" (Some "bix-td-qtxt") c); [|done].
  intros [= <-]. split.
  { split_and!; try done. apply options_or_None_not_empty. }
  split; simpl.
  - destruct (find "table" (Some "bix-tbl-options") c) as [t|]; [|done].
    unfold kept_options.
    destruct (filter _ _) as [|o os] eqn:Hf; simpl; [done|].
    rewrite <- Hf. apply Forall_forall.
    by intros o' [[_ ?] _]%list_elem_of_filter.
  - destruct (find "div" (Some "bix-ans-description") c) as [a|]; [|done].
    destruct (search_answer _) as [x|] eqn:Hx; [|done].
    by eapply search_answer_letter.
Qed.

Lemma page_questions_Forall web search_url select question
    (P : ScrapedQuestion → Prop) :
  (∀ c q, question c = Some q → P q) →
  Forall P (page_questions web search_url select question).
Proof.
  intros HP. unfold page_questions.
  destruct (session_open web); [|done].
  destruct (http_get web search_url) as [html|e]; [|done].
  destruct (String.eqb html ""); [done|].
  apply Forall_forall. intros q (c & _ & Hq)%list_elem_of_omap.
  by eapply HP.
Qed.

Lemma page_questions_length web search_url select question :
  (length (page_questions web search_url select question)
   ≤ match fetched web search_url with
     | Some html => length (select (BeautifulSoup web html))
     | None => 0
     end)%nat.
Proof.
  unfold page_questions, fetched.
  destruct (session_open web); [|done].
  destruct (http_get web search_url) as [html|e]; [|done].
  destruct (String.eqb html ""); simpl; [lia|].
  generalize (select (BeautifulSoup web html)) as l.
  induction l as [|c l IH]; csimpl; [done|].
  destruct (question c); csimpl; lia.
Qed.

Lemma polite_one_request web url :
  polite (SCRAPING_DELAY web) (one_request web url) = true.
Proof.
  unfold one_request. destruct (session_open web); simpl;
    by rewrite bool_decide_eq_true_2.
Qed.

(** X23.  [scrape_page] waits the configured delay before it asks, once
    for each page, also when there is no session to ask with.  It
    returns the text of the answer, and [None] with one error in the log
    when the request or its status raises an [Exception]; the only
    exception that leaves it is one that is no [Exception], like a
    cancellation.  The list [questions] of the caller is left alone. *)
Theorem scrape_page_waits_then_asks web url n :
  let r := scrape_page web url n in
  r.1 = match cancelled web url with
        | Some e => Err (Known e)
        | None => Ok (fetched web url)
        end
  ∧ events r.2 = events n ++ one_request web url
  ∧ polite (SCRAPING_DELAY web) (one_request web url) = true
  ∧ questions r.2 = questions n
  ∧ length (records r.2)
    = (length (records n)
       + match cancelled web url, fetched web url with
         | None, None => 1
         | _, _ => 0
         end)%nat.
Proof.
  intros r. unfold r. rewrite scrape_page_run. simpl.
  split_and!; [done|done|apply polite_one_request|done|].
  rewrite length_app. f_equal.
  unfold cancelled, fetched. destruct (session_open web); [|done].
  destruct (http_get web url) as [text|e]; [done|].
  by destruct (is_Exception e).
Qed.

(** X24.  Each of the three page adapters makes one request, to the
    address of its site for the topic, after one sleep of the configured
    delay, and nothing else.  It returns the records of the containers
    of the page that hold a question, in the order of the page, and the
    empty list when the page cannot be fetched or is empty.  It raises
    only what is no [Exception]. *)
Theorem page_adapters_one_request web topic_ n :
  let tcy := scrape_tcyonline web topic_ n in
  let prep := scrape_prepinsta web topic_ n in
  let bix := scrape_indiabix web topic_ n in
  (tcy.1 = page_outcome web (tcyonline_url topic_)
             (find_all "div" (Some "question-container"))
             (tcyonline_question (tcyonline_url topic_) topic_)
   ∧ events tcy.2 = events n ++ one_request web (tcyonline_url topic_))
  ∧ (prep.1 = page_outcome web (prepinsta_url topic_)
                (find_all "div" (Some "mcq-question"))
                (prepinsta_question (prepinsta_url topic_) topic_)
     ∧ events prep.2 = events n ++ one_request web (prepinsta_url topic_))
  ∧ (bix.1 = page_outcome web (indiabix_url topic_)
               (find_all "div" (Some "bix-div-container"))
               (indiabix_question (indiabix_url topic_) topic_)
     ∧ events bix.2 = events n ++ one_request web (indiabix_url topic_)).
Proof.
  intros tcy prep bix. unfold tcy, prep, bix, page_outcome.
  rewrite scrape_tcyonline_run, scrape_prepinsta_run, scrape_indiabix_run.
  cbv zeta.
  fold (tcyonline_url topic_) (prepinsta_url topic_) (indiabix_url topic_).
  split_and!.
  all: match goal with
       | |- context [cancelled ?w ?u] => by destruct (cancelled w u)
       end.
Qed.

(** X25.  Every record of a page adapter carries the name of its site,
    the address that was asked, the topic and the difficulty [medium],
    and no company; its options are [None] or a list that is not empty.
    There are at most as many records as containers on the page.  An
    option of IndiaBIX is longer than two characters, and its answer is
    one of the letters A to D or [None]. *)
Theorem page_records_tagged web topic_ :
  let tcy := page_questions web (tcyonline_url topic_)
               (find_all "div" (Some "question-container"))
               (tcyonline_question (tcyonline_url topic_) topic_) in
  let prep := page_questions web (prepinsta_url topic_)
                (find_all "div" (Some "mcq-question"))
                (prepinsta_question (prepinsta_url topic_) topic_) in
  let bix := page_questions web (indiabix_url topic_)
               (find_all "div" (Some "bix-div-container"))
               (indiabix_question (indiabix_url topic_) topic_) in
  Forall (page_record "TCYOnline" (tcyonline_url topic_) topic_) tcy
  ∧ Forall (page_record "PrepInsta" (prepinsta_url topic_) topic_) prep
  ∧ Forall (λ q, page_record "IndiaBIX" (indiabix_url topic_) topic_ q
                 ∧ indiabix_record q) bix
  ∧ (length tcy
     ≤ match fetched web (tcyonline_url topic_) with
       | Some html =>
           length (find_all "div" (Some "question-container")
                     (BeautifulSoup web html))
       | None => 0
       end)%nat.
Proof.
  intros tcy prep bix. split_and!.
  - apply page_questions_Forall, tcyonline_question_record.
  - apply page_questions_Forall, prepinsta_question_record.
  - apply page_questions_Forall, indiabix_question_record.
  - apply page_questions_length.
Qed.

(** *** The Reddit adapter *)

Section Keeps.
Variable P : ScrapedQuestion → Prop.

Lemma grows_refl n : grows P n n.
Proof. split; [done|]. exists []. by rewrite app_nil_r. Qed.

Lemma grows_trans n1 n2 n3 : grows P n1 n2 → grows P n2 n3 → grows P n1 n3.
Proof.
  intros [He1 (l1 & Hq1 & Hl1)] [He2 (l2 & Hq2 & Hl2)].
  split; [congruence|]. exists (l1 ++ l2).
  split; [by rewrite Hq2, Hq1, app_assoc|by apply Forall_app].
Qed.

Lemma keeps_ret {A} (a : A) : keeps (grows P) only_exceptions (ret a).
Proof. intros n. split; [apply grows_refl|done]. Qed.

Lemma keeps_raise {A} f : only_exceptions f → keeps (grows P) only_exceptions (@raise A f).
Proof. intros Hf n. split; [apply grows_refl|]. by intros f' [= <-]. Qed.

Lemma keeps_bind {A B} (m : W A) (k : A → W B) :
  keeps (grows P) only_exceptions m → (∀ a, keeps (grows P) only_exceptions (k a)) →
  keeps (grows P) only_exceptions (bind m k).
Proof.
  intros Hm Hk n. unfold bind.
  destruct (Hm n) as [HR HF]. destruct (m n) as [[a|f] n1]; simpl in *.
  - destruct (Hk a n1) as [HR' HF']. split; [by eapply grows_trans|done].
  - split; [done|]. intros f' [= <-]. by apply HF.
Qed.

Lemma keeps_for_each {A} (l : list A) (body : A → W unit) :
  Forall (λ x, keeps (grows P) only_exceptions (body x)) l →
  keeps (grows P) only_exceptions (for_each l body).
Proof.
  induction 1 as [|x l Hx _ IH]; simpl; [apply keeps_ret|].
  apply keeps_bind; [done|]. intros _. apply IH.
Qed.

Lemma keeps_log lv msg : keeps (grows P) only_exceptions (log lv msg).
Proof. intros n. split; [|done]. split; [done|]. exists []. simpl.
  by rewrite app_nil_r. Qed.

Lemma keeps_append q : P q → keeps (grows P) only_exceptions (append q).
Proof.
  intros Hq n. split; [|done]. split; [done|]. exists [q]. simpl.
  split; [done|by apply Forall_singleton].
Qed.

Lemma keeps_get v key d : keeps (grows P) only_exceptions (get v key d).
Proof. destruct v; try (by apply keeps_raise). apply keeps_ret. Qed.

Lemma keeps_iterate v : keeps (grows P) only_exceptions (iterate v).
Proof. destruct v; try (by apply keeps_raise); apply keeps_ret. Qed.

Lemma keeps_loads web html : keeps (grows P) only_exceptions (loads web html).
Proof.
  unfold loads. destruct (json_loads web html);
    [apply keeps_ret|by apply keeps_raise].
Qed.

Lemma keeps_try_except_json {A} (m h : W A) :
  keeps (grows P) only_exceptions m → keeps (grows P) only_exceptions h →
  keeps (grows P) only_exceptions (try_except_json m h).
Proof.
  intros Hm Hh n. unfold try_except_json.
  destruct (Hm n) as [HR HF]. destruct (m n) as [[a|f] n1]; simpl in *.
  - done.
  - destruct f as [[]| |]; simpl.
    2:{ destruct (Hh n1) as [HR' HF']. split; [by eapply grows_trans|done]. }
    all: split; [done|]; intros f' [= <-]; by apply HF.
Qed.

End Keeps.

Lemma scrape_post_keeps web company post :
  keeps (grows (reddit_record company)) only_exceptions
    (scrape_post web company post).
Proof.
  unfold scrape_post.
  apply keeps_bind; [apply keeps_get|intros post_data].
  apply keeps_bind; [apply keeps_get|intros title].
  apply keeps_bind; [apply keeps_get|intros selftext].
  apply keeps_bind; [apply keeps_get|intros permalink].
  apply keeps_for_each, Forall_forall. intros q_text Hin.
  apply keeps_append.
  destruct (extraction_well_formed re_findall question_patterns
              (str web title +:+ " " +:+ str web selftext)) as [_ Hall].
  rewrite Forall_forall in Hall. destruct (Hall q_text Hin) as [Hlen Hstrip].
  split_and!; try done. by eexists.
Qed.

(** One turn of the loop over the subreddits: one request, and records
    of Reddit. *)
Lemma scrape_subreddit_step web company subreddit n :
  let r := scrape_subreddit web company subreddit n in
  events r.2 = events n ++ one_request web (reddit_url company subreddit)
  ∧ (∃ l, questions r.2 = questions n ++ l
          ∧ Forall (reddit_record company) l)
  ∧ match r.1 with
    | Ok _ => True
    | Err f =>
        is_exception f = true
        ∨ ∃ e, f = Known e
               ∧ cancelled web (reddit_url company subreddit) = Some e
    end.
Proof.
  intros r. remember r as x eqn:Hr. unfold r, scrape_subreddit in Hr.
  clear r. cbv zeta in Hr.
  fold (reddit_url company subreddit) in Hr.
  set (url := reddit_url company subreddit) in *.
  unfold bind at 1 in Hr. rewrite scrape_page_run in Hr.
  destruct (cancelled web url) as [e|] eqn:Hc; simpl in Hr.
  { subst x. simpl. split_and!; [done| |right; by exists e].
    exists []. by rewrite app_nil_r. }
  destruct (truthy_str (fetched web url)); simpl in Hr.
  2:{ subst x. simpl. split_and!; [done| |done].
      exists []. by rewrite app_nil_r. }
  match type of Hr with
  | context [try_except_json ?m ?h ?n0] =>
      assert (Hk : keeps (grows (reddit_record company)) only_exceptions
                     (try_except_json m h));
      [|destruct (Hk n0) as [Hg HF]; unfold grows in Hg;
        destruct Hg as [He Hq];
        destruct (try_except_json m h n0) as [[[]|f] n1]; subst x;
        simpl in *]
  end.
  - apply keeps_try_except_json; [|apply keeps_log].
    apply keeps_bind; [apply keeps_loads|intros data].
    apply keeps_bind; [apply keeps_get|intros listing].
    apply keeps_bind; [apply keeps_get|intros posts].
    apply keeps_bind; [apply keeps_iterate|intros posts'].
    apply keeps_for_each, Forall_forall. intros post _.
    apply scrape_post_keeps.
  - by split_and!.
  - split_and!; [done|done|left; by apply HF].
Qed.


(** The loop over the subreddits: a request for each subreddit in turn,
    up to the one that raises. *)
Lemma subreddits_loop web company : ∀ subs n,
  let r := for_each subs (scrape_subreddit web company) n in
  (∃ k, (k ≤ length subs)%nat
        ∧ events r.2
          = events n
              ++ flat_map (one_request web)
                   (reddit_url company <$> take k subs)
        ∧ match r.1 with
          | Ok _ => k = length subs
          | Err f => (0 < k)%nat
          end)
  ∧ (∃ l, questions r.2 = questions n ++ l
          ∧ Forall (reddit_record company) l)
  ∧ match r.1 with
    | Ok _ => True
    | Err f =>
        is_exception f = true
        ∨ ∃ e sub, sub ∈ subs ∧ f = Known e
                   ∧ cancelled web (reddit_url company sub) = Some e
    end.
Proof.
  induction subs as [|sub subs IH]; intros n r.
  { unfold r. simpl. split_and!; [|exists []; by rewrite app_nil_r|done].
    exists 0%nat. simpl. by rewrite app_nil_r. }
  assert (Hr : r = bind (scrape_subreddit web company sub)
                     (λ _, for_each subs (scrape_subreddit web company)) n)
    by done.
  clearbody r. unfold bind in Hr.
  pose proof (scrape_subreddit_step web company sub n) as (Hev & Hq & Hf).
  destruct (scrape_subreddit web company sub n) as [[[]|f] n1]; simpl in *.
  - specialize (IH n1). cbv zeta in IH. rewrite <- Hr in IH.
    destruct IH as ((k & Hk & Hev' & Hr') & (l' & Hq' & Hl') & Hf').
    destruct Hq as (l & Hq & Hl). split_and!.
    + exists (S k). split; [lia|]. simpl.
      rewrite Hev', Hev, <- app_assoc. split; [done|].
      destruct r.1; lia.
    + exists (l ++ l'). rewrite Hq', Hq, <- app_assoc.
      split; [done|by apply Forall_app].
    + destruct r.1 as [[]|f]; [done|].
      destruct Hf' as [?|(e & s & Hin & ? & ?)]; [by left|right].
      exists e, s. split_and!; [by right|done|done].
  - subst r. simpl. split_and!; [|done|].
    + exists 1%nat. simpl. rewrite app_nil_r. split_and!; [lia|done|lia].
    + destruct Hf as [?|(e & ? & ?)]; [by left|right].
      exists e, sub. split_and!; [by left|done|done].
Qed.

(** [scrape_reddit_interviews], whatever the sites answer. *)
Lemma scrape_reddit_run web company n :
  let r := scrape_reddit_interviews web company n in
  (∃ k, (k ≤ 3)%nat
        ∧ events r.2
          = events n
              ++ flat_map (one_request web)
                   (reddit_url company <$> take k subreddits))
  ∧ Forall (reddit_record company) (questions r.2)
  ∧ (r.1 = Ok (questions r.2)
     ∨ ∃ e sub, sub ∈ subreddits ∧ r.1 = Err (Known e)
                ∧ cancelled web (reddit_url company sub) = Some e).
Proof.
  intros r. remember r as x eqn:Hr. unfold r, scrape_reddit_interviews in Hr.
  clear r.
  unfold bind at 1, new_questions in Hr. unfold bind at 1, try_except in Hr.
  set (n0 := mkNet (events n) (records n) []) in Hr.
  pose proof (subreddits_loop web company subreddits n0)
    as ((k & Hk & Hev & _) & (l & Hq & Hl) & Hf).
  destruct (for_each subreddits (scrape_subreddit web company) n0)
    as [[[]|f] n1]; simpl in *.
  - subst x. simpl. split_and!; [by exists k|by rewrite Hq|by left].
  - destruct (is_exception f) eqn:Hex; subst x; simpl.
    + split_and!; [by exists k|by rewrite Hq|by left].
    + split_and!; [by exists k|by rewrite Hq|right].
      destruct Hf as [?|(e & sub & ? & ? & ?)]; [congruence|].
      exists e, sub. split_and!; [done|by f_equal|done].
Qed.

(** The first turn of the loop for a page whose body is no JSON. *)
Lemma scrape_subreddit_no_json web company subreddit html n :
  session_open web = true →
  http_get web (reddit_url company subreddit) = Returned html →
  html ≠ "" →
  json_loads web html = None →
  scrape_subreddit web company subreddit n
  = (Ok (),
     mkNet
       (events n
          ++ [Slept (SCRAPING_DELAY web);
              Got (reddit_url company subreddit)])
       (records n
          ++ [(ERROR,
               "Error parsing Reddit JSON for subreddit " +:+ subreddit)])
       (questions n)).
Proof.
  intros Hs Hg Hne Hj. unfold scrape_subreddit. cbv zeta.
  fold (reddit_url company subreddit).
  unfold bind at 1. rewrite scrape_page_run.
  unfold cancelled, fetched, one_request. rewrite Hs, Hg. simpl.
  apply String.eqb_neq in Hne. rewrite Hne. simpl.
  unfold try_except_json, bind, loads. rewrite Hj. simpl.
  by rewrite app_nil_r.
Qed.

(** The first turn for a page whose body is JSON but no object. *)
Lemma scrape_subreddit_odd_json web company subreddit html v n :
  session_open web = true →
  http_get web (reddit_url company subreddit) = Returned html →
  html ≠ "" →
  json_loads web html = Some v →
  type_name v ≠ "dict" →
  scrape_subreddit web company subreddit n
  = (Err (AttributeError
            ("'" +:+ type_name v +:+ "' object has no attribute 'get'")),
     mkNet
       (events n
          ++ [Slept (SCRAPING_DELAY web);
              Got (reddit_url company subreddit)])
       (records n) (questions n)).
Proof.
  intros Hs Hg Hne Hj Hv. unfold scrape_subreddit. cbv zeta.
  fold (reddit_url company subreddit).
  unfold bind at 1. rewrite scrape_page_run.
  unfold cancelled, fetched, one_request. rewrite Hs, Hg. simpl.
  apply String.eqb_neq in Hne. rewrite Hne. simpl.
  unfold try_except_json, bind, loads. rewrite Hj. simpl.
  destruct v; simpl; by rewrite ?app_nil_r.
Qed.

(** *** The shape of a topic in an address *)

Lemma lower_idemp c : lower (lower c) = lower c.
Proof.
  destruct c as [[] [] [] [] [] [] [] []]; vm_compute; reflexivity.
Qed.

Lemma lower_not_upper c :
  let n := nat_of_ascii (lower c) in ((65 <=? n) && (n <=? 90))%nat = false.
Proof.
  destruct c as [[] [] [] [] [] [] [] []]; vm_compute; reflexivity.
Qed.






(** X27.  A body of the first subreddit that is no JSON costs that
    subreddit only: the error is logged and the next subreddit is asked.
    A body that is JSON but no object, a list for one, ends the whole
    call: the [AttributeError] goes past the handler of the JSON errors
    to the outer handler, no other subreddit is asked, and the empty
    list is returned with the error in the log. *)
Theorem reddit_json_faults web company html n :
  let url := reddit_url company "cscareerquestions" in
  let r := scrape_reddit_interviews web company n in
  session_open web = true →
  http_get web url = Returned html →
  html ≠ "" →
  match json_loads web html with
  | None =>
      ∃ k, (2 ≤ k ≤ 3)%nat
           ∧ events r.2
             = events n
                 ++ flat_map (one_request web)
                      (reddit_url company <$> take k subreddits)
  | Some v =>
      type_name v = "dict"
      ∨ (r.1 = Ok []
         ∧ events r.2 = events n ++ [Slept (SCRAPING_DELAY web); Got url]
         ∧ records r.2
           = records n
               ++ [(ERROR,
                    "Error scraping Reddit interviews: '" +:+ type_name v
                      +:+ "' object has no attribute 'get'")])
  end.
Proof.
  intros url r Hs Hg Hne.
  remember r as x eqn:Hr. unfold r, scrape_reddit_interviews in Hr.
  clear r.
  unfold bind at 1, new_questions in Hr. unfold bind at 1, try_except in Hr.
  set (n0 := mkNet (events n) (records n) []) in Hr.
  change (for_each subreddits (scrape_subreddit web company) n0)
    with (bind (scrape_subreddit web company "cscareerquestions")
            (λ _, for_each ["interviews"; "programming"]
                    (scrape_subreddit web company)) n0) in Hr.
  unfold bind at 1 in Hr.
  destruct (json_loads web html) as [v|] eqn:Hj.
  - destruct (decide (type_name v = "dict")) as [|Hv]; [by left|right].
    rewrite (scrape_subreddit_odd_json web company _ html v) in Hr by done.
    simpl in Hr. subst x. simpl. by split_and!.
  - rewrite (scrape_subreddit_no_json web company _ html) in Hr by done.
    set (n1 := mkNet _ _ _) in Hr.
    pose proof (subreddits_loop web company ["interviews"; "programming"]
                  n1) as ((k & Hk & Hev & Hres) & _).
    assert (Hshift : ∀ k,
      events n1
        ++ flat_map (one_request web)
             (reddit_url company <$> take k ["interviews"; "programming"])
      = events n
          ++ flat_map (one_request web)
               (reddit_url company <$> take (S k) subreddits)).
    { intros k'.
      change (take (S k') subreddits)
        with ("cscareerquestions" :: take k' ["interviews"; "programming"]).
      rewrite fmap_cons.
      change (flat_map (one_request web) (?a :: ?l))
        with (one_request web a ++ flat_map (one_request web) l).
      unfold one_request at 2. rewrite Hs. unfold n1. cbn [events].
      by rewrite <- app_assoc. }
    exists (S k). simpl in Hk.
    destruct (for_each ["interviews"; "programming"] _ n1)
      as [[[]|f] n2]; simpl in Hev, Hres.
    + assert (Hev' : events x.2 = events n2) by by subst x.
      subst k. split; [lia|]. by rewrite Hev', Hev, Hshift.
    + assert (Hev' : events x.2 = events n2).
      { subst x. by destruct (is_exception f). }
      split; [lia|]. by rewrite Hev', Hev, Hshift.
Qed.

(** X28.  With the adapters of this scraper and a web on which no
    request is cancelled, every task of [scrape_all_sources] returns a
    list: the branch that logs a failed task is never taken, and the
    result is the lists of TCYOnline, PrepInsta and IndiaBIX for the
    topic, then that of Reddit when a company is given. *)
Theorem all_sources_never_logs_failure web topic_ company :
  (∀ url, cancelled web url = None) →
  scrape_all_sources (adapters web) topic_ company
  = (Returned
       (page_questions web (tcyonline_url topic_)
          (find_all "div" (Some "question-container"))
          (tcyonline_question (tcyonline_url topic_) topic_)
        ++ page_questions web (prepinsta_url topic_)
             (find_all "div" (Some "mcq-question"))
             (prepinsta_question (prepinsta_url topic_) topic_)
        ++ page_questions web (indiabix_url topic_)
             (find_all "div" (Some "bix-div-container"))
             (indiabix_question (indiabix_url topic_) topic_)
        ++ (if truthy_str company
            then questions
                   (scrape_reddit_interviews web company (mkNet [] [] [])).2
            else [])),
     []).
Proof.
  intros Hcalm.
  assert (Ht : Scraper.scrape_tcyonline (adapters web) topic_
               = Returned
                   (page_questions web (tcyonline_url topic_)
                      (find_all "div" (Some "question-container"))
                      (tcyonline_question (tcyonline_url topic_) topic_))).
  { simpl. unfold awaited. rewrite scrape_tcyonline_run. cbv zeta.
    fold (tcyonline_url topic_). by rewrite Hcalm. }
  assert (Hp : Scraper.scrape_prepinsta (adapters web) topic_
               = Returned
                   (page_questions web (prepinsta_url topic_)
                      (find_all "div" (Some "mcq-question"))
                      (prepinsta_question (prepinsta_url topic_) topic_))).
  { simpl. unfold awaited. rewrite scrape_prepinsta_run. cbv zeta.
    fold (prepinsta_url topic_). by rewrite Hcalm. }
  assert (Hb : Scraper.scrape_indiabix (adapters web) topic_
               = Returned
                   (page_questions web (indiabix_url topic_)
                      (find_all "div" (Some "bix-div-container"))
                      (indiabix_question (indiabix_url topic_) topic_))).
  { simpl. unfold awaited. rewrite scrape_indiabix_run. cbv zeta.
    fold (indiabix_url topic_). by rewrite Hcalm. }
  assert (Hr : Scraper.scrape_reddit_interviews (adapters web) company
               = Returned
                   (questions
                      (scrape_reddit_interviews web company
                         (mkNet [] [] [])).2)).
  { simpl. unfold awaited.
    destruct (scrape_reddit_run web company (mkNet [] [] []))
      as (_ & _ & [->|(e & sub & _ & _ & Hc)]); [done|].
    by rewrite Hcalm in Hc. }
  rewrite scrape_all_sources_unfold. cbv zeta. f_equal.
  - f_equal. rewrite foldl_fold_result_questions.
    unfold tasks_of. rewrite Ht, Hp, Hb, Hr.
    destruct (truthy_str company); simpl; by rewrite ?app_nil_r.
  - unfold tasks_of. rewrite Ht, Hp, Hb, Hr.
    by destruct (truthy_str company).
Qed.


(** *** The theorems on the small web *)

Lemma small_web_calm url : cancelled small_web url = None.
Proof.
  unfold cancelled, small_web. simpl.
  repeat (destruct (String.eqb url _); [reflexivity|]). reflexivity.
Defined.

Lemma reddit_json_faults_witness :
  (session_open small_web = true
   ∧ json_loads small_web "<html>Too many requests</html>" = None
   ∧ json_loads odd_web "[]" = Some (JArray []))
  ∧ (∃ k, (2 ≤ k ≤ 3)%nat
          ∧ events
              (scrape_reddit_interviews small_web (Some "bank")
                 (mkNet [] [] [])).2
            = flat_map (one_request small_web)
                (reddit_url (Some "bank") <$> take k subreddits))
  ∧ (scrape_reddit_interviews odd_web None (mkNet [] [] [])).1 = Ok [].
Proof.
  split; [by split_and!|]. split.
  - pose proof (reddit_json_faults small_web (Some "bank")
                  "<html>Too many requests</html>" (mkNet [] [] [])
                  eq_refl eq_refl) as H.
    apply H. discriminate.
  - pose proof (reddit_json_faults odd_web None "[]" (mkNet [] [] [])
                  eq_refl eq_refl) as H.
    destruct H as [H|(H & _)]; [discriminate|discriminate|exact H].
Defined.

Lemma all_sources_never_logs_failure_witness :
  (scrape_all_sources (adapters small_web) "os" (Some "bank")).2 = []
  ∧ ∃ l, (scrape_all_sources (adapters small_web) "os" (Some "bank")).1
         = Returned l.
Proof.
  rewrite (all_sources_never_logs_failure small_web "os" (Some "bank")
             small_web_calm).
  split; [reflexivity|]. by eexists.
Defined.

End AdapterFacts.
